(** * Membership subscription and pricing: a shallow embedding

    The development follows [api/membership/models.py] (the [Membership]
    model with [subscribe], [is_downgrade], [get_stripe_plan],
    [get_project_price_detailed], [get_project_posting_price], and the
    [MembershipHistory] ledger) and the parts of [api/auth/models.py] that
    it calls ([User.can_downgrade_membership], [User.get_user_profile],
    [User.stripe_subscribe]).

    Layout: the data model and the operations come first (decimal numbers,
    calendar dates, the records of the models, the effect monad, the
    operations), the theorems follow. *)

From Stdlib Require Import ZArith QArith Qpower Qabs Qfield Lia.
From stdpp Require Import gmap strings list.

Local Open Scope Z_scope.

(** ** Python's [decimal.Decimal]

    A finite decimal is a signed coefficient and an exponent; it stands for
    [coefficient * 10 ^ exponent].  The operations below are the ones the
    models use, under the default context of the [decimal] module: a
    precision of 28 digits, rounding to nearest with ties to even, and
    exponents between [Emin] and [Emax].  An arithmetic result is the exact
    result brought into the context by [_fix]; the trapped signals
    ([InvalidOperation], [Overflow]) are raised as exceptions.  The sign of
    a zero is not kept: no operation of the models reads it. *)

Module Decimal.

Record t : Type := mk { coefficient : Z; exponent : Z }.

(** [Decimal(0.0)]: the float [0.0] converts to the decimal [0]. *)
Definition zero : t := mk 0 0.

(** An [int] operand is converted with exponent [0]. *)
Definition of_int (n : Z) : t := mk n 0.

(** [getcontext()]: the default context. *)
Definition prec : Z := 28.
Definition Emax : Z := 999999.
Definition Emin : Z := -999999.
Definition Etiny : Z := Emin - prec + 1.
Definition Etop : Z := Emax - prec + 1.

(** The signals that the default context traps and that the operations
    below can raise; each is an exception class of the [decimal] module. *)
Inductive signal : Type :=
| InvalidOperation
| Overflow.

Inductive result (A : Type) : Type :=
| Value (a : A)
| Raised (s : signal).
Arguments Value {A} a.
Arguments Raised {A} s.

#[global] Instance result_ret : MRet result := fun A (a : A) => Value a.

#[global] Instance result_bind : MBind result := fun A B (k : A -> result B) m =>
  match m with
  | Value a => k a
  | Raised s => Raised s
  end.

(** [len(self._int)]: the number of digits of the coefficient; zero is
    written with one digit. *)
Fixpoint digits_upto (fuel : nat) (n : Z) : Z :=
  match fuel with
  | O => 1
  | S fuel' => if n <? 10 then 1 else 1 + digits_upto fuel' (n / 10)
  end.

Definition digits (c : Z) : Z :=
  digits_upto (Z.to_nat (Z.log2 (Z.abs c))) (Z.abs c).

(** [self.adjusted()]: the exponent of the leading digit. *)
Definition adjusted (d : t) : Z := exponent d + digits (coefficient d) - 1.

(** The coefficient of [d] once it is written with the exponent [e],
    for [e <= exponent d]. *)
Definition rescale (d : t) (e : Z) : Z := coefficient d * 10 ^ (exponent d - e).

(** The integer nearest to [n / d] for [0 < d], ties going to the even
    neighbour ([ROUND_HALF_EVEN], the rounding of the default context). *)
Definition round_half_even (n d : Z) : Z :=
  let q := n / d in
  let r := n mod d in
  match 2 * r ?= d with
  | Lt => q
  | Gt => q + 1
  | Eq => if Z.even q then q else q + 1
  end.

(** [self._fix(context)]: a zero keeps its exponent within the range of
    the context; a coefficient of more than [prec] digits is rounded to
    [prec] digits, a result above [Emax] overflows, and a result below
    [Emin] is rounded at [Etiny]. *)
Definition _fix (d : t) : result t :=
  let c := coefficient d in
  let e := exponent d in
  if c =? 0 then Value (mk 0 (Z.min (Z.max e Etiny) Emax))
  else
    let exp_min := digits c + e - prec in
    if Etop <? exp_min then Raised Overflow
    else
      let exp_min := Z.max exp_min Etiny in
      if e <? exp_min then
        let coeff := round_half_even c (10 ^ (exp_min - e)) in
        if 10 ^ prec <=? Z.abs coeff then
          (* the carry of the rounding gave one digit too many *)
          if Etop <? exp_min + 1 then Raised Overflow
          else Value (mk (coeff / 10) (exp_min + 1))
        else Value (mk coeff exp_min)
      else Value d.

(** [a + b]: the exact sum, written with the smaller exponent, brought
    into the context. *)
Definition add (a b : t) : result t :=
  let exp := Z.min (exponent a) (exponent b) in
  _fix (mk (rescale a exp + rescale b exp) exp).

(** [a * b]: the exact product brought into the context. *)
Definition mul (a b : t) : result t :=
  _fix (mk (coefficient a * coefficient b) (exponent a + exponent b)).

(** The loop of the division that brings an exact quotient as close to
    the ideal exponent as its trailing zeros allow. *)
Fixpoint strip_zeros (fuel : nat) (coeff exp ideal_exp : Z) : Z * Z :=
  match fuel with
  | O => (coeff, exp)
  | S fuel' =>
      if (exp <? ideal_exp) && (coeff mod 10 =? 0)
      then strip_zeros fuel' (coeff / 10) (exp + 1) ideal_exp
      else (coeff, exp)
  end.

(** [a / 100]: the divisor is [Decimal(100)], with three digits and the
    exponent [0].  The quotient is computed with [prec + 1] digits and a
    last digit that records a remainder, and is then brought into the
    context. *)
Definition div100 (a : t) : result t :=
  let c := coefficient a in
  if c =? 0 then _fix (mk 0 (exponent a))
  else
    let shift := 3 - digits c + prec + 1 in
    let exp := exponent a - shift in
    let '(coeff, remainder) :=
      if 0 <=? shift then Z.div_eucl (Z.abs c * 10 ^ shift) 100
      else Z.div_eucl (Z.abs c) (100 * 10 ^ (- shift)) in
    let '(coeff, exp) :=
      if negb (remainder =? 0) then
        ((if coeff mod 5 =? 0 then coeff + 1 else coeff), exp)
      else strip_zeros (Z.to_nat (exponent a - exp)) coeff exp (exponent a) in
    _fix (mk (Z.sgn c * coeff) exp).

(** [bool(d)]: a decimal is falsy exactly when it is zero. *)
Definition truthy (d : t) : bool := negb (coefficient d =? 0).

(** [x or Decimal(0.0)] for a nullable field [x]. *)
Definition or_zero (x : option t) : t :=
  match x with
  | Some d => if truthy d then d else zero
  | None => zero
  end.

(** [a < b] compares the numbers, not the representations; a comparison
    does not use the context. *)
Definition ltb (a b : t) : bool :=
  let e := Z.min (exponent a) (exponent b) in
  rescale a e <? rescale b e.

(** [self._rescale(exp, ROUND_HALF_EVEN)]: [d] written with the exponent
    [exp], padded with zeros or rounded. *)
Definition _rescale (d : t) (exp : Z) : t :=
  if coefficient d =? 0 then mk 0 exp
  else if exp <=? exponent d then mk (rescale d exp) exp
  else mk (round_half_even (coefficient d) (10 ^ (exp - exponent d))) exp.

(** [d.quantize(Decimal((0, (1,), exp)))]: [d] written with the exponent
    [exp]; the operation is invalid when the result would not fit the
    precision or the exponent range of the context. *)
Definition quantize (d : t) (exp : Z) : result t :=
  if negb ((Etiny <=? exp) && (exp <=? Emax)) then Raised InvalidOperation
  else if coefficient d =? 0 then _fix (mk 0 exp)
  else if Emax <? adjusted d then Raised InvalidOperation
  else if prec <? adjusted d - exp + 1 then Raised InvalidOperation
  else
    let ans := _rescale d exp in
    if Emax <? adjusted ans then Raised InvalidOperation
    else if prec <? digits (coefficient ans) then Raised InvalidOperation
    else _fix ans.

(** [round(d, ndigits)], which is [Decimal.__round__]: a quantize to
    [ndigits] places. *)
Definition round (d : t) (ndigits : Z) : result t := quantize d (- ndigits).

(** [sum(values)]: the running total starts from the int [0]. *)
Definition sum (values : list t) : result t :=
  foldl (fun total value => total ← total; add total value)
        (Value (of_int 0)) values.

(** The number a decimal stands for. *)
Definition to_Q (d : t) : Q := (inject_Z (coefficient d) * (10 # 1) ^ exponent d)%Q.

End Decimal.

Abbreviation Decimal := Decimal.t.

(** Decimal literals: [dec c e] is [c * 10 ^ e]; [cents n] has two places. *)
Definition dec (c e : Z) : Decimal := Decimal.mk c e.
Definition cents (n : Z) : Decimal := Decimal.mk n (-2).

(** ** Calendar dates ([datetime.date]) *)

Record date : Type := mkdate { year : Z; month : Z; day : Z }.

(** ** The models *)

(** [membership.Membership].  The primary key is the [uuid] of
    [UUIDModel]; nullable columns are options. *)
Record Membership : Type := {
  uuid : string;
  name : string;
  application_fee_percentage : Z;
  concierge_price : option Decimal;
  expert_review_discount_percentage : option Decimal;
  matchmaking_fee : Decimal;
  marketing_package_discount_percentage : option Decimal;
  price_month : option Decimal;
  price_annual : option Decimal;
  project_price : option Decimal;
  membership_profile_type : string;
  stripe_monthly_product_name : option string;
  stripe_annual_product_name : option string;
  is_initial : bool;
  is_active : bool
}.

(** An [auth.User] instance in memory: the fields the membership code
    reads and writes.  [current_membership] is the related object the
    foreign key resolves to. *)
Record User : Type := {
  pk : Z;
  profile_type : string;
  stripe_customer_token : option string;
  current_membership : option Membership;
  last_membership_downgrade_date : option date;
  last_membership_payment_date : option date
}.

(** Modelled from the spec: the [payment.PaymentFee] model, which is
    declared outside the membership and auth modules; the fee schedule
    provides [project_posting_price] (which may be unset),
    [tax_percentage] and [stripe_percentage]. *)
Record PaymentFee : Type := {
  project_posting_price : option Decimal;
  tax_percentage : Decimal;
  stripe_percentage : Decimal
}.

(** The dictionary [get_project_price_detailed] returns, in the order of
    its keys. *)
Record PriceDetail : Type := {
  detail_project_price : Decimal;
  detail_concierge_price : Decimal;
  detail_vat_price : Decimal;
  detail_stripe_fee : Decimal
}.

Definition price_values (d : PriceDetail) : list Decimal :=
  [detail_project_price d; detail_concierge_price d;
   detail_vat_price d; detail_stripe_fee d].

(** ** Results of fallible code *)

Inductive Exception : Type :=
| TypeError
| AttributeError
| DatabaseError
| StripeError (message : string).

Inductive Result (A : Type) : Type :=
| Ok (a : A)
| Raise (e : Exception).
Arguments Ok {A} a.
Arguments Raise {A} e.

(** ** Pure operations *)

(** [Membership.is_downgrade].  [<] between decimals compares them;
    with [None] on either side it raises [TypeError]. *)
Definition decimal_lt (a b : option Decimal) : Result bool :=
  match a, b with
  | Some x, Some y => Ok (Decimal.ltb x y)
  | _, _ => Raise TypeError
  end.

Definition is_downgrade (self : Membership) (user : User) : Result bool :=
  match current_membership user with
  | None => Ok false
  | Some current =>
      if is_initial current then Ok false
      else if is_initial self then Ok true
      else decimal_lt (price_month self) (price_month current)
  end.

(** [User.can_downgrade_membership]; [today] is [date.today()]. *)
Definition can_downgrade_membership (self : User) (today : date) : bool :=
  match last_membership_downgrade_date self with
  | None => true
  | Some last =>
      negb (year last =? year today) || negb (month last =? month today)
  end.

(** [Membership.get_project_price_detailed]; [payment_fee] is the record
    [PaymentFee.get_current_fees()] returns.  The arithmetic runs in the
    default decimal context and raises what it raises. *)
Definition get_project_price_detailed (payment_fee : PaymentFee)
    (self : Membership) (has_concierge_service add_stripe_fee : bool)
    : Decimal.result PriceDetail :=
  let project_price := Decimal.or_zero (project_posting_price payment_fee) in
  '(concierge, subtotal) ←
    (if has_concierge_service then
       let concierge := Decimal.or_zero (concierge_price self) in
       subtotal ← Decimal.add project_price concierge;
       mret (concierge, subtotal)
     else mret (Decimal.zero, project_price));
  vat_price ←
    (product ← Decimal.mul subtotal (tax_percentage payment_fee);
     Decimal.div100 product);
  stripe_fee ←
    (if add_stripe_fee then
       product ← Decimal.mul subtotal (stripe_percentage payment_fee);
       Decimal.div100 product
     else mret Decimal.zero);
  let _round d := Decimal.round d 2 in
  project_price ← _round project_price;
  concierge ← _round concierge;
  vat_price ← _round vat_price;
  stripe_fee ← _round stripe_fee;
  mret {| detail_project_price := project_price;
          detail_concierge_price := concierge;
          detail_vat_price := vat_price;
          detail_stripe_fee := stripe_fee |}.

(** [Membership.get_project_posting_price]. *)
Definition get_project_posting_price (payment_fee : PaymentFee)
    (self : Membership) (has_concierge_service add_stripe_fee : bool)
    : Decimal.result Decimal :=
  price_dict ←
    get_project_price_detailed payment_fee self has_concierge_service add_stripe_fee;
  Decimal.sum (price_values price_dict).

(** ** The payment gateway

    The Stripe client is an external collaborator.  The program sends it
    requests; what it answers is part of the environment. *)

Record Plan : Type := { plan_id : string; plan_name : option string }.

Record Subscription : Type := { subscription_id : string }.

(** The keyword arguments of [stripe.Subscription.create]; [metadata] is
    [None] when the keyword is not passed. *)
Record SubscriptionParams : Type := {
  customer : option string;
  items : list string;
  metadata : option (list (string * string))
}.

Inductive Request : Type :=
| PlanList
| SubscriptionCreate (params : SubscriptionParams).

(** A reply is the error message of a failed call or its result. *)
Record Gateway : Type := {
  plan_list_reply : string + list Plan;
  subscription_create_reply : SubscriptionParams -> string + Subscription
}.

(** ** The database *)

(** The columns of the user table that [subscribe] saves. *)
Record UserRow : Type := {
  row_current_membership_id : option string;
  row_last_membership_downgrade_date : option date
}.

(** A row of one of the profile tables named in [PROFILE_TYPES_MAP];
    [user_ptr_id] is the parent link to the user. *)
Record Profile : Type := { profile_model : string; user_ptr_id : Z }.

(** Modelled from the spec: the package model behind [package_set], which
    is declared outside the membership and auth modules; a package is a
    related entity owned by the freelancer profile, with an [is_active]
    flag. *)
Record Package : Type := {
  package_id : Z;
  freelancer_id : Z;
  package_is_active : bool
}.

(** [membership.MembershipHistory]: the two foreign keys, the
    [auto_now_add] timestamp and the two remote references. *)
Record MembershipHistory : Type := {
  membership_id : string;
  user_id : Z;
  created_at : Z;
  stripe_subscription_id : option string;
  stripe_plan_id : option string
}.

(** The ledger table is kept in insertion order. *)
Record Database : Type := {
  users : gmap Z UserRow;
  profiles : list Profile;
  packages : list Package;
  history : list MembershipHistory
}.

Definition set_users (f : gmap Z UserRow -> gmap Z UserRow) (d : Database) : Database :=
  {| users := f (users d); profiles := profiles d;
     packages := packages d; history := history d |}.

Definition set_packages (f : list Package -> list Package) (d : Database) : Database :=
  {| users := users d; profiles := profiles d;
     packages := f (packages d); history := history d |}.

Definition set_history (f : list MembershipHistory -> list MembershipHistory)
    (d : Database) : Database :=
  {| users := users d; profiles := profiles d;
     packages := packages d; history := f (history d) |}.

(** ** Effects

    What [subscribe] does to the outside is recorded as a trace: the
    bounds of the enclosing transaction, the requests sent to the gateway
    and the writes to the database, in program order. *)

Inductive DbWrite : Type :=
| UpdatePackages (freelancer : Z)
| UpdateUser (user_pk : Z) (update_fields : list string)
| InsertHistory (row : MembershipHistory).

Inductive Event : Type :=
| TransactionBegin
| TransactionCommit
| TransactionRollback
| Remote (request : Request)
| Persist (write : DbWrite).

(** The environment of a call: the gateway's answers, [date.today()] and
    the clock reading [timezone.now()] that [auto_now_add] stores. *)
Record Env : Type := { gateway : Gateway; today : date; now : Z }.

(** The mutable state: the [user] object the caller passed (Python
    mutates it in place), the database and the trace. *)
Record State : Type := { user : User; db : Database; trace : list Event }.

Definition set_user (f : User -> User) (s : State) : State :=
  {| user := f (user s); db := db s; trace := trace s |}.

Definition set_db (f : Database -> Database) (s : State) : State :=
  {| user := user s; db := f (db s); trace := trace s |}.

Definition log (ev : Event) (s : State) : State :=
  {| user := user s; db := db s; trace := trace s ++ [ev] |}.

(** Computations read the environment, thread the state and may raise. *)
Definition M (A : Type) : Type := Env -> State -> Result A * State.

#[global] Instance M_ret : MRet M := fun A (a : A) _ s => (Ok a, s).

#[global] Instance M_bind : MBind M := fun A B (k : A -> M B) (m : M A) env s =>
  match m env s with
  | (Ok a, s') => k a env s'
  | (Raise e, s') => (Raise e, s')
  end.

Definition raise {A : Type} (e : Exception) : M A := fun _ s => (Raise e, s).
Definition ask : M Env := fun env s => (Ok env, s).
Definition get : M State := fun _ s => (Ok s, s).
Definition modify (f : State -> State) : M unit := fun _ s => (Ok tt, f s).
Definition emit (ev : Event) : M unit := modify (log ev).
Definition lift {A : Type} (r : Result A) : M A := fun _ s => (r, s).
Definition get_user : M User := s ← get; mret (user s).

(** [with transaction.atomic()]: the block runs between the begin and the
    end of a transaction; an exception rolls the database back to its
    state at entry and propagates.  Objects in memory and the gateway are
    not rolled back. *)
Definition atomic {A : Type} (body : M A) : M A := fun env s =>
  let s0 := log TransactionBegin s in
  match body env s0 with
  | (Ok a, s') => (Ok a, log TransactionCommit s')
  | (Raise e, s') => (Raise e, log TransactionRollback (set_db (fun _ => db s0) s'))
  end.

(** ** Operations on the user *)

Definition set_current_membership (m : option Membership) (u : User) : User :=
  {| pk := pk u; profile_type := profile_type u;
     stripe_customer_token := stripe_customer_token u;
     current_membership := m;
     last_membership_downgrade_date := last_membership_downgrade_date u;
     last_membership_payment_date := last_membership_payment_date u |}.

Definition set_last_membership_downgrade_date (d : option date) (u : User) : User :=
  {| pk := pk u; profile_type := profile_type u;
     stripe_customer_token := stripe_customer_token u;
     current_membership := current_membership u;
     last_membership_downgrade_date := d;
     last_membership_payment_date := last_membership_payment_date u |}.

(** [User.PROFILE_TYPES_MAP.get(profile_type_name, "")]. *)
Definition PROFILE_TYPES_MAP (profile_type_name : string) : string :=
  if String.eqb profile_type_name "client" then "auth.ClientProfile"
  else if String.eqb profile_type_name "freelancer" then "auth.FreelancerProfile"
  else if String.eqb profile_type_name "adviser" then "auth.AdviserProfile"
  else "".

(** [User.get_user_profile]: the first row of the profile table of the
    user's type that points to the user, or [None].  The display name of a
    profile type ([get_profile_type_display]) is the type itself. *)
Definition get_user_profile (self : User) : M (option Profile) :=
  let profile_type_name := profile_type self in
  if String.eqb profile_type_name "" then mret None
  else
    let profile_class_name := PROFILE_TYPES_MAP profile_type_name in
    if String.eqb profile_class_name "" then mret None
    else
      s ← get;
      mret (find (fun p => String.eqb (profile_model p) profile_class_name
                           && (user_ptr_id p =? pk self))
                 (profiles (db s))).

(** [profile.package_set.update(is_active=...)]. *)
Definition deactivate (owner : Z) (p : Package) : Package :=
  if freelancer_id p =? owner
  then {| package_id := package_id p; freelancer_id := freelancer_id p;
          package_is_active := false |}
  else p.

Definition package_set_update_inactive (profile : Profile) : M unit :=
  modify (set_db (set_packages (map (deactivate (user_ptr_id profile)))));;
  emit (Persist (UpdatePackages (user_ptr_id profile))).

(** [user.save(update_fields=...)]: the named columns of the user's row
    take the values of the object; without a row to update, the save
    fails.  ([User.save] also lowers the email of the object, a column
    that is not among the saved ones.) *)
Definition store_field (u : User) (row : UserRow) (field : string) : UserRow :=
  if String.eqb field "current_membership" then
    {| row_current_membership_id := uuid <$> current_membership u;
       row_last_membership_downgrade_date := row_last_membership_downgrade_date row |}
  else if String.eqb field "last_membership_downgrade_date" then
    {| row_current_membership_id := row_current_membership_id row;
       row_last_membership_downgrade_date := last_membership_downgrade_date u |}
  else row.

Definition user_save (update_fields : list string) : M unit :=
  s ← get;
  let u := user s in
  match users (db s) !! pk u with
  | None => raise DatabaseError
  | Some row =>
      modify (set_db (set_users (insert (pk u) (foldl (store_field u) row update_fields))));;
      emit (Persist (UpdateUser (pk u) update_fields))
  end.

(** [MembershipHistory.objects.create(...)]; [created_at] is set from the
    clock. *)
Definition membership_history_create (user : User) (membership : Membership)
    (plan_id subscription_id : option string) : M unit :=
  env ← ask;
  let row := {| membership_id := uuid membership; user_id := pk user;
                created_at := now env;
                stripe_subscription_id := subscription_id;
                stripe_plan_id := plan_id |} in
  modify (set_db (set_history (fun h => h ++ [row])));;
  emit (Persist (InsertHistory row)).

(** ** Calls to the gateway *)

Definition stripe_plan_list : M (list Plan) :=
  emit (Remote PlanList);;
  env ← ask;
  match plan_list_reply (gateway env) with
  | inl message => raise (StripeError message)
  | inr plans => mret plans
  end.

Definition stripe_subscription_create (params : SubscriptionParams) : M Subscription :=
  emit (Remote (SubscriptionCreate params));;
  env ← ask;
  match subscription_create_reply (gateway env) params with
  | inl message => raise (StripeError message)
  | inr subscription => mret subscription
  end.

(** [User.stripe_subscribe]. *)
Definition stripe_subscribe (self : User) (stripe_plan_id : string)
    (metadata : option (list (string * string))) : M Subscription :=
  stripe_subscription_create
    {| customer := stripe_customer_token self;
       items := [stripe_plan_id];
       metadata := None |}.

(** [Membership.get_stripe_plan]: the first listed plan whose name is in
    the tuple of product names; [None] for an initial membership and when
    no plan matches (after logging an error). *)
Definition get_stripe_plan (self : Membership) : M (option Plan) :=
  if is_initial self then mret None
  else
    let stripe_product_names := [stripe_monthly_product_name self] in
    plans ← stripe_plan_list;
    mret (find (fun plan => bool_decide (plan_name plan ∈ stripe_product_names)) plans).

(** ** [Membership.subscribe] *)

Definition subscribe_body (self : Membership) : M unit :=
  let update_fields := ["current_membership"] in
  user ← get_user;
  downgrade ← lift (is_downgrade self user);
  '(update_fields, stripe_subscription_id, stripe_plan_id) ←
    (if downgrade : bool then
       env ← ask;
       modify (set_user (set_last_membership_downgrade_date (Some (today env))));;
       let update_fields := update_fields ++ ["last_membership_downgrade_date"] in
       user ← get_user;
       (if String.eqb (profile_type user) "freelancer" then
          profile ← get_user_profile user;
          match profile with
          | None => raise AttributeError
          | Some p => package_set_update_inactive p
          end
        else mret tt);;
       mret (update_fields, None, None)
     else if negb (is_initial self) then
       stripe_plan ← get_stripe_plan self;
       match stripe_plan with
       | None => raise TypeError
       | Some plan =>
           let stripe_plan_id := plan_id plan in
           stripe_subscription ←
             stripe_subscribe user stripe_plan_id
               (Some [("object_type", "membership"); ("uuid", uuid self)]);
           mret (update_fields, Some (subscription_id stripe_subscription),
                 Some stripe_plan_id)
       end
     else mret (update_fields, None, None));
  modify (set_user (set_current_membership (Some self)));;
  user_save update_fields;;
  user ← get_user;
  membership_history_create user self stripe_plan_id stripe_subscription_id.

Definition subscribe (self : Membership) : M unit := atomic (subscribe_body self).

(** The outcome of a call of [membership.subscribe(user)]. *)
Definition run_subscribe (env : Env) (self : Membership) (u : User)
    (d : Database) : Result unit * State :=
  subscribe self env {| user := u; db := d; trace := [] |}.

(** ** Reading the specification

    The words of the specification that the theorems refer to. *)

(** The amount of a nullable price: zero when it is unset. *)
Definition amount (x : option Decimal) : Q :=
  match x with
  | Some d => Decimal.to_Q d
  | None => 0%Q
  end.

(** [r] is the amount [x] rounded to two decimal places: it is written
    with two places and lies within half a cent of [x]. *)
Definition rounded_to_cents (r : Decimal) (x : Q) : Prop :=
  Decimal.exponent r = -2 /\ (Qabs (Decimal.to_Q r - x) <= 1 # 200)%Q.

(** A decimal with at most [places] decimal places, no positive exponent,
    and an absolute value below [bound] units of the last of these
    places. *)
Definition bounded (places bound : Z) (d : Decimal) : Prop :=
  - places <= Decimal.exponent d <= 0 /\
  Z.abs (Decimal.rescale d (- places)) < bound.

(** The amounts a fee schedule and a membership hold in practice: a price
    is unset or below [10 ^ 12], a percentage is below [10 ^ 4], and each
    is written with at most four decimal places.  Within this range the
    context of the decimal module rounds nothing. *)
Definition price_in_range (x : option Decimal) : Prop :=
  forall d, x = Some d -> bounded 4 (10 ^ 16) d.

Definition percentage_in_range (d : Decimal) : Prop := bounded 4 (10 ^ 8) d.

Definition amounts_in_range (fee : PaymentFee) (self : Membership) : Prop :=
  price_in_range (project_posting_price fee) /\
  percentage_in_range (tax_percentage fee) /\
  percentage_in_range (stripe_percentage fee) /\
  price_in_range (concierge_price self).

(** A rounded component: written with two places, with a coefficient far
    below the precision of the context. *)
Definition cents_in_range (r : Decimal) : Prop :=
  Decimal.exponent r = -2 /\ Z.abs (Decimal.coefficient r) <= 10 ^ 26.

(** The monthly price [a] is set, [b] is set, and [a] is strictly lower. *)
Definition price_lt (a b : option Decimal) : Prop :=
  exists x y, a = Some x /\ b = Some y /\ (Decimal.to_Q x < Decimal.to_Q y)%Q.

(** The requests sent to the gateway, in order. *)
Definition remote_requests (tr : list Event) : list Request :=
  omap (fun ev => match ev with Remote r => Some r | _ => None end) tr.

(** The writes to the database, in order. *)
Definition db_writes (tr : list Event) : list DbWrite :=
  omap (fun ev => match ev with Persist w => Some w | _ => None end) tr.

(** Whether some request is sent to the gateway while a transaction is
    open; [open] tells whether one is open at the start of the trace. *)
Fixpoint remote_inside_transaction (open : bool) (tr : list Event) : bool :=
  match tr with
  | [] => false
  | TransactionBegin :: tr' => remote_inside_transaction true tr'
  | TransactionCommit :: tr' => remote_inside_transaction false tr'
  | TransactionRollback :: tr' => remote_inside_transaction false tr'
  | Remote _ :: tr' => open || remote_inside_transaction open tr'
  | Persist _ :: tr' => remote_inside_transaction open tr'
  end.

(** At most one request goes to the gateway, and none while a
    transaction is open. *)
Definition one_call_outside_transaction (tr : list Event) : Prop :=
  (length (remote_requests tr) <= 1)%nat /\
  remote_inside_transaction false tr = false.

(** The user's profile type resolves to a profile: a freelancer has a row
    in the freelancer profile table. *)
Definition profile_resolves (u : User) (d : Database) : Prop :=
  profile_type u = "freelancer" ->
  exists p, p ∈ profiles d /\
    profile_model p = "auth.FreelancerProfile" /\ user_ptr_id p = pk u.

(** The plan the gateway lists under the tier's monthly product name. *)
Definition plan_named (self : Membership) (plans : list Plan) : option Plan :=
  find (fun plan => bool_decide (plan_name plan = stripe_monthly_product_name self)) plans.

(** The ledger rows of a user, oldest first. *)
Definition rows_of (id : Z) (h : list MembershipHistory) : list MembershipHistory :=
  filter (fun r => user_id r = id) h.

(** ** A small catalog, database and gateway for the examples *)

Definition tier (id label : string) (monthly concierge : option Decimal)
    (product : option string) (initial : bool) : Membership :=
  {| uuid := id; name := label; application_fee_percentage := 10;
     concierge_price := concierge; expert_review_discount_percentage := None;
     matchmaking_fee := cents 0; marketing_package_discount_percentage := None;
     price_month := monthly; price_annual := None; project_price := None;
     membership_profile_type := "freelancer";
     stripe_monthly_product_name := product; stripe_annual_product_name := None;
     is_initial := initial; is_active := true |}.

Definition free_tier : Membership := tier "t-free" "Free" None None None true.
Definition basic_tier : Membership :=
  tier "t-basic" "Basic" (Some (cents 1900)) (Some (cents 5000)) (Some "basic-monthly") false.
Definition pro_tier : Membership :=
  tier "t-pro" "Pro" (Some (cents 4900)) (Some (cents 5000)) (Some "pro-monthly") false.
(** A paid tier whose monthly price was left empty. *)
Definition draft_tier : Membership :=
  tier "t-draft" "Draft" None None (Some "draft-monthly") false.

Definition member (id : Z) (kind : string) (current : option Membership)
    (last_downgrade : option date) : User :=
  {| pk := id; profile_type := kind; stripe_customer_token := Some "cus_7";
     current_membership := current;
     last_membership_downgrade_date := last_downgrade;
     last_membership_payment_date := None |}.

(** User 7, a freelancer currently on the given tier. *)
Definition freelancer_on (current : Membership) : User :=
  member 7 "freelancer" (Some current) None.

(** The fee schedule of the priced example: posting at 100.00, 21 percent
    tax, 3 percent processor fee. *)
Definition example_fee : PaymentFee :=
  {| project_posting_price := Some (cents 10000);
     tax_percentage := dec 21 0;
     stripe_percentage := dec 3 0 |}.

(** A schedule with the same percentages and the given posting price, in
    cents. *)
Definition fee_posting_at (posting_cents : Z) : PaymentFee :=
  {| project_posting_price := Some (cents posting_cents);
     tax_percentage := dec 21 0;
     stripe_percentage := dec 3 0 |}.

Definition example_row (current : option string) : UserRow :=
  {| row_current_membership_id := current;
     row_last_membership_downgrade_date := None |}.

Definition example_package (id owner : Z) (active : bool) : Package :=
  {| package_id := id; freelancer_id := owner; package_is_active := active |}.

Definition example_history (id : string) (time : Z) : MembershipHistory :=
  {| membership_id := id; user_id := 7; created_at := time;
     stripe_subscription_id := None; stripe_plan_id := None |}.

(** User 7 has a freelancer profile and two of the three packages; the
    ledger already holds the row of the user's current tier, written at
    time 900. *)
Definition example_db (current : Membership) : Database :=
  {| users := {[ 7 := example_row (Some (uuid current)) ]};
     profiles := [ {| profile_model := "auth.FreelancerProfile"; user_ptr_id := 7 |} ];
     packages := [ example_package 1 7 true; example_package 2 8 true;
                   example_package 3 7 true ];
     history := [ example_history (uuid current) 900 ] |}.

(** User 7 with a freelancer profile and two packages; the ledger row of
    the user's current tier was stamped at time 2000, by a clock that was
    ahead of the one in [example_env]. *)
Definition example_db_stamped_ahead (current : Membership) : Database :=
  {| users := {[ 7 := example_row (Some (uuid current)) ]};
     profiles := [ {| profile_model := "auth.FreelancerProfile"; user_ptr_id := 7 |} ];
     packages := [ example_package 1 7 true; example_package 3 7 true ];
     history := [ example_history (uuid current) 2000 ] |}.

(** The same database with the profile tables emptied. *)
Definition without_profiles (d : Database) : Database :=
  {| users := users d; profiles := []; packages := packages d; history := history d |}.

(** The database right after the user's row was inserted at signup. *)
Definition signup_db : Database :=
  {| users := {[ 7 := example_row None ]}; profiles := [];
     packages := []; history := [] |}.

Definition example_plans : list Plan :=
  [ {| plan_id := "plan_basic"; plan_name := Some "basic-monthly" |};
    {| plan_id := "plan_pro"; plan_name := Some "pro-monthly" |} ].

(** A gateway that answers every request. *)
Definition example_gateway : Gateway :=
  {| plan_list_reply := inr example_plans;
     subscription_create_reply := fun _ => inr {| subscription_id := "sub_1" |} |}.

(** A gateway that lists its plans and refuses to create subscriptions. *)
Definition declining_gateway : Gateway :=
  {| plan_list_reply := inr example_plans;
     subscription_create_reply := fun _ => inl "card_declined" |}.

(** A gateway that cannot be reached. *)
Definition unreachable_gateway : Gateway :=
  {| plan_list_reply := inl "connection_error";
     subscription_create_reply := fun _ => inl "connection_error" |}.

Definition example_env (g : Gateway) : Env :=
  {| gateway := g; today := mkdate 2024 3 15; now := 1000 |}.

From Stdlib Require Import Lqa.

(** ** Further readings of the specification *)

(** The unrounded total of a posting: project price, concierge price when
    taken, tax on both, processor fee on both when added. *)
Definition exact_total (fee : PaymentFee) (self : Membership)
    (has_concierge add_fee : bool) : Q :=
  let subtotal :=
    (amount (project_posting_price fee)
     + (if has_concierge then amount (concierge_price self) else 0))%Q in
  (subtotal
   + subtotal * Decimal.to_Q (tax_percentage fee) / (100 # 1)
   + (if add_fee
      then subtotal * Decimal.to_Q (stripe_percentage fee) / (100 # 1)
      else 0))%Q.

(** A price that is unset or not negative. *)
Definition not_negative (x : option Decimal) : Prop :=
  forall d, x = Some d -> 0 <= Decimal.coefficient d.

(** A gateway whose plans do not include the paid tiers of the catalog. *)
Definition other_plans_gateway : Gateway :=
  {| plan_list_reply := inr [ {| plan_id := "plan_old"; plan_name := Some "legacy" |} ];
     subscription_create_reply := fun _ => inr {| subscription_id := "sub_1" |} |}.

(** ** The refresh token of a user

    [UserManager.update_by_refresh_token] and [User.issue_refresh_token]
    of [api/auth/models.py].  The token library is a collaborator:
    [RefreshToken(text)] raises [TokenError] when the text does not verify
    (bad signature, expired, wrong type) or is already blacklisted, and
    [blacklist()] records the token as blacklisted. *)

Module RefreshTokens.

(** The fields of the user object that the guard reads and writes. *)
Record User : Type := { pk : Z; last_refresh_token : string }.

(** The column [last_refresh_token] of the user table, by primary key,
    and the table of blacklisted tokens. *)
Record Database : Type := {
  tokens : gmap Z string;
  blacklist : gset string
}.

Record State : Type := { self : User; db : Database }.

(** How a call ends: it returns a boolean, or [refresh_from_db] finds no
    row and raises [User.DoesNotExist]. *)
Inductive Outcome : Type :=
| Returned (updated : bool)
| DoesNotExist.

(** [RefreshToken(text).blacklist()]; [None] stands for [TokenError]. *)
Definition refresh_token_blacklist (verifies : string -> bool) (text : string)
    (listed : gset string) : option (gset string) :=
  if verifies text && negb (bool_decide (text ∈ listed))
  then Some ({[text]} ∪ listed)
  else None.

(** [User.objects.filter(pk=pk, last_refresh_token=last_refresh_token)
    .update(last_refresh_token=refresh_token_text)], as a boolean: whether
    a row was matched. *)
Definition update_by_refresh_token (pk : Z) (last_refresh_token refresh_token_text : string)
    (table : gmap Z string) : bool * gmap Z string :=
  match table !! pk with
  | Some stored =>
      if String.eqb stored last_refresh_token
      then (true, <[pk := refresh_token_text]> table)
      else (false, table)
  | None => (false, table)
  end.

(** [User.issue_refresh_token]. *)
Definition issue_refresh_token (verifies : string -> bool)
    (refresh_token_text : string) (s : State) : Outcome * State :=
  let u := self s in
  let listed :=
    if negb (String.eqb (last_refresh_token u) "") then
      match refresh_token_blacklist verifies (last_refresh_token u) (blacklist (db s)) with
      | Some listed' => listed'
      | None => blacklist (db s)   (* except TokenError: pass *)
      end
    else blacklist (db s) in
  let '(updated, table) :=
    update_by_refresh_token (pk u) (last_refresh_token u) refresh_token_text
      (tokens (db s)) in
  let d := {| tokens := table; blacklist := listed |} in
  match table !! pk u with   (* self.refresh_from_db() *)
  | Some stored =>
      (Returned updated,
       {| self := {| pk := pk u; last_refresh_token := stored |}; db := d |})
  | None => (DoesNotExist, {| self := u; db := d |})
  end.

(** A request handler loads the user and issues a token: the object starts
    with the stored token. *)
Definition load (id : Z) (d : Database) : option State :=
  match tokens d !! id with
  | Some stored => Some {| self := {| pk := id; last_refresh_token := stored |}; db := d |}
  | None => None
  end.

Definition example_tokens : Database :=
  {| tokens := {[ 7 := "old"; 8 := "other" ]}; blacklist := ∅ |}.

Definition example_verifies (text : string) : bool := negb (String.eqb text "expired").

End RefreshTokens.

(** ** Logging in as a user

    [User.generate_login_as_token], [User.clear_login_as_token] and
    [User.get_jwt_payload] of [api/auth/models.py], and the lookup of
    [TokenObtainPairFromTokenSerializer.validate] of
    [api/auth/serializers.py], which signs in the user that holds a
    login-as token. *)

Module LoginAs.

(** The fields of a user that this code reads and writes; a row of the
    user table holds the same fields. *)
Record User : Type := {
  pk : Z;
  uuid : string;
  email : string;
  profile_type : string;
  is_email_confirmed : bool;
  is_reviewed : bool;
  is_profile_completed : bool;
  is_active : bool;
  login_as_token : option string
}.

Definition set_login_as_token (t : option string) (u : User) : User :=
  {| pk := pk u; uuid := uuid u; email := email u; profile_type := profile_type u;
     is_email_confirmed := is_email_confirmed u; is_reviewed := is_reviewed u;
     is_profile_completed := is_profile_completed u; is_active := is_active u;
     login_as_token := t |}.

(** The dictionary [get_jwt_payload] returns. *)
Record Payload : Type := {
  payload_profile_type : string;
  payload_is_email_confirmed : bool;
  payload_is_reviewed : bool;
  payload_is_profile_completed : bool;
  payload_is_concierge : bool;
  payload_user_uuid : string;
  payload_user_email : string
}.

(** [bool(self.login_as_token)]: [None] and the empty string are falsy. *)
Definition truthy (t : option string) : bool :=
  match t with
  | Some text => negb (String.eqb text "")
  | None => false
  end.

Definition get_jwt_payload (self : User) : Payload :=
  {| payload_profile_type := profile_type self;
     payload_is_email_confirmed := is_email_confirmed self;
     payload_is_reviewed := is_reviewed self;
     payload_is_profile_completed := is_profile_completed self;
     payload_is_concierge := truthy (login_as_token self);
     payload_user_uuid := uuid self;
     payload_user_email := email self |}.

Inductive Exception : Type :=
| ValueError (message : string)
| DatabaseError
| ValidationError (message : string)
| MultipleObjectsReturned.

Inductive Result (A : Type) : Type :=
| Ok (a : A)
| Raise (e : Exception).
Arguments Ok {A} a.
Arguments Raise {A} e.

(** [self.save(update_fields=["login_as_token"])]: the column of the
    user's row takes the value of the object; without a row the save
    fails. *)
Definition save_login_as_token (self : User) (table : gmap Z User)
    : option (gmap Z User) :=
  match table !! pk self with
  | Some row => Some (<[pk self := set_login_as_token (login_as_token self) row]> table)
  | None => None
  end.

(** [User.generate_login_as_token]; [fresh] is [str(uuid.uuid4())]. *)
Definition generate_login_as_token (fresh : string) (self : User)
    (table : gmap Z User) : Result string * User * gmap Z User :=
  if negb (is_reviewed self) then
    (Raise (ValueError "User is not Reviewed"), self, table)
  else if negb (is_active self) then
    (Raise (ValueError "User is not Active"), self, table)
  else if negb (bool_decide (profile_type self ∈ ["client"; "freelancer"])) then
    (Raise (ValueError "User is not Client or Freelancer"), self, table)
  else
    let self' := set_login_as_token (Some fresh) self in
    match save_login_as_token self' table with
    | Some table' => (Ok fresh, self', table')
    | None => (Raise DatabaseError, self', table)
    end.

(** [User.clear_login_as_token]. *)
Definition clear_login_as_token (self : User) (table : gmap Z User)
    : Result unit * User * gmap Z User :=
  let self' := set_login_as_token None self in
  match save_login_as_token self' table with
  | Some table' => (Ok tt, self', table')
  | None => (Raise DatabaseError, self', table)
  end.

(** [UserModel._default_manager.get(login_as_token=text)]: the one row
    that holds the token; [Ok None] stands for [DoesNotExist]. *)
Definition get_by_login_as_token (text : string) (table : gmap Z User)
    : Result (option User) :=
  match map_to_list (filter (fun kv : Z * User => login_as_token kv.2 = Some text) table) with
  | [] => Ok None
  | [(_, row)] => Ok (Some row)
  | _ => Raise MultipleObjectsReturned
  end.

(** [TokenObtainPairFromTokenSerializer.validate], up to the encoding of
    the tokens: it returns the user that is signed in and the payload that
    [get_token] writes into the refresh token made for that user. *)
Definition validate (login_as_token : string) (table : gmap Z User)
    : Result (User * Payload) :=
  match get_by_login_as_token login_as_token table with
  | Raise e => Raise e
  | Ok found =>
      match found with
      | None => Raise (ValidationError "No account found with the given token")
      | Some user =>
          if negb (is_active user) || negb (is_reviewed user) then
            Raise (ValidationError "No account found with the given token")
          else Ok (user, get_jwt_payload user)
      end
  end.

Definition example_user (id : Z) (kind : string) (reviewed active : bool)
    (token : option string) : User :=
  {| pk := id; uuid := "u"; email := "user@example.org"; profile_type := kind;
     is_email_confirmed := true; is_reviewed := reviewed;
     is_profile_completed := true; is_active := active; login_as_token := token |}.

Definition example_table : gmap Z User :=
  {[ 7 := example_user 7 "client" true true None;
     8 := example_user 8 "freelancer" true true (Some "taken") ]}.

End LoginAs.

(** ** The export of users

    [gen_user_data] of
    [api/auth/management/commands/export_users_csv.py]. *)

Module ExportUsers.

(** A row of one of the three profile tables, and a row of the user
    table: the columns the export reads. *)
Record Profile : Type := {
  email : string;
  profile_type : string;
  first_name : string;
  last_name : string;
  phone : option string
}.

Record User : Type := { user_email : string; user_profile_type : string }.

(** A line of the export. *)
Definition Line : Type := string * string * string * string * option string.

Definition line_email (l : Line) : string := l.1.1.1.1.

Definition profile_line (p : Profile) : Line :=
  (email p, profile_type p, first_name p, last_name p, phone p).

Definition user_line (u : User) : Line :=
  (user_email u, user_profile_type u, "", "", Some "").

(** The loop over the profiles of one class: each email joins
    [known_emails], each profile yields a line. *)
Definition each_profile (acc : gset string * list Line) (profile : Profile)
    : gset string * list Line :=
  ({[email profile]} ∪ acc.1, acc.2 ++ [profile_line profile]).

(** The loop over the users: a user yields a line when the email is not
    known. *)
Definition each_user (known_emails : gset string) (out : list Line) (user : User)
    : list Line :=
  if bool_decide (user_email user ∈ known_emails) then out
  else out ++ [user_line user].

(** [gen_user_data]: the lines in the order they are yielded. *)
Definition gen_user_data (clients freelancers advisers : list Profile)
    (users : list User) : list Line :=
  let acc := foldl each_profile (∅, []) clients in
  let acc := foldl each_profile acc freelancers in
  let acc := foldl each_profile acc advisers in
  foldl (each_user acc.1) acc.2 users.

Definition example_profiles : list Profile :=
  [ {| email := "c@example.org"; profile_type := "client"; first_name := "C";
       last_name := "Client"; phone := None |} ].

Definition example_users : list User :=
  [ {| user_email := "c@example.org"; user_profile_type := "client" |};
    {| user_email := "admin@example.org"; user_profile_type := "" |} ].

End ExportUsers.

(** ** Notifications

    [slack_webhook_customer_success] of [api/auth/jobs.py] and
    [email_send_template] of [api/djangoapi/jobs.py]. *)

(** [not x] for a nullable string: [None] and the empty string are
    falsy. *)
Definition falsy (x : option string) : bool :=
  match x with
  | Some text => String.eqb text ""
  | None => true
  end.

Module SlackWebhook.

Record User : Type := {
  id : Z;
  profile_type : string;
  first_name : string;
  last_name : string;
  email : string
}.

(** The two settings the job reads. *)
Record Settings : Type := {
  SLACK_WEBHOOK_CUSTOMER_SUCCESS : option string;
  CLIENT_PROFILE_ADMIN_LINK : string
}.

(** How the job ends: it returns without posting, it posts to the
    webhook (the text of the message, which goes out as the [text] entry
    of a JSON object), or it raises. *)
Inductive Outcome : Type :=
| Skipped
| Posted (webhook_url text : string)
| AttributeError
| FormatError.

(** [User.firstname_lastname]. *)
Definition firstname_lastname (u : User) : string :=
  (first_name u ++ " " ++ last_name u)%string.

Definition newline : string := String (Ascii.ascii_of_nat 10) "".

(** The job.  The user table is keyed by [uuid], a unique column;
    [str_format template n] is [template.format(n)], [None] when the
    template does not accept one positional argument. *)
Definition slack_webhook_customer_success
    (s : Settings) (str_format : string -> Z -> option string)
    (users : gmap string User) (user_uuid : string) : Outcome :=
  if falsy (SLACK_WEBHOOK_CUSTOMER_SUCCESS s) then Skipped
  else
    match users !! user_uuid with
    | None => Skipped
    | Some user =>
        let webhook_url := default "" (SLACK_WEBHOOK_CUSTOMER_SUCCESS s) in
        let link :=
          if String.eqb (profile_type user) "client"
          then Some (CLIENT_PROFILE_ADMIN_LINK s) else None in
        match link with
        | None => AttributeError   (* None has no attribute format *)
        | Some template =>
            match str_format template (id user) with
            | None => FormatError
            | Some formatted =>
                Posted webhook_url
                  ("The " ++ profile_type user ++ " `" ++ firstname_lastname user
                   ++ " <" ++ email user ++ ">` has signed up! :rocket:"
                   ++ newline ++ "Check in Admin: " ++ formatted)%string
            end
        end
    end.

Definition example_settings : Settings :=
  {| SLACK_WEBHOOK_CUSTOMER_SUCCESS := Some "https://hooks.example.org/T1";
     CLIENT_PROFILE_ADMIN_LINK := "https://admin.example.org/client/" |}.

(** A formatting of link templates that ends in the id of user 7. *)
Definition example_format (template : string) (n : Z) : option string :=
  Some (template ++ "7")%string.

Definition example_users : gmap string User :=
  {[ "u-7" := {| id := 7; profile_type := "freelancer"; first_name := "F";
                 last_name := "Lancer"; email := "f@example.org" |} ]}.

End SlackWebhook.

Module EmailTemplate.

(** [vars], a dictionary, in insertion order. *)
Definition Vars : Type := list (string * string).

Definition lookup_var (key : string) (vars : Vars) : option string :=
  snd <$> find (fun kv => String.eqb kv.1 key) vars.

(** [vars.setdefault(key, value)]. *)
Definition setdefault (key value : string) (vars : Vars) : Vars :=
  match lookup_var key vars with
  | Some _ => vars
  | None => vars ++ [(key, value)]
  end.

(** The recipient is an object with an [email] attribute, or a mapping
    read with [get("email")]. *)
Inductive Recipient : Type :=
| WithEmail (email : string)
| Mapping (entries : Vars).

Record Settings : Type := {
  APP_URL : string;
  MEMBER_FROM_EMAIL : string;
  MEMBER_FROM_NAME : string
}.

Record Message : Type := {
  to : option string;
  from_email : string;
  from_name : string;
  subject : string;
  merge_vars : list (string * string)
}.

(** How the job ends: it returns the response, or [None], or the
    exception of the mail client propagates. *)
Inductive Outcome : Type :=
| Returned (response : option string)
| Raised (error : string).

(** The job; [send_template] is the mail client: the error it raises or
    its response.  The result holds the dictionary of the caller as the
    job leaves it, the message sent and the outcome. *)
Definition email_send_template
    (settings : Settings) (send_template : string -> Message -> string + string)
    (template_name : string) (vars : Vars) (subject : string) (recipient : Recipient)
    (sender_name user_event_uuid from_email : option string)
    : Vars * Message * Outcome :=
  let vars := setdefault "APP_URL" (APP_URL settings) vars in
  let merge_vars := vars in
  let recipient_email :=
    match recipient with
    | WithEmail email => Some email
    | Mapping entries => lookup_var "email" entries
    end in
  let from_email :=
    if falsy from_email then MEMBER_FROM_EMAIL settings else default "" from_email in
  let message :=
    {| to := recipient_email;
       from_email := from_email;
       from_name := if falsy sender_name then MEMBER_FROM_NAME settings
                    else default "" sender_name;
       subject := subject;
       merge_vars := merge_vars |} in
  match send_template template_name message with
  | inl error =>
      if falsy user_event_uuid then (vars, message, Returned None)
      else (vars, message, Raised error)
  | inr response => (vars, message, Returned (Some response))
  end.

Definition example_settings : Settings :=
  {| APP_URL := "https://app.example.org";
     MEMBER_FROM_EMAIL := "team@example.org";
     MEMBER_FROM_NAME := "Team" |}.

End EmailTemplate.

(** ** Permissions

    The permission classes of [api/auth/permissions.py].  A permission
    answers a request; what counts is whether the answer is truthy. *)

Module Permissions.

(** [request.user]: nothing, the anonymous user, or a [TokenUser] backed
    by a token, of which the permissions read the claims [profile_type]
    and [user_uuid]. *)
Inductive RequestUser : Type :=
| NoUser
| AnonymousUser
| TokenUser (profile_type : option string) (user_uuid : option string).

(** The column [is_reviewed] of the user table, by [uuid]. *)
Definition Users : Type := gmap string bool.

(** [ProfileTypePermission.has_permission], for a class whose
    [profile_type] attribute is [kind]. *)
Definition profile_type_permission (kind : option string) (user : RequestUser) : bool :=
  match user with
  | NoUser => false
  | AnonymousUser => false          (* is_authenticated is false *)
  | TokenUser profile_type _ => bool_decide (profile_type = kind)
  end.

Definition ClientPermission : RequestUser -> bool :=
  profile_type_permission (Some "client").
Definition FreelancerPermission : RequestUser -> bool :=
  profile_type_permission (Some "freelancer").
Definition AdviserPermission : RequestUser -> bool :=
  profile_type_permission (Some "adviser").

(** [AdviserOrFreelancerPermission.has_permission]. *)
Definition AdviserOrFreelancerPermission (user : RequestUser) : bool :=
  match user with
  | NoUser => false
  | AnonymousUser => false
  | TokenUser profile_type _ =>
      bool_decide (profile_type ∈ [Some "adviser"; Some "freelancer"])
  end.

(** [request.user.fetch()]: [None] stands for the two exceptions the
    mixin catches, [User.DoesNotExist] and [AttributeError]. *)
Definition fetch (users : Users) (user : RequestUser) : option bool :=
  match user with
  | TokenUser _ (Some uuid) => users !! uuid
  | _ => None
  end.

(** [PermissionMixin.has_permission] over a base permission. *)
Definition reviewed (base : RequestUser -> bool) (users : Users)
    (user : RequestUser) : bool :=
  let permission := base user in
  match fetch users user with
  | None => false
  | Some is_reviewed => permission && is_reviewed
  end.

Definition ClientPermissionReviewed : Users -> RequestUser -> bool :=
  reviewed ClientPermission.
Definition FreelancerPermissionReviewed : Users -> RequestUser -> bool :=
  reviewed FreelancerPermission.

End Permissions.

(** ** Readiness for approval

    [ProfileBase.is_ready_for_approval] of [api/auth/models.py]. *)

Module Approval.

(** The value of an attribute named in [approval_fields]: [None], a
    string, the manager of a relation with its rows, or another object
    that is truthy or not (a related object, a list read from JSON). *)
Inductive Value : Type :=
| VNone
| VStr (text : string)
| VManager (rows : list Z)
| VOther (truthy : bool).

(** [bool(value)]; a manager is an object without a length: truthy. *)
Definition truthy (v : Value) : bool :=
  match v with
  | VNone => false
  | VStr text => negb (String.eqb text "")
  | VManager _ => true
  | VOther b => b
  end.

(** [value == "[]"]. *)
Definition is_brackets (v : Value) : bool :=
  match v with
  | VStr text => String.eqb text "[]"
  | _ => false
  end.

(** [hasattr(value, "all") and not value.exists()]. *)
Definition empty_relation (v : Value) : bool :=
  match v with
  | VManager [] => true
  | _ => false
  end.

(** The loop over [approval_fields], each with the value [getattr]
    gives. *)
Fixpoint is_ready_for_approval (fields : list (string * Value)) : bool :=
  match fields with
  | [] => true
  | (field, field_value) :: rest =>
      if String.eqb field "language_levels" && negb (truthy field_value)
         || is_brackets field_value
      then false
      else if empty_relation field_value then false
      else if negb (truthy field_value) then false
      else is_ready_for_approval rest
  end.

(** A value that counts as filled in. *)
Definition filled (v : Value) : bool :=
  match v with
  | VNone => false
  | VStr text => negb (String.eqb text "") && negb (String.eqb text "[]")
  | VManager rows => negb (bool_decide (rows = []))
  | VOther b => b
  end.

End Approval.

(** ** The billing token of a user

    [User.create_stripe_customer], [User.get_stripe_customer],
    [User.get_or_create_stripe_customer] and [User.delete_on_stripe] of
    [api/auth/models.py]. *)

Module StripeCustomer.

Record User : Type := {
  pk : Z;
  email : string;
  stripe_customer_token : option string
}.

Definition set_token (t : option string) (u : User) : User :=
  {| pk := pk u; email := email u; stripe_customer_token := t |}.

(** A customer object of the gateway: its id and whether the gateway
    reports it deleted. *)
Record Customer : Type := { customer_id : string; deleted : bool }.

Inductive Request : Type :=
| CustomerCreate (email : string)
| CustomerRetrieve (token : string) (expand : list string)
| CustomerDelete (token : string).

(** The answers of the gateway: an error message or the customer. *)
Record Gateway : Type := {
  create_reply : string -> string + Customer;
  retrieve_reply : string -> string + Customer;
  delete_reply : string -> string + Customer
}.

(** The object, the column [stripe_customer_token] of the user table by
    primary key, and the requests sent so far. *)
Record State : Type := {
  self : User;
  rows : gmap Z (option string);
  sent : list Request
}.

Inductive Exception : Type :=
| StripeError (message : string)
| DatabaseError.

Inductive Result (A : Type) : Type :=
| Ok (a : A)
| Raise (e : Exception).
Arguments Ok {A} a.
Arguments Raise {A} e.

Definition send (r : Request) (s : State) : State :=
  {| self := self s; rows := rows s; sent := sent s ++ [r] |}.

(** [User.create_stripe_customer]. *)
Definition create_stripe_customer (g : Gateway) (s : State)
    : Result (option Customer) * State :=
  if negb (falsy (stripe_customer_token (self s))) then (Ok None, s)
  else
    let s := send (CustomerCreate (email (self s))) s in
    match create_reply g (email (self s)) with
    | inl message => (Raise (StripeError message), s)
    | inr stripe_customer =>
        let u := set_token (Some (customer_id stripe_customer)) (self s) in
        let s := {| self := u; rows := rows s; sent := sent s |} in
        (* self.save(update_fields=["stripe_customer_token"]) *)
        match rows s !! pk u with
        | None => (Raise DatabaseError, s)
        | Some _ =>
            (Ok (Some stripe_customer),
             {| self := u;
                rows := <[pk u := stripe_customer_token u]> (rows s);
                sent := sent s |})
        end
    end.

(** [User.get_stripe_customer]. *)
Definition get_stripe_customer (g : Gateway) (s : State)
    : Result (option Customer) * State :=
  if negb (falsy (stripe_customer_token (self s))) then
    let token := default "" (stripe_customer_token (self s)) in
    let s := send (CustomerRetrieve token ["sources"; "subscriptions"]) s in
    match retrieve_reply g token with
    | inl message => (Raise (StripeError message), s)
    | inr customer => (Ok (Some customer), s)
    end
  else (Ok None, s).

(** [User.get_or_create_stripe_customer]: the customer and whether it was
    created. *)
Definition get_or_create_stripe_customer (g : Gateway) (s : State)
    : Result (option Customer * bool) * State :=
  if negb (falsy (stripe_customer_token (self s))) then
    let token := default "" (stripe_customer_token (self s)) in
    let s := send (CustomerRetrieve token ["sources"]) s in
    match retrieve_reply g token with
    | inl message => (Raise (StripeError message), s)
    | inr customer => (Ok (Some customer, false), s)
    end
  else
    match create_stripe_customer g s with
    | (Ok customer, s') => (Ok (customer, true), s')
    | (Raise e, s') => (Raise e, s')
    end.

(** [User.delete_on_stripe]. *)
Definition delete_on_stripe (g : Gateway) (s : State) : Result bool * State :=
  match get_stripe_customer g s with
  | (Raise e, s') => (Raise e, s')
  | (Ok None, s') => (Ok false, s')
  | (Ok (Some stripe_customer), s') =>
      let s' := send (CustomerDelete (customer_id stripe_customer)) s' in
      match delete_reply g (customer_id stripe_customer) with
      | inl message => (Raise (StripeError message), s')
      | inr res =>
          (Ok (deleted res),
           {| self := set_token None (self s'); rows := rows s'; sent := sent s' |})
      end
  end.

Definition creations (requests : list Request) : list string :=
  omap (fun r => match r with CustomerCreate e => Some e | _ => None end) requests.

Definition example_gateway : Gateway :=
  {| create_reply := fun _ => inr {| customer_id := "cus_1"; deleted := false |};
     retrieve_reply := fun token => inr {| customer_id := token; deleted := false |};
     delete_reply := fun token => inr {| customer_id := token; deleted := true |} |}.

Definition example_state : State :=
  {| self := {| pk := 7; email := "c@example.org"; stripe_customer_token := None |};
     rows := {[ 7 := None ]}; sent := [] |}.

End StripeCustomer.

(** * Theorems *)

(** ** Decimal arithmetic *)

(** Rounding and division on a few amounts. *)
Example round_down : Decimal.round (dec 31504 (-3)) 2 = Decimal.Value (cents 3150).
Proof. vm_compute. reflexivity. Qed.
Example round_tie_even : Decimal.round (dec 31505 (-3)) 2 = Decimal.Value (cents 3150).
Proof. vm_compute. reflexivity. Qed.
Example round_tie_odd : Decimal.round (dec 31515 (-3)) 2 = Decimal.Value (cents 3152).
Proof. vm_compute. reflexivity. Qed.
Example round_negative_tie :
  Decimal.round (dec (-125) (-3)) 2 = Decimal.Value (cents (-12)).
Proof. vm_compute. reflexivity. Qed.
Example round_pads : Decimal.round (dec 315 (-1)) 2 = Decimal.Value (cents 3150).
Proof. vm_compute. reflexivity. Qed.
Example div100_keeps_exponent :
  Decimal.div100 (cents 315000) = Decimal.Value (cents 3150).
Proof. vm_compute. reflexivity. Qed.
Example div100_lowers_exponent :
  Decimal.div100 (cents 315010) = Decimal.Value (dec 31501 (-3)).
Proof. vm_compute. reflexivity. Qed.

(** The context at work: a product of 40 digits keeps 28; a quotient of a
    coefficient of 29 digits is rounded; 26 digits before the point leave
    no room for two places; and a result above [Emax] overflows. *)
Example mul_rounds :
  Decimal.mul (dec 12345678901234567890 0) (dec 12345678901234567890 (-2)) =
  Decimal.Value (dec 1524157875323883675019051999 9).
Proof. vm_compute. reflexivity. Qed.
Example div100_rounds :
  Decimal.div100 (dec 12345678901234567890123456785 0) =
  Decimal.Value (dec 1234567890123456789012345678 (-1)).
Proof. vm_compute. reflexivity. Qed.
Example round_invalid :
  Decimal.round (dec 1 26) 2 = Decimal.Raised Decimal.InvalidOperation /\
  Decimal.round (dec 1 25) 2 = Decimal.Value (cents (10 ^ 27)).
Proof. split; vm_compute; reflexivity. Qed.
Example mul_overflows :
  Decimal.mul (dec 1 500000) (dec 1 500000) = Decimal.Raised Decimal.Overflow.
Proof. vm_compute. reflexivity. Qed.

(** The operations work on coefficients and exponents; [to_Q] gives the
    numbers they stand for.  The comparison is the order of the numbers,
    a rescaled decimal is the nearest one with the requested exponent,
    and a result that fits the context is left as it is. *)
Module DecimalFacts.
Import Decimal.

Lemma ten_not_0 : ~ (10 # 1 == 0)%Q.
Proof. discriminate. Qed.

Lemma ten_pow_pos (e : Z) : (0 < (10 # 1) ^ e)%Q.
Proof. apply Qpower_0_lt. reflexivity. Qed.

Lemma pow10_Q (k : Z) : 0 <= k -> (inject_Z (10 ^ k) == (10 # 1) ^ k)%Q.
Proof. intros Hk. apply (Zpower_Qpower 10 k Hk). Qed.

Lemma pow10_pos (k : Z) : 0 <= k -> 0 < 10 ^ k.
Proof. intros Hk. apply Z.pow_pos_nonneg; lia. Qed.

Lemma pow10_ge_1 (k : Z) : 0 <= k -> 1 <= 10 ^ k.
Proof. intros Hk. pose proof (pow10_pos k Hk). lia. Qed.

Lemma pow10_add (j k : Z) : 0 <= j -> 0 <= k -> 10 ^ (j + k) = 10 ^ j * 10 ^ k.
Proof. intros Hj Hk. apply Z.pow_add_r; assumption. Qed.

Lemma pow10_succ (k : Z) : 0 <= k -> 10 ^ (k + 1) = 10 * 10 ^ k.
Proof. intros Hk. rewrite pow10_add by lia. change (10 ^ 1) with 10. lia. Qed.

Lemma pow10_le (j k : Z) : 0 <= j <= k -> 10 ^ j <= 10 ^ k.
Proof. intros H. apply Z.pow_le_mono_r; lia. Qed.

Lemma pow10_lt (j k : Z) : 0 <= j < k -> 10 ^ j < 10 ^ k.
Proof. intros H. apply Z.pow_lt_mono_r; lia. Qed.

(** *** The number of digits *)

Lemma digits_upto_spec (fuel : nat) (n : Z) :
  0 < n < 10 ^ (Z.of_nat fuel + 1) ->
  10 ^ (digits_upto fuel n - 1) <= n < 10 ^ digits_upto fuel n /\
  1 <= digits_upto fuel n.
Proof.
  revert n. induction fuel as [| fuel IH]; intros n Hn.
  - change (10 ^ (Z.of_nat 0 + 1)) with 10 in Hn. simpl.
    change (10 ^ (1 - 1)) with 1. change (10 ^ 1) with 10. lia.
  - cbn [digits_upto]. destruct (Z.ltb_spec n 10) as [Hlt | Hge].
    + change (10 ^ (1 - 1)) with 1. change (10 ^ 1) with 10. lia.
    + assert (Hq : 0 < n / 10 < 10 ^ (Z.of_nat fuel + 1)).
      { split; [apply Z.div_str_pos; lia |].
        apply Z.div_lt_upper_bound; [lia |].
        rewrite <- pow10_succ by lia.
        replace (Z.of_nat fuel + 1 + 1) with (Z.of_nat (S fuel) + 1) by lia.
        apply Hn. }
      destruct (IH (n / 10) Hq) as [[Hlo Hhi] Hpos].
      set (k := digits_upto fuel (n / 10)) in *.
      replace (1 + k - 1) with ((k - 1) + 1) by lia.
      replace (1 + k) with (k + 1) by lia.
      rewrite !pow10_succ by lia.
      pose proof (Z.div_mod n 10 ltac:(lia)) as Hdm.
      pose proof (Z.mod_pos_bound n 10 ltac:(lia)) as Hmod.
      lia.
Qed.

Lemma log2_fuel (n : Z) : 0 < n -> n < 10 ^ (Z.of_nat (Z.to_nat (Z.log2 n)) + 1).
Proof.
  intros Hn. rewrite Z2Nat.id by apply Z.log2_nonneg.
  pose proof (Z.log2_spec n Hn) as [_ Hup].
  eapply Z.lt_le_trans; [exact Hup |].
  replace (Z.succ (Z.log2 n)) with (Z.log2 n + 1) by lia.
  apply Z.pow_le_mono_l. lia.
Qed.

Lemma digits_pos (c : Z) : 1 <= digits c.
Proof.
  unfold digits. destruct (Z.eq_dec c 0) as [-> | Hc]; [simpl; lia |].
  apply digits_upto_spec. split; [lia |]. apply log2_fuel. lia.
Qed.

(** A coefficient of [n] digits lies between [10 ^ (n - 1)] and [10 ^ n]. *)
Lemma digits_spec (c : Z) :
  c <> 0 -> 10 ^ (digits c - 1) <= Z.abs c < 10 ^ digits c.
Proof.
  intros Hc. unfold digits.
  apply digits_upto_spec. split; [lia |]. apply log2_fuel. lia.
Qed.

Lemma digits_le (c n : Z) : 1 <= n -> Z.abs c < 10 ^ n -> digits c <= n.
Proof.
  intros Hn Hc. destruct (Z.eq_dec c 0) as [-> | Hne]; [exact Hn |].
  pose proof (digits_spec c Hne) as [Hlo _]. pose proof (digits_pos c) as Hpos.
  destruct (Z.le_gt_cases (digits c) n) as [Hle | Hgt]; [exact Hle |].
  exfalso. pose proof (pow10_le n (digits c - 1) ltac:(lia)). lia.
Qed.

Lemma digits_opp (c : Z) : digits (- c) = digits c.
Proof. unfold digits. rewrite Z.abs_opp. reflexivity. Qed.

(** *** Results that fit the context *)

(** A decimal that the context leaves as it is. *)
Lemma _fix_fits (d : t) :
  Z.abs (coefficient d) < 10 ^ prec -> Etiny <= exponent d <= Etop ->
  _fix d = Value d.
Proof.
  intros Hc He. unfold _fix. destruct d as [c e]; cbn [coefficient exponent] in *.
  destruct (Z.eqb_spec c 0) as [-> | Hne].
  - f_equal. f_equal. unfold Etiny, Etop, Emax, Emin, prec in *. lia.
  - pose proof (digits_le c prec ltac:(unfold prec; lia) Hc) as Hd.
    destruct (Z.ltb_spec Etop (digits c + e - prec)) as [Hover | _]; [lia |].
    destruct (Z.ltb_spec e (Z.max (digits c + e - prec) Etiny)) as [Hround | _];
      [lia | reflexivity].
Qed.

(** *** The numbers behind the representations *)

Lemma rescale_Q (d : t) (e : Z) :
  e <= exponent d -> (inject_Z (rescale d e) * (10 # 1) ^ e == to_Q d)%Q.
Proof.
  intros He. unfold rescale, to_Q.
  rewrite inject_Z_mult, pow10_Q by lia.
  replace (exponent d) with ((exponent d - e) + e) at 2 by lia.
  rewrite (Qpower_plus _ _ _ ten_not_0). ring.
Qed.

Lemma to_Q_sum (a b : t) :
  let e := Z.min (exponent a) (exponent b) in
  (to_Q (mk (rescale a e + rescale b e) e) == to_Q a + to_Q b)%Q.
Proof.
  cbv zeta.
  rewrite <- (rescale_Q a (Z.min (exponent a) (exponent b))) by lia.
  rewrite <- (rescale_Q b (Z.min (exponent a) (exponent b))) by lia.
  unfold to_Q; simpl. rewrite inject_Z_plus. ring.
Qed.

Lemma to_Q_product (a b : t) :
  (to_Q (mk (coefficient a * coefficient b) (exponent a + exponent b))
   == to_Q a * to_Q b)%Q.
Proof.
  unfold to_Q; simpl.
  rewrite inject_Z_mult, (Qpower_plus _ _ _ ten_not_0). ring.
Qed.

Lemma to_Q_zero : (to_Q zero == 0)%Q.
Proof. reflexivity. Qed.

Lemma pow10_pred2 (e : Z) : ((10 # 1) ^ (e - 2) == (10 # 1) ^ e * (1 # 100))%Q.
Proof.
  replace (e - 2) with (e + (-2)) by lia.
  rewrite (Qpower_plus _ _ _ ten_not_0). reflexivity.
Qed.

Lemma to_Q_or_zero (x : option t) :
  (to_Q (or_zero x) == match x with Some d => to_Q d | None => 0 end)%Q.
Proof.
  destruct x as [d |]; simpl; [| reflexivity].
  unfold truthy. destruct (Z.eqb_spec (coefficient d) 0) as [H0 | H0]; simpl.
  - unfold to_Q. rewrite H0. simpl. ring.
  - reflexivity.
Qed.

Lemma ltb_lt (a b : t) : ltb a b = true <-> (to_Q a < to_Q b)%Q.
Proof.
  rewrite <- (rescale_Q a (Z.min (exponent a) (exponent b))) by lia.
  rewrite <- (rescale_Q b (Z.min (exponent a) (exponent b))) by lia.
  unfold ltb. rewrite Z.ltb_lt, Qmult_lt_r by apply ten_pow_pos.
  rewrite Zlt_Qlt. reflexivity.
Qed.

Lemma ltb_irrefl_eq (a b : t) : (to_Q a == to_Q b)%Q -> ltb a b = false.
Proof.
  intros Heq. destruct (ltb a b) eqn:Hlt; [| reflexivity].
  apply ltb_lt in Hlt. rewrite Heq in Hlt. exfalso. exact (Qlt_irrefl _ Hlt).
Qed.

(** *** Rounding *)

(** Rounding to the nearest integer: the result is within one half of the
    quotient, and a result exactly one half away is even. *)
Lemma round_half_even_spec (n d : Z) :
  0 < d ->
  2 * Z.abs (round_half_even n d * d - n) <= d /\
  (2 * Z.abs (round_half_even n d * d - n) = d ->
   Z.even (round_half_even n d) = true).
Proof.
  intros Hd. unfold round_half_even.
  pose proof (Z.div_mod n d ltac:(lia)) as Hn.
  pose proof (Z.mod_pos_bound n d Hd) as Hr.
  set (q := n / d) in *. set (r := n mod d) in *.
  destruct (Z.compare_spec (2 * r) d) as [Heq | Hlt | Hgt].
  - destruct (Z.even q) eqn:Hq.
    + split; [nia | auto].
    + split; [nia |]. intros _.
      rewrite Z.even_add. rewrite Hq. reflexivity.
  - split; [nia |]. intros Habs. exfalso. nia.
  - split; [nia |]. intros Habs. exfalso. nia.
Qed.

(** The rounding is that of the absolute value, with the sign put back:
    the library rounds the digits and keeps the sign apart. *)
Lemma round_half_even_opp (n d : Z) :
  0 < d -> round_half_even (- n) d = - round_half_even n d.
Proof.
  intros Hd.
  destruct (round_half_even_spec n d Hd) as [Hn Hn_even].
  destruct (round_half_even_spec (- n) d Hd) as [Ho Ho_even].
  set (x := round_half_even n d) in *. set (y := round_half_even (- n) d) in *.
  assert (Hclose : Z.abs (x + y) <= 1) by nia.
  destruct (Z.eq_dec (x + y) 0) as [H0 | H0]; [lia |].
  exfalso.
  assert (Hx : 2 * Z.abs (x * d - n) = d) by nia.
  assert (Hy : 2 * Z.abs (y * d - - n) = d) by nia.
  specialize (Hn_even Hx). specialize (Ho_even Hy).
  assert (Hodd : Z.even (x + y) = false).
  { assert (Hxy : x + y = 1 \/ x + y = -1) by lia.
    destruct Hxy as [-> | ->]; reflexivity. }
  rewrite Z.even_add, Hn_even, Ho_even in Hodd. discriminate.
Qed.

Lemma round_half_even_0 (d : Z) : 0 < d -> round_half_even 0 d = 0.
Proof.
  intros Hd. unfold round_half_even.
  rewrite Z.div_0_l, Z.mod_0_l by lia.
  destruct (Z.compare_spec (2 * 0) d); lia.
Qed.

Lemma exponent__rescale (d : t) (e : Z) : exponent (_rescale d e) = e.
Proof.
  unfold _rescale. destruct (coefficient d =? 0); [reflexivity |].
  destruct (e <=? exponent d); reflexivity.
Qed.

Lemma Qabs_scaled (z bound : Z) (p : Q) :
  (0 < p)%Q -> 2 * Z.abs z <= bound ->
  (Qabs (inject_Z z * p) <= (1 # 2) * (inject_Z bound * p))%Q.
Proof.
  intros Hp Hz. apply Qabs_Qle_condition.
  assert (Hlo : (- ((1 # 2) * inject_Z bound) <= inject_Z z)%Q)
    by (unfold Qle; simpl; lia).
  assert (Hhi : (inject_Z z <= (1 # 2) * inject_Z bound)%Q)
    by (unfold Qle; simpl; lia).
  assert (El : (- ((1 # 2) * (inject_Z bound * p)) == (- ((1 # 2) * inject_Z bound)) * p)%Q)
    by ring.
  assert (Er : ((1 # 2) * (inject_Z bound * p) == ((1 # 2) * inject_Z bound) * p)%Q)
    by ring.
  rewrite El, Er.
  split; (apply Qmult_le_compat_r; [assumption | apply Qlt_le_weak, Hp]).
Qed.

(** A rescaled decimal is within half a unit of its last place of the
    decimal it comes from. *)
Lemma _rescale_close (d : t) (e : Z) :
  (Qabs (to_Q (_rescale d e) - to_Q d) <= (1 # 2) * (10 # 1) ^ e)%Q.
Proof.
  assert (Hzero : forall x : Q, (x == 0)%Q -> (Qabs x <= (1 # 2) * (10 # 1) ^ e)%Q).
  { intros x ->. simpl.
    apply Qmult_le_0_compat; [discriminate | apply Qlt_le_weak, ten_pow_pos]. }
  unfold _rescale. destruct (Z.eqb_spec (coefficient d) 0) as [Hc | Hc].
  - apply Hzero. unfold to_Q; simpl. rewrite Hc. simpl. ring.
  - destruct (Z.leb_spec e (exponent d)) as [Hle | Hgt].
    + apply Hzero. unfold to_Q at 1; simpl. rewrite (rescale_Q d e Hle). ring.
    + set (k := e - exponent d).
      assert (Hk : 0 < 10 ^ k) by (apply Z.pow_pos_nonneg; unfold k; lia).
      destruct (round_half_even_spec (coefficient d) (10 ^ k) Hk) as [Hnear _].
      set (r := round_half_even (coefficient d) (10 ^ k)) in *.
      assert (Hpow : ((10 # 1) ^ e == inject_Z (10 ^ k) * (10 # 1) ^ exponent d)%Q).
      { rewrite pow10_Q by (unfold k; lia).
        rewrite <- (Qpower_plus _ _ _ ten_not_0).
        replace (k + exponent d) with e by (unfold k; lia). reflexivity. }
      assert (E : (to_Q {| coefficient := r; exponent := e |} - to_Q d
                   == inject_Z (r * 10 ^ k - coefficient d) * (10 # 1) ^ exponent d)%Q).
      { unfold to_Q; simpl. rewrite Hpow. unfold Z.sub.
        rewrite inject_Z_plus, inject_Z_mult, inject_Z_opp. ring. }
      rewrite E, Hpow.
      apply Qabs_scaled; [apply ten_pow_pos | exact Hnear].
Qed.

End DecimalFacts.

(** ** Amounts within range

    Sums, products, quotients by 100 and roundings of amounts that are
    within range stay within the precision of the context: the operations
    return, and what they return stands for the exact result. *)
Module RangeFacts.
Import Decimal DecimalFacts.

Lemma context_range (e k : Z) :
  0 <= k <= 1000 -> - k <= e <= 0 -> Etiny <= e <= Etop.
Proof. unfold Etiny, Etop, Emin, Emax, prec. lia. Qed.

Lemma rescale_units (d : t) (e k : Z) :
  - k <= e <= exponent d -> rescale d e * 10 ^ (e + k) = rescale d (- k).
Proof.
  intros He. unfold rescale.
  replace (exponent d - - k) with ((exponent d - e) + (e + k)) by lia.
  rewrite (pow10_add (exponent d - e) (e + k)) by lia. ring.
Qed.

Lemma abs_le_units (c j : Z) : 0 <= j -> Z.abs c <= Z.abs (c * 10 ^ j).
Proof.
  intros Hj. rewrite Z.abs_mul. pose proof (pow10_ge_1 j Hj).
  rewrite (Z.abs_eq (10 ^ j)) by lia. pose proof (Z.abs_nonneg c). nia.
Qed.

Lemma bounded_coefficient (k B : Z) (d : t) :
  bounded k B d -> Z.abs (coefficient d) < B.
Proof.
  intros [He Hu]. unfold rescale in Hu.
  pose proof (abs_le_units (coefficient d) (exponent d - - k) ltac:(lia)). lia.
Qed.

Lemma bounded_zero (k B : Z) : 0 <= k -> 0 < B -> bounded k B zero.
Proof.
  intros Hk HB. split; [simpl; lia |]. unfold rescale. simpl. exact HB.
Qed.

Lemma bounded_or_zero (k B : Z) (x : option t) :
  0 <= k -> 0 < B ->
  (forall d, x = Some d -> bounded k B d) -> bounded k B (or_zero x).
Proof.
  intros Hk HB Hx. destruct x as [d |]; simpl; [| apply bounded_zero; assumption].
  destruct (truthy d); [apply Hx; reflexivity | apply bounded_zero; assumption].
Qed.

Lemma bounded_weaken (k B B' : Z) (d : t) :
  B <= B' -> bounded k B d -> bounded k B' d.
Proof. intros HB [He Hu]. split; [exact He | lia]. Qed.

(** The sum of two amounts. *)
Lemma add_bounded (k B1 B2 : Z) (a b : t) :
  0 <= k <= 1000 -> B1 + B2 <= 10 ^ prec ->
  bounded k B1 a -> bounded k B2 b ->
  exists s, add a b = Value s /\ bounded k (B1 + B2) s /\
            (to_Q s == to_Q a + to_Q b)%Q.
Proof.
  intros Hk HB [Hea Hua] [Heb Hub].
  set (e := Z.min (exponent a) (exponent b)).
  exists (mk (rescale a e + rescale b e) e).
  assert (Hunits : rescale (mk (rescale a e + rescale b e) e) (- k) =
                   rescale a (- k) + rescale b (- k)).
  { unfold rescale at 1. cbn [coefficient exponent].
    replace (e - - k) with (e + k) by lia.
    rewrite Z.mul_add_distr_r, !rescale_units by (unfold e; lia). reflexivity. }
  assert (Hb : bounded k (B1 + B2) (mk (rescale a e + rescale b e) e)).
  { split; [cbn [exponent]; unfold e; lia |]. rewrite Hunits. lia. }
  split; [| split; [exact Hb | apply to_Q_sum]].
  unfold add. fold e. apply _fix_fits.
  - pose proof (bounded_coefficient _ _ _ Hb). lia.
  - apply (context_range _ k Hk). apply Hb.
Qed.

(** The product of two amounts. *)
Lemma mul_bounded (ka kb Ba Bb : Z) (a b : t) :
  0 <= ka -> 0 <= kb -> ka + kb <= 1000 -> Ba * Bb <= 10 ^ prec ->
  bounded ka Ba a -> bounded kb Bb b ->
  exists p, mul a b = Value p /\ bounded (ka + kb) (Ba * Bb) p /\
            (to_Q p == to_Q a * to_Q b)%Q.
Proof.
  intros Hka Hkb Hk HB [Hea Hua] [Heb Hub].
  exists (mk (coefficient a * coefficient b) (exponent a + exponent b)).
  assert (Hb : bounded (ka + kb) (Ba * Bb)
                 (mk (coefficient a * coefficient b) (exponent a + exponent b))).
  { split; [cbn [exponent]; lia |].
    unfold rescale in *. cbn [coefficient exponent].
    replace (exponent a + exponent b - - (ka + kb))
      with ((exponent a - - ka) + (exponent b - - kb)) by lia.
    rewrite pow10_add by lia.
    replace (coefficient a * coefficient b *
             (10 ^ (exponent a - - ka) * 10 ^ (exponent b - - kb)))
      with ((coefficient a * 10 ^ (exponent a - - ka)) *
            (coefficient b * 10 ^ (exponent b - - kb))) by ring.
    rewrite Z.abs_mul.
    apply Z.mul_lt_mono_nonneg; try apply Z.abs_nonneg; assumption. }
  split; [| split; [exact Hb | apply to_Q_product]].
  unfold mul. apply _fix_fits.
  - pose proof (bounded_coefficient _ _ _ Hb). lia.
  - apply (context_range _ (ka + kb) ltac:(lia)). apply Hb.
Qed.

(** *** The quotient by 100 *)

Lemma strip_zeros_pow (n fuel : nat) (m exp ideal_exp : Z) :
  exp + Z.of_nat n <= ideal_exp ->
  strip_zeros (n + fuel) (m * 10 ^ Z.of_nat n) exp ideal_exp =
  strip_zeros fuel m (exp + Z.of_nat n) ideal_exp.
Proof.
  revert exp. induction n as [| n IH]; intros exp Hexp.
  - simpl. rewrite Z.mul_1_r, Z.add_0_r. reflexivity.
  - cbn [Nat.add strip_zeros].
    replace (Z.of_nat (S n)) with (Z.of_nat n + 1) in * by lia.
    rewrite pow10_succ by lia.
    replace (m * (10 * 10 ^ Z.of_nat n)) with (m * 10 ^ Z.of_nat n * 10) by ring.
    rewrite Z.mod_mul, Z.div_mul by lia.
    destruct (Z.ltb_spec exp ideal_exp) as [_ | Hge]; [| lia].
    cbn [andb Z.eqb]. rewrite IH by lia. f_equal. lia.
Qed.

(** With two steps left, the loop removes up to two trailing zeros. *)
Lemma strip_zeros_two (m exp ideal_exp : Z) :
  ideal_exp = exp + 2 ->
  exists j, 0 <= j <= 2 /\
    strip_zeros 2 m exp ideal_exp = (m / 10 ^ j, exp + j) /\
    m / 10 ^ j * 10 ^ j = m.
Proof.
  intros ->. cbn [strip_zeros].
  destruct (Z.ltb_spec exp (exp + 2)) as [_ | Hge]; [| lia]. cbn [andb].
  destruct (Z.eqb_spec (m mod 10) 0) as [H1 | H1].
  - destruct (Z.ltb_spec (exp + 1) (exp + 2)) as [_ | Hge]; [| lia]. cbn [andb].
    pose proof (Z.div_mod m 10 ltac:(lia)) as Hm.
    destruct (Z.eqb_spec (m / 10 mod 10) 0) as [H2 | H2].
    + exists 2. split; [lia |].
      pose proof (Z.div_mod (m / 10) 10 ltac:(lia)) as Hm'.
      change (10 ^ 2) with (10 * 10). rewrite <- Z.div_div by lia.
      split; [f_equal; lia | lia].
    + exists 1. split; [lia |]. change (10 ^ 1) with 10.
      split; [reflexivity | lia].
  - exists 0. split; [lia |]. change (10 ^ 0) with 1.
    rewrite Z.div_1_r, Z.add_0_r. split; [reflexivity | lia].
Qed.

(** The quotient of a coefficient that fits the precision is exact: it is
    the same number with an exponent lower by at most two. *)
Lemma div100_exact (a : t) :
  Z.abs (coefficient a) < 10 ^ prec ->
  exists q, div100 a = _fix q /\
    exponent a - 2 <= exponent q <= exponent a /\
    rescale q (exponent a - 2) = coefficient a.
Proof.
  intros Hc. unfold div100. destruct a as [c e]; cbn [coefficient exponent] in *.
  destruct (Z.eqb_spec c 0) as [-> | Hne].
  - exists (mk 0 e). split; [reflexivity |]. split; [cbn [exponent]; lia |].
    unfold rescale. reflexivity.
  - pose proof (digits_le c prec ltac:(unfold prec; lia) Hc) as Hd.
    pose proof (digits_pos c) as Hd1.
    set (shift := 3 - digits c + prec + 1).
    assert (Hshift : 4 <= shift) by (unfold shift; lia).
    destruct (Z.leb_spec 0 shift) as [_ | Hneg]; [| lia].
    assert (Hdividend : Z.abs c * 10 ^ shift = Z.abs c * 10 ^ (shift - 2) * 100).
    { replace shift with ((shift - 2) + 2) at 1 by lia.
      rewrite pow10_add by lia. change (10 ^ 2) with 100. ring. }
    assert (Hdiv : Z.div_eucl (Z.abs c * 10 ^ shift) 100 =
                   (Z.abs c * 10 ^ (shift - 2), 0)).
    { pose proof (Z.div_mul (Z.abs c * 10 ^ (shift - 2)) 100 ltac:(lia)) as Hq.
      pose proof (Z.mod_mul (Z.abs c * 10 ^ (shift - 2)) 100 ltac:(lia)) as Hr.
      rewrite <- Hdividend in Hq, Hr. unfold Z.div, Z.modulo in Hq, Hr.
      destruct (Z.div_eucl (Z.abs c * 10 ^ shift) 100) as [q r].
      congruence. }
    rewrite Hdiv. cbn [Z.eqb negb].
    replace (e - (e - shift)) with shift by lia.
    replace (Z.to_nat shift) with (Z.to_nat (shift - 2) + 2)%nat by lia.
    replace (10 ^ (shift - 2)) with (10 ^ Z.of_nat (Z.to_nat (shift - 2)))
      by (rewrite Z2Nat.id by lia; reflexivity).
    rewrite strip_zeros_pow by lia.
    rewrite Z2Nat.id by lia.
    destruct (strip_zeros_two (Z.abs c) (e - shift + (shift - 2)) e ltac:(lia))
      as (j & Hj & -> & Hback).
    exists (mk (Z.sgn c * (Z.abs c / 10 ^ j)) (e - shift + (shift - 2) + j)).
    split; [reflexivity |]. cbn [exponent]. split; [lia |].
    unfold rescale. cbn [coefficient exponent].
    replace (e - shift + (shift - 2) + j - (e - 2)) with j by lia.
    rewrite <- Z.mul_assoc, Hback. lia.
Qed.

Lemma div100_bounded (k B : Z) (a : t) :
  0 <= k -> k + 2 <= 1000 -> B <= 10 ^ prec ->
  bounded k B a ->
  exists q, div100 a = Value q /\ bounded (k + 2) B q /\
            (to_Q q == to_Q a * (1 # 100))%Q.
Proof.
  intros Hk Hk2 HB Ha.
  pose proof (bounded_coefficient _ _ _ Ha) as Hc. destruct Ha as [Hea Hua].
  destruct (div100_exact a ltac:(lia)) as (q & Hdiv & Heq & Hback).
  exists q.
  assert (Hunits : rescale q (- (k + 2)) = rescale a (- k)).
  { rewrite <- (rescale_units q (exponent a - 2) (k + 2)) by lia.
    rewrite Hback. unfold rescale. f_equal. f_equal. lia. }
  assert (Hb : bounded (k + 2) B q) by (split; [lia | rewrite Hunits; exact Hua]).
  split; [| split; [exact Hb |]].
  - rewrite Hdiv. apply _fix_fits.
    + pose proof (bounded_coefficient _ _ _ Hb). lia.
    + apply (context_range _ (k + 2) ltac:(lia)). apply Hb.
  - rewrite <- (rescale_Q q (exponent a - 2)) by lia. rewrite Hback.
    unfold to_Q. rewrite pow10_pred2. ring.
Qed.

(** *** Rounding to cents *)

Lemma bounded_digits (k N : Z) (d : t) :
  0 <= k -> bounded k (10 ^ N) d -> coefficient d <> 0 ->
  exponent d + k < N /\ Z.abs (coefficient d) < 10 ^ (N - exponent d - k).
Proof.
  intros Hk [He Hu] Hc. unfold rescale in Hu.
  replace (exponent d - - k) with (exponent d + k) in Hu by lia.
  rewrite Z.abs_mul in Hu.
  pose proof (pow10_pos (exponent d + k) ltac:(lia)) as Hpos.
  rewrite (Z.abs_eq (10 ^ (exponent d + k))) in Hu by lia.
  assert (Hlt : exponent d + k < N).
  { destruct (Z.lt_ge_cases (exponent d + k) N) as [Hlt | Hge]; [exact Hlt |].
    exfalso.
    assert (HN : 10 ^ N <= 10 ^ (exponent d + k)).
    { destruct (Z.neg_nonneg_cases N) as [Hneg | Hnn].
      - rewrite Z.pow_neg_r by assumption. lia.
      - apply pow10_le. lia. }
    assert (1 <= Z.abs (coefficient d)) by lia. nia. }
  split; [exact Hlt |].
  replace (10 ^ N) with (10 ^ (N - exponent d - k) * 10 ^ (exponent d + k)) in Hu
    by (rewrite <- pow10_add by lia; f_equal; lia).
  eapply Z.mul_lt_mono_pos_r; [exact Hpos | exact Hu].
Qed.

Lemma round_half_even_le (c D M : Z) :
  0 < D -> 0 <= M -> Z.abs c < M * D -> Z.abs (round_half_even c D) <= M.
Proof.
  intros HD HM Hc.
  destruct (round_half_even_spec c D HD) as [Hnear _].
  set (r := round_half_even c D) in *.
  apply Z.abs_le. split.
  - destruct (Z.le_gt_cases (- M) r) as [Hle | Hgt]; [exact Hle |]. exfalso.
    assert (r * D <= (- M - 1) * D) by (apply Z.mul_le_mono_nonneg_r; lia). lia.
  - destruct (Z.le_gt_cases r M) as [Hle | Hgt]; [exact Hle |]. exfalso.
    assert ((M + 1) * D <= r * D) by (apply Z.mul_le_mono_nonneg_r; lia). lia.
Qed.

Lemma context_has_cents : negb ((Etiny <=? -2) && (-2 <=? Emax)) = false.
Proof. reflexivity. Qed.

(** An amount within range is rounded to cents: the call returns the
    rescaled amount. *)
Lemma round_bounded (k N : Z) (d : t) :
  0 <= k <= N -> N <= 25 + k -> bounded k (10 ^ N) d ->
  round d 2 = Value (_rescale d (-2)) /\
  Z.abs (coefficient (_rescale d (-2))) <= 10 ^ (N - k + 2).
Proof.
  intros Hk HN Hd.
  assert (Hfix : forall ans, exponent ans = -2 ->
            Z.abs (coefficient ans) <= 10 ^ (N - k + 2) ->
            digits (coefficient ans) <= prec /\ adjusted ans <= Emax /\
            _fix ans = Value ans).
  { intros ans He Hc.
    assert (Hlt : Z.abs (coefficient ans) < 10 ^ prec).
    { eapply Z.le_lt_trans; [exact Hc |]. apply pow10_lt. unfold prec. lia. }
    pose proof (digits_le _ prec ltac:(unfold prec; lia) Hlt) as Hdig.
    split; [exact Hdig |]. split.
    - unfold adjusted. rewrite He. unfold prec, Emax in *. lia.
    - apply _fix_fits; [exact Hlt |]. rewrite He. unfold Etiny, Etop, Emin, Emax, prec. lia. }
  pose proof (pow10_pos (N - k + 2) ltac:(lia)) as HM.
  unfold round, quantize. change (- (2)) with (-2). rewrite context_has_cents.
  destruct (Z.eqb_spec (coefficient d) 0) as [Hc | Hc].
  - unfold _rescale. rewrite Hc. cbn [Z.eqb coefficient].
    destruct (Hfix (mk 0 (-2)) eq_refl ltac:(simpl; lia)) as (_ & _ & ->).
    split; [reflexivity | simpl; lia].
  - destruct (bounded_digits k N d ltac:(lia) Hd Hc) as [Hlt Hcoef].
    pose proof (digits_le (coefficient d) (N - exponent d - k) ltac:(lia) Hcoef)
      as Hdig.
    pose proof (digits_pos (coefficient d)) as Hdig1.
    destruct Hd as [He _].
    destruct (Z.ltb_spec Emax (adjusted d)) as [Hbad | _];
      [unfold adjusted, Emax in Hbad; lia |].
    destruct (Z.ltb_spec prec (adjusted d - -2 + 1)) as [Hbad | _];
      [unfold adjusted, prec in Hbad; lia |].
    assert (Hans : Z.abs (coefficient (_rescale d (-2))) <= 10 ^ (N - k + 2)).
    { unfold _rescale. destruct (Z.eqb_spec (coefficient d) 0) as [| _]; [contradiction |].
      destruct (Z.leb_spec (-2) (exponent d)) as [Hle | Hgt]; cbn [coefficient].
      - unfold rescale. rewrite Z.abs_mul.
        pose proof (pow10_pos (exponent d - -2) ltac:(lia)) as Hp.
        rewrite (Z.abs_eq (10 ^ (exponent d - -2))) by lia.
        replace (10 ^ (N - k + 2))
          with (10 ^ (N - exponent d - k) * 10 ^ (exponent d - -2))
          by (rewrite <- pow10_add by lia; f_equal; lia).
        apply Z.mul_le_mono_nonneg_r; lia.
      - apply round_half_even_le; [apply pow10_pos; lia | lia |].
        replace (10 ^ (N - k + 2) * 10 ^ (-2 - exponent d))
          with (10 ^ (N - exponent d - k))
          by (rewrite <- pow10_add by lia; f_equal; lia).
        exact Hcoef. }
    destruct (Hfix (_rescale d (-2)) (exponent__rescale d (-2)) Hans)
      as (Hdig' & Hadj & Hfixed).
    destruct (Z.ltb_spec Emax (adjusted (_rescale d (-2)))) as [Hbad | _]; [lia |].
    destruct (Z.ltb_spec prec (digits (coefficient (_rescale d (-2))))) as [Hbad | _];
      [lia |].
    split; [exact Hfixed | exact Hans].
Qed.

(** *** The sum of amounts in cents *)

Lemma add_cents (a b : Z) :
  Z.abs (a + b) < 10 ^ prec ->
  add (mk a (-2)) (mk b (-2)) = Value (mk (a + b) (-2)).
Proof.
  intros Hab. unfold add, rescale. cbn [coefficient exponent].
  change (Z.min (-2) (-2)) with (-2). change (-2 - -2) with 0.
  change (10 ^ 0) with 1. rewrite !Z.mul_1_r.
  apply _fix_fits; [exact Hab | vm_compute; split; discriminate].
Qed.

Lemma add_int_0_cents (b : Z) :
  Z.abs b < 10 ^ prec -> add (of_int 0) (mk b (-2)) = Value (mk b (-2)).
Proof.
  intros Hb. unfold add, rescale, of_int. cbn [coefficient exponent].
  change (Z.min 0 (-2)) with (-2). change (-2 - -2) with 0.
  change (10 ^ 0) with 1. rewrite Z.mul_1_r. cbn [Z.mul Z.add].
  apply _fix_fits; [exact Hb | vm_compute; split; discriminate].
Qed.

Lemma sum_cents (c1 c2 c3 c4 : Z) :
  Z.abs c1 <= 10 ^ 26 -> Z.abs c2 <= 10 ^ 26 ->
  Z.abs c3 <= 10 ^ 26 -> Z.abs c4 <= 10 ^ 26 ->
  sum [mk c1 (-2); mk c2 (-2); mk c3 (-2); mk c4 (-2)] =
  Value (mk (c1 + c2 + c3 + c4) (-2)).
Proof.
  intros H1 H2 H3 H4.
  assert (H28 : 4 * 10 ^ 26 < 10 ^ prec) by reflexivity.
  unfold sum. cbn [foldl mbind result_bind].
  rewrite add_int_0_cents by lia. cbn [mbind result_bind].
  rewrite add_cents by lia. cbn [mbind result_bind].
  rewrite add_cents by lia. cbn [mbind result_bind].
  apply add_cents. lia.
Qed.

End RangeFacts.

(** ** Classifying a transition: [is_downgrade] *)

Lemma decimal_lt_true (a b : option Decimal) :
  decimal_lt a b = Ok true <-> price_lt a b.
Proof.
  unfold decimal_lt, price_lt. split.
  - destruct a as [x |], b as [y |]; try discriminate.
    intros H. exists x, y. repeat split.
    apply DecimalFacts.ltb_lt. congruence.
  - intros (x & y & -> & -> & Hlt). f_equal. apply DecimalFacts.ltb_lt, Hlt.
Qed.

(** C1. [is_downgrade] returns false when the user has no current
    membership or the current membership is the initial tier; otherwise it
    returns true when the target is the initial tier; otherwise it returns
    true exactly when the target's monthly price is strictly lower than
    the current one, so that equal monthly prices are not a downgrade. *)
Theorem is_downgrade_spec (self : Membership) (user : User) :
  (current_membership user = None -> is_downgrade self user = Ok false) /\
  (forall current, current_membership user = Some current ->
     is_initial current = true -> is_downgrade self user = Ok false) /\
  (forall current, current_membership user = Some current ->
     is_initial current = false -> is_initial self = true ->
     is_downgrade self user = Ok true) /\
  (forall current, current_membership user = Some current ->
     is_initial current = false -> is_initial self = false ->
     (is_downgrade self user = Ok true <->
      price_lt (price_month self) (price_month current)) /\
     (forall x y, price_month self = Some x -> price_month current = Some y ->
        (Decimal.to_Q x == Decimal.to_Q y)%Q -> is_downgrade self user = Ok false)).
Proof.
  unfold is_downgrade. repeat split.
  - intros ->. reflexivity.
  - intros current -> ->. reflexivity.
  - intros current -> -> ->. reflexivity.
  - rewrite H, H0, H1. apply decimal_lt_true.
  - rewrite H, H0, H1. apply decimal_lt_true.
  - intros x y Hx Hy Heq. rewrite H, H0, H1, Hx, Hy. simpl.
    f_equal. apply DecimalFacts.ltb_irrefl_eq, Heq.
Qed.

Example downgrade_pro_to_basic :
  is_downgrade basic_tier (member 7 "client" (Some pro_tier) None) = Ok true.
Proof. reflexivity. Qed.

Example upgrade_basic_to_pro :
  is_downgrade pro_tier (member 7 "client" (Some basic_tier) None) = Ok false.
Proof. reflexivity. Qed.

Example same_price_is_no_downgrade :
  is_downgrade pro_tier (member 7 "client" (Some pro_tier) None) = Ok false.
Proof. reflexivity. Qed.

(** The comparison looks at the number, not at how it is written:
    [49.0] against [49.00]. *)
Example same_price_other_exponent :
  is_downgrade (tier "t" "T" (Some (dec 490 (-1))) None None false)
               (member 7 "client" (Some pro_tier) None) = Ok false.
Proof. reflexivity. Qed.

(** C10. The comparison in [is_downgrade] is partial: between two
    non-initial tiers it raises a type error exactly when the monthly price
    of either is null; no other error is raised; and the function returns a
    boolean whenever both non-initial tiers compared have a monthly price. *)
Theorem is_downgrade_partial (self : Membership) (user : User) :
  (is_downgrade self user = Raise TypeError <->
   exists current, current_membership user = Some current /\
     is_initial current = false /\ is_initial self = false /\
     (price_month self = None \/ price_month current = None)) /\
  (forall e, is_downgrade self user = Raise e -> e = TypeError) /\
  ((forall current, current_membership user = Some current ->
      is_initial current = false -> is_initial self = false ->
      is_Some (price_month self) /\ is_Some (price_month current)) ->
   exists b, is_downgrade self user = Ok b).
Proof.
  unfold is_downgrade, decimal_lt.
  destruct (current_membership user) as [current |].
  2:{ repeat split; try discriminate.
      - intros (c & Hc & _). discriminate.
      - eauto. }
  destruct (is_initial current) eqn:Hcur.
  { repeat split; try discriminate.
    - intros (c & Hc & Hi & _). congruence.
    - eauto. }
  destruct (is_initial self) eqn:Hself.
  { repeat split; try discriminate.
    - intros (c & _ & _ & Hi & _). congruence.
    - eauto. }
  split; [| split].
  - split.
    + intros Hraise. exists current. repeat split; auto.
      destruct (price_month self), (price_month current); auto; discriminate.
    + intros (c & Hc & _ & _ & Hnull). injection Hc as <-.
      destruct Hnull as [-> | ->]; [reflexivity |].
      destruct (price_month self); reflexivity.
  - intros e He.
    destruct (price_month self), (price_month current); congruence.
  - intros Hdef.
    destruct (Hdef current eq_refl Hcur eq_refl) as [[x ->] [y ->]].
    eexists; reflexivity.
Qed.

Example unpriced_target_raises :
  is_downgrade draft_tier (member 7 "client" (Some pro_tier) None) = Raise TypeError.
Proof. reflexivity. Qed.

Example unpriced_current_raises :
  is_downgrade pro_tier (member 7 "client" (Some draft_tier) None) = Raise TypeError.
Proof. reflexivity. Qed.

(** ** Throttling downgrades: [can_downgrade_membership] *)

(** C9. [can_downgrade_membership] is true exactly when the date of the
    last downgrade is unset, or its year differs from the current year, or
    its month differs from the current month; with a last downgrade on
    2024-03-15 it is false on 2024-03-20 and true on 2024-04-01. *)
Theorem can_downgrade_membership_spec :
  (forall (u : User) (today : date),
     can_downgrade_membership u today = true <->
     (last_membership_downgrade_date u = None \/
      exists last, last_membership_downgrade_date u = Some last /\
        (year last <> year today \/ month last <> month today))) /\
  (forall u : User,
     last_membership_downgrade_date u = Some (mkdate 2024 3 15) ->
     can_downgrade_membership u (mkdate 2024 3 20) = false /\
     can_downgrade_membership u (mkdate 2024 4 1) = true).
Proof.
  split.
  - intros u today. unfold can_downgrade_membership.
    destruct (last_membership_downgrade_date u) as [last |].
    + rewrite orb_true_iff, !negb_true_iff, !Z.eqb_neq. split.
      * intros H. right. exists last. split; [reflexivity | exact H].
      * intros [H | (l & Hl & H)]; [discriminate | congruence].
    + split; auto.
  - intros u Hlast. unfold can_downgrade_membership. rewrite Hlast. split; reflexivity.
Qed.

Example throttled_within_the_month :
  can_downgrade_membership (member 7 "client" (Some basic_tier) (Some (mkdate 2024 3 15)))
    (mkdate 2024 3 20) = false.
Proof. reflexivity. Qed.

Example allowed_next_month :
  can_downgrade_membership (member 7 "client" (Some basic_tier) (Some (mkdate 2024 3 15)))
    (mkdate 2024 4 1) = true.
Proof. reflexivity. Qed.

(** The same month of another year does not throttle. *)
Example allowed_next_year :
  can_downgrade_membership (member 7 "client" (Some basic_tier) (Some (mkdate 2024 3 15)))
    (mkdate 2025 3 15) = true.
Proof. reflexivity. Qed.

(** ** The price of posting a project *)

Lemma rounded_to_cents_wd (r : Decimal) (x y : Q) :
  (x == y)%Q -> rounded_to_cents r x -> rounded_to_cents r y.
Proof. intros Hxy [He Hclose]. split; [exact He |]. rewrite <- Hxy. exact Hclose. Qed.

(** A decimal with two places that is within half a cent of a whole
    number of cents is that number of cents. *)
Lemma rounded_to_cents_exact (r : Decimal) (n : Z) :
  rounded_to_cents r (n # 100) -> r = cents n.
Proof.
  destruct r as [c e]. unfold rounded_to_cents. intros [He Hclose].
  simpl in He. subst e.
  apply Qabs_Qle_condition in Hclose. destruct Hclose as [Hlo Hhi].
  unfold Decimal.to_Q, Qle in Hlo, Hhi; simpl in Hlo, Hhi.
  unfold cents. f_equal. lia.
Qed.

Lemma round_in_range (k N : Z) (d : Decimal) (x : Q) :
  0 <= k <= N -> N <= 24 + k -> bounded k (10 ^ N) d ->
  (Decimal.to_Q d == x)%Q ->
  exists r, Decimal.round d 2 = Decimal.Value r /\
            rounded_to_cents r x /\ cents_in_range r.
Proof.
  intros Hk HN Hd Hx.
  destruct (RangeFacts.round_bounded k N d Hk ltac:(lia) Hd) as [Hround Hcoef].
  exists (Decimal._rescale d (-2)). split; [exact Hround |].
  pose proof (DecimalFacts.exponent__rescale d (-2)) as He.
  split; split; try exact He.
  - rewrite <- Hx. apply (DecimalFacts._rescale_close d (-2)).
  - eapply Z.le_trans; [exact Hcoef |]. apply DecimalFacts.pow10_le. lia.
Qed.

(** A percentage of a subtotal: the product and the quotient by 100 are
    exact. *)
Lemma percent_in_range (subtotal percentage : Decimal) :
  bounded 4 (10 ^ 16 + 10 ^ 16) subtotal -> bounded 4 (10 ^ 8) percentage ->
  exists v,
    (product ← Decimal.mul subtotal percentage; Decimal.div100 product) =
      Decimal.Value v /\
    bounded 10 (10 ^ 25) v /\
    (Decimal.to_Q v ==
     Decimal.to_Q subtotal * Decimal.to_Q percentage / (100 # 1))%Q.
Proof.
  intros Hs Hp.
  destruct (RangeFacts.mul_bounded 4 4 (10 ^ 16 + 10 ^ 16) (10 ^ 8) subtotal percentage
              ltac:(lia) ltac:(lia) ltac:(lia) ltac:(apply Z.leb_le; reflexivity) Hs Hp)
    as (product & Hmul & Hproduct & Qproduct).
  destruct (RangeFacts.div100_bounded (4 + 4) ((10 ^ 16 + 10 ^ 16) * 10 ^ 8) product
              ltac:(lia) ltac:(lia) ltac:(apply Z.leb_le; reflexivity) Hproduct)
    as (v & Hdiv & Hv & Qv).
  exists v. rewrite Hmul. cbn [mbind Decimal.result_bind].
  split; [exact Hdiv |]. split.
  - eapply RangeFacts.bounded_weaken; [| exact Hv]. apply Z.leb_le. reflexivity.
  - rewrite Qv, Qproduct. field.
Qed.

Lemma amount_or_zero (x : option Decimal) :
  (Decimal.to_Q (Decimal.or_zero x) == amount x)%Q.
Proof. apply DecimalFacts.to_Q_or_zero. Qed.

(** Within range the call returns, and each of the four components is the
    rounding of its exact amount. *)
Lemma price_detail_rounded
    (fee : PaymentFee) (self : Membership) (has_concierge add_fee : bool) :
  amounts_in_range fee self ->
  let project := amount (project_posting_price fee) in
  let concierge := if has_concierge then amount (concierge_price self) else 0%Q in
  let subtotal := (project + concierge)%Q in
  exists r,
    get_project_price_detailed fee self has_concierge add_fee = Decimal.Value r /\
    (rounded_to_cents (detail_project_price r) project /\
     rounded_to_cents (detail_concierge_price r) concierge /\
     rounded_to_cents (detail_vat_price r)
       (subtotal * Decimal.to_Q (tax_percentage fee) / (100 # 1)) /\
     rounded_to_cents (detail_stripe_fee r)
       (if add_fee
        then subtotal * Decimal.to_Q (stripe_percentage fee) / (100 # 1)
        else 0%Q)) /\
    Forall cents_in_range (price_values r).
Proof.
  intros (Hposting & Htax & Hstripe & Hconcierge). cbv zeta.
  assert (H16 : 0 < 10 ^ 16) by reflexivity.
  pose proof (RangeFacts.bounded_or_zero 4 _ _ ltac:(lia) H16 Hposting) as Hp.
  pose proof (RangeFacts.bounded_or_zero 4 _ _ ltac:(lia) H16 Hconcierge) as Hc.
  pose proof (RangeFacts.bounded_zero 4 _ ltac:(lia) H16) as Hz.
  (* the subtotal and the concierge price that is charged *)
  assert (Hsub : exists c s,
    (if has_concierge
     then (subtotal ← Decimal.add (Decimal.or_zero (project_posting_price fee))
                                  (Decimal.or_zero (concierge_price self));
           mret (Decimal.or_zero (concierge_price self), subtotal))
     else mret (Decimal.zero, Decimal.or_zero (project_posting_price fee))) =
      Decimal.Value (c, s) /\
    bounded 4 (10 ^ 16) c /\ bounded 4 (10 ^ 16 + 10 ^ 16) s /\
    (Decimal.to_Q c == if has_concierge then amount (concierge_price self) else 0)%Q /\
    (Decimal.to_Q s == amount (project_posting_price fee) + Decimal.to_Q c)%Q).
  { destruct has_concierge.
    - destruct (RangeFacts.add_bounded 4 (10 ^ 16) (10 ^ 16) _ _ ltac:(lia)
                  ltac:(apply Z.leb_le; reflexivity) Hp Hc) as (s & Hadd & Hs & Qs).
      exists (Decimal.or_zero (concierge_price self)), s.
      rewrite Hadd. split; [reflexivity |]. split; [exact Hc |]. split; [exact Hs |].
      split; [apply amount_or_zero |]. rewrite Qs, amount_or_zero. reflexivity.
    - exists Decimal.zero, (Decimal.or_zero (project_posting_price fee)).
      split; [reflexivity |]. split; [exact Hz |]. split.
      + eapply RangeFacts.bounded_weaken; [| exact Hp]. lia.
      + split; [reflexivity |]. rewrite amount_or_zero, DecimalFacts.to_Q_zero. ring. }
  destruct Hsub as (c & s & Hsub & Hcb & Hsb & Qc & Qs).
  destruct (percent_in_range s (tax_percentage fee) Hsb Htax) as (v & Hvat & Hvb & Qv).
  assert (Hfee : exists f,
    (if add_fee
     then (product ← Decimal.mul s (stripe_percentage fee); Decimal.div100 product)
     else mret Decimal.zero) = Decimal.Value f /\
    bounded 10 (10 ^ 25) f /\
    (Decimal.to_Q f ==
     if add_fee
     then Decimal.to_Q s * Decimal.to_Q (stripe_percentage fee) / (100 # 1)
     else 0)%Q).
  { destruct add_fee.
    - apply percent_in_range; assumption.
    - exists Decimal.zero. split; [reflexivity |]. split; [| reflexivity].
      apply RangeFacts.bounded_zero; [lia | reflexivity]. }
  destruct Hfee as (f & Hfee & Hfb & Qf).
  destruct (round_in_range 4 16 _ _ ltac:(lia) ltac:(lia) Hp (amount_or_zero _))
    as (r1 & Hr1 & Hc1 & Hb1).
  destruct (round_in_range 4 16 c _ ltac:(lia) ltac:(lia) Hcb Qc)
    as (r2 & Hr2 & Hc2 & Hb2).
  destruct (round_in_range 10 25 v _ ltac:(lia) ltac:(lia) Hvb Qv)
    as (r3 & Hr3 & Hc3 & Hb3).
  destruct (round_in_range 10 25 f _ ltac:(lia) ltac:(lia) Hfb Qf)
    as (r4 & Hr4 & Hc4 & Hb4).
  exists {| detail_project_price := r1; detail_concierge_price := r2;
            detail_vat_price := r3; detail_stripe_fee := r4 |}.
  split; [| split].
  - unfold get_project_price_detailed. cbv zeta.
    rewrite Hsub. cbn [mbind Decimal.result_bind].
    rewrite Hvat. cbn [mbind Decimal.result_bind].
    rewrite Hfee. cbn [mbind Decimal.result_bind].
    rewrite Hr1. cbn [mbind Decimal.result_bind].
    rewrite Hr2. cbn [mbind Decimal.result_bind].
    rewrite Hr3. cbn [mbind Decimal.result_bind].
    rewrite Hr4. reflexivity.
  - cbn [detail_project_price detail_concierge_price detail_vat_price detail_stripe_fee].
    split; [exact Hc1 |]. split; [exact Hc2 |]. split.
    + eapply rounded_to_cents_wd; [| exact Hc3]. rewrite Qs.
      destruct has_concierge; rewrite Qc; reflexivity.
    + eapply rounded_to_cents_wd; [| exact Hc4].
      destruct add_fee; [| reflexivity]. rewrite Qs.
      destruct has_concierge; rewrite Qc; reflexivity.
  - unfold price_values.
    cbn [detail_project_price detail_concierge_price detail_vat_price detail_stripe_fee].
    repeat (apply Forall_cons_2; [assumption |]). apply Forall_nil_2.
Qed.

Lemma example_amounts_in_range : amounts_in_range example_fee pro_tier.
Proof.
  assert (Hprice : forall n, Z.abs (n * 100) < 10 ^ 16 ->
            forall d, Some (cents n) = Some d -> bounded 4 (10 ^ 16) d).
  { intros n Hn d Hd. injection Hd as <-. split; [simpl; lia | exact Hn]. }
  split; [| split; [| split]].
  - intros d Hd. exact (Hprice 10000 eq_refl d Hd).
  - split; [simpl; lia | reflexivity].
  - split; [simpl; lia | reflexivity].
  - intros d Hd. exact (Hprice 5000 eq_refl d Hd).
Qed.



(** The example does not depend on how the amounts are written: any
    schedule and membership within range with these values give these
    components. *)
Lemma price_example_any_notation (fee : PaymentFee) (self : Membership) :
  amounts_in_range fee self ->
  (amount (project_posting_price fee) == 100 # 1)%Q ->
  (Decimal.to_Q (tax_percentage fee) == 21 # 1)%Q ->
  (Decimal.to_Q (stripe_percentage fee) == 3 # 1)%Q ->
  (amount (concierge_price self) == 50 # 1)%Q ->
  get_project_price_detailed fee self true true =
    Decimal.Value {| detail_project_price := cents 10000;
                     detail_concierge_price := cents 5000;
                     detail_vat_price := cents 3150;
                     detail_stripe_fee := cents 450 |}.
Proof.
  intros Hrange Hp Ht Hs Hc.
  destruct (price_detail_rounded fee self true true Hrange)
    as ([p c v f] & -> & (H1 & H2 & H3 & H4) & _).
  cbn [detail_project_price detail_concierge_price detail_vat_price
       detail_stripe_fee] in *.
  f_equal. f_equal; apply rounded_to_cents_exact.
  - eapply rounded_to_cents_wd; [| exact H1]. rewrite Hp. reflexivity.
  - eapply rounded_to_cents_wd; [| exact H2]. rewrite Hc. reflexivity.
  - eapply rounded_to_cents_wd; [| exact H3]. rewrite Hp, Hc, Ht. reflexivity.
  - eapply rounded_to_cents_wd; [| exact H4]. rewrite Hp, Hc, Hs. reflexivity.
Qed.

(** Half a cent goes to the even cent: 0.125 of tax on 12.50 at one
    percent becomes 0.12, and 0.375 on 37.50 becomes 0.38. *)
Example vat_tie_to_even :
  let fee amount := {| project_posting_price := Some (cents amount);
                       tax_percentage := dec 1 0; stripe_percentage := dec 0 0 |} in
  let detail amount vat :=
    {| detail_project_price := cents amount; detail_concierge_price := cents 0;
       detail_vat_price := cents vat; detail_stripe_fee := cents 0 |} in
  get_project_price_detailed (fee 1250) free_tier false false =
    Decimal.Value (detail 1250 12) /\
  get_project_price_detailed (fee 3750) free_tier false false =
    Decimal.Value (detail 3750 38).
Proof. split; vm_compute; reflexivity. Qed.

(** An unset posting price and an unset concierge price count as zero. *)
Example unset_prices :
  get_project_price_detailed
    {| project_posting_price := None; tax_percentage := dec 21 0;
       stripe_percentage := dec 3 0 |} free_tier true true =
  Decimal.Value
    {| detail_project_price := cents 0; detail_concierge_price := cents 0;
       detail_vat_price := cents 0; detail_stripe_fee := cents 0 |}.
Proof. vm_compute. reflexivity. Qed.

(** Beyond the range the context of the decimal module shows.  A posting
    price that needs more than 28 digits once written in cents cannot be
    rounded: the call raises [InvalidOperation]. *)
Example posting_price_beyond_precision :
  get_project_price_detailed
    {| project_posting_price := Some (dec 1 27); tax_percentage := dec 21 0;
       stripe_percentage := dec 3 0 |} free_tier false false =
  Decimal.Raised Decimal.InvalidOperation.
Proof. vm_compute. reflexivity. Qed.

(** A product of 29 digits is rounded to 28 before it is divided and
    rounded to cents: on 10000000000000000000000006.26 the tax of 21
    percent is 2100000000000000000000001.3146, and the call returns
    ...1.32. *)
Example vat_beyond_precision :
  get_project_price_detailed (fee_posting_at (10 ^ 27 + 626)) free_tier false false =
  Decimal.Value
    {| detail_project_price := cents 1000000000000000000000000626;
       detail_concierge_price := cents 0;
       detail_vat_price := cents 210000000000000000000000132;
       detail_stripe_fee := cents 0 |}.
Proof. vm_compute. reflexivity. Qed.

(** ** [subscribe] *)

Ltac run :=
  unfold run_subscribe, subscribe, atomic, subscribe_body, get_stripe_plan,
    stripe_subscribe, stripe_plan_list, stripe_subscription_create, user_save,
    membership_history_create, package_set_update_inactive, get_user_profile,
    get_user, lift, ask, get, modify, emit, raise, mbind, M_bind, mret, M_ret;
  simpl.

(** Case analysis on the next test the program makes. *)
Ltac branch :=
  match goal with
  | |- context [match ?x with _ => _ end] =>
      lazymatch x with
      | context [match _ with _ => _ end] => fail
      | _ => destruct x eqn:?; simpl
      end
  end.

(** C4. When the target tier is the initial one, [subscribe] sends no
    request to the gateway, neither a plan listing nor a subscription
    creation, however the call ends. *)
Theorem subscribe_initial_no_remote_call
    (env : Env) (self : Membership) (u : User) (d : Database) :
  is_initial self = true ->
  remote_requests (trace (run_subscribe env self u d).2) = [].
Proof.
  intros Hinit. run. unfold is_downgrade. rewrite Hinit. simpl.
  repeat branch; reflexivity.
Qed.

Lemma subscribe_initial_no_remote_call_witness :
  remote_requests
    (trace (run_subscribe (example_env example_gateway) free_tier
              (freelancer_on pro_tier) (example_db pro_tier)).2) = [].
Proof.
  apply (subscribe_initial_no_remote_call (example_env example_gateway) free_tier
           (freelancer_on pro_tier) (example_db pro_tier)).
  reflexivity.
Defined.

Lemma deactivate_owner (owner : Z) (p : Package) :
  freelancer_id (deactivate owner p) = freelancer_id p.
Proof. unfold deactivate. destruct (freelancer_id p =? owner); reflexivity. Qed.

Lemma deactivate_all (owner : Z) (l : list Package) (p : Package) :
  p ∈ map (deactivate owner) l -> freelancer_id p = owner ->
  package_is_active p = false.
Proof.
  intros Hin Hown. apply list_elem_of_In, in_map_iff in Hin.
  destruct Hin as (q & <- & _). rewrite deactivate_owner in Hown.
  unfold deactivate. apply Z.eqb_eq in Hown. rewrite Hown. reflexivity.
Qed.

Lemma deactivate_others (owner : Z) (p : Package) :
  freelancer_id p <> owner -> deactivate owner p = p.
Proof. unfold deactivate. intros H. apply Z.eqb_neq in H. rewrite H. reflexivity. Qed.

Lemma find_profile (u : User) (d : Database) :
  profile_type u = "freelancer" -> profile_resolves u d ->
  exists p,
    find (fun p => String.eqb (profile_model p) "auth.FreelancerProfile"
                   && (user_ptr_id p =? pk u)) (profiles d) = Some p /\
    user_ptr_id p = pk u.
Proof.
  intros Hfree Hres. destruct (Hres Hfree) as (p & Hin & Hmodel & Hptr).
  destruct (find _ (profiles d)) as [q |] eqn:Hfind.
  - exists q. split; [reflexivity |].
    apply find_some in Hfind. destruct Hfind as [_ Hq].
    apply andb_true_iff in Hq. destruct Hq as [_ Hq]. apply Z.eqb_eq, Hq.
  - exfalso. apply list_elem_of_In in Hin.
    pose proof (find_none _ _ Hfind p Hin) as Hp. simpl in Hp.
    rewrite Hmodel, Hptr, Z.eqb_refl in Hp. discriminate.
Qed.

(** C2. A downgrade, for a user who has a row in the user table and
    whose profile type resolves: the date of the last downgrade becomes
    today, in the object and in the row; all the packages of a freelancer
    are deactivated; no request goes to the gateway; and the ledger gains
    an entry whose remote subscription and plan ids are both null. *)
Theorem subscribe_downgrade
    (env : Env) (self : Membership) (u : User) (d : Database) (row : UserRow) :
  is_downgrade self u = Ok true ->
  users d !! pk u = Some row ->
  profile_resolves u d ->
  let '(r, s') := run_subscribe env self u d in
  r = Ok tt /\
  last_membership_downgrade_date (user s') = Some (today env) /\
  users (db s') !! pk u =
    Some {| row_current_membership_id := Some (uuid self);
            row_last_membership_downgrade_date := Some (today env) |} /\
  (profile_type u = "freelancer" ->
     packages (db s') = map (deactivate (pk u)) (packages d) /\
     forall p, p ∈ packages (db s') -> freelancer_id p = pk u ->
       package_is_active p = false) /\
  (profile_type u <> "freelancer" -> packages (db s') = packages d) /\
  remote_requests (trace s') = [] /\
  history (db s') =
    history d ++ [ {| membership_id := uuid self; user_id := pk u;
                      created_at := now env;
                      stripe_subscription_id := None; stripe_plan_id := None |} ].
Proof.
  intros Hdown Hrow Hres. run. rewrite Hdown. simpl.
  destruct (String.eqb_spec (profile_type u) "freelancer") as [Hfree | Hfree]; simpl.
  - rewrite Hfree. simpl.
    change (PROFILE_TYPES_MAP "freelancer") with "auth.FreelancerProfile".
    destruct (find_profile u d Hfree Hres) as (p & -> & Hptr). simpl.
    rewrite Hrow. simpl. rewrite lookup_insert_eq, Hptr.
    repeat split; auto.
    + intros q Hq. apply (deactivate_all _ _ _ Hq).
    + intros Hne. contradiction.
  - rewrite Hrow. simpl. rewrite lookup_insert_eq.
    repeat split; auto; intros; contradiction.
Qed.

Lemma subscribe_downgrade_witness :
  let '(r, s') := run_subscribe (example_env example_gateway) basic_tier
                    (freelancer_on pro_tier) (example_db pro_tier) in
  r = Ok tt /\
  last_membership_downgrade_date (user s') = Some (mkdate 2024 3 15) /\
  users (db s') !! 7 =
    Some {| row_current_membership_id := Some "t-basic";
            row_last_membership_downgrade_date := Some (mkdate 2024 3 15) |} /\
  ("freelancer" = "freelancer" ->
     packages (db s') = map (deactivate 7) (packages (example_db pro_tier)) /\
     forall p, p ∈ packages (db s') -> freelancer_id p = 7 ->
       package_is_active p = false) /\
  ("freelancer" <> "freelancer" -> packages (db s') = packages (example_db pro_tier)) /\
  remote_requests (trace s') = [] /\
  history (db s') =
    history (example_db pro_tier) ++
    [ {| membership_id := "t-basic"; user_id := 7; created_at := 1000;
         stripe_subscription_id := None; stripe_plan_id := None |} ].
Proof.
  apply (subscribe_downgrade (example_env example_gateway) basic_tier
           (freelancer_on pro_tier) (example_db pro_tier)
           (example_row (Some "t-pro"))).
  - reflexivity.
  - vm_compute. reflexivity.
  - intros _. eexists. split; [apply list_elem_of_here |]. split; reflexivity.
Defined.

Example downgrade_deactivates_packages :
  packages (db (run_subscribe (example_env example_gateway) basic_tier
                  (freelancer_on pro_tier) (example_db pro_tier)).2) =
  [ example_package 1 7 false; example_package 2 8 true; example_package 3 7 false ].
Proof. vm_compute. reflexivity. Qed.

(** A freelancer without a profile row: the downgrade stops on the
    attribute error and nothing is written. *)
Example downgrade_without_profile :
  let '(r, s') := run_subscribe (example_env example_gateway) basic_tier
                    (freelancer_on pro_tier) (without_profiles (example_db pro_tier)) in
  r = Raise AttributeError /\
  history (db s') = history (example_db pro_tier) /\
  trace s' = [TransactionBegin; TransactionRollback].
Proof. vm_compute. repeat split; reflexivity. Qed.

Lemma plan_named_find (self : Membership) (plans : list Plan) :
  find (fun plan => bool_decide (plan_name plan ∈ [stripe_monthly_product_name self]))
       plans = plan_named self plans.
Proof.
  unfold plan_named. induction plans as [| plan plans IH]; simpl; [reflexivity |].
  rewrite IH.
  rewrite (bool_decide_ext _ (plan_name plan = stripe_monthly_product_name self))
    by apply list_elem_of_singleton.
  reflexivity.
Qed.

(** C5. On the path that is neither a downgrade nor an initial
    assignment, a failed gateway call (the plan listing, or the creation of
    the subscription for the plan found) makes [subscribe] raise the
    gateway's error; the database is as before, so no ledger entry was
    added, and the user's current membership is unchanged. *)
Theorem subscribe_gateway_failure
    (env : Env) (self : Membership) (u : User) (d : Database) (message : string) :
  is_downgrade self u = Ok false ->
  is_initial self = false ->
  (plan_list_reply (gateway env) = inl message \/
   exists plans plan,
     plan_list_reply (gateway env) = inr plans /\
     plan_named self plans = Some plan /\
     forall md, subscription_create_reply (gateway env)
                  {| customer := stripe_customer_token u;
                     items := [plan_id plan]; metadata := md |} = inl message) ->
  let '(r, s') := run_subscribe env self u d in
  r = Raise (StripeError message) /\
  db s' = d /\
  user s' = u /\
  current_membership (user s') = current_membership u /\
  history (db s') = history d.
Proof.
  intros Hdown Hinit Hfail. run. rewrite Hdown, Hinit. simpl.
  destruct Hfail as [Hlist | (plans & plan & Hlist & Hplan & Hcreate)].
  - rewrite Hlist. simpl. auto.
  - rewrite Hlist. simpl. rewrite plan_named_find, Hplan. simpl.
    rewrite Hcreate. simpl. auto.
Qed.

Lemma subscribe_gateway_failure_witness :
  let '(r, s') := run_subscribe (example_env declining_gateway) pro_tier
                    (freelancer_on free_tier) (example_db free_tier) in
  r = Raise (StripeError "card_declined") /\
  db s' = example_db free_tier /\
  user s' = freelancer_on free_tier /\
  current_membership (user s') = current_membership (freelancer_on free_tier) /\
  history (db s') = history (example_db free_tier).
Proof.
  apply (subscribe_gateway_failure (example_env declining_gateway) pro_tier
           (freelancer_on free_tier) (example_db free_tier) "card_declined").
  - reflexivity.
  - reflexivity.
  - right. exists example_plans. eexists. split; [reflexivity |].
    split; [reflexivity |]. intros md. reflexivity.
Defined.

Lemma rows_of_snoc (id : Z) (h : list MembershipHistory) (row : MembershipHistory) :
  user_id row = id -> rows_of id (h ++ [row]) = rows_of id h ++ [row].
Proof.
  intros Hrow. unfold rows_of. rewrite filter_app. f_equal.
  rewrite filter_cons_True by exact Hrow. reflexivity.
Qed.

(** C6. A successful [subscribe] appends exactly one ledger row, for the
    user and the tier of the call, stamped with the clock reading of the
    call; afterwards the user's current membership is the tier, in memory
    and in the user's row, and the ledger entry of the user that was
    inserted last names the same tier.  The stamp is not compared with
    the prior rows of the user. *)
Theorem subscribe_success_ledger
    (env : Env) (self : Membership) (u : User) (d : Database) (s' : State) :
  run_subscribe env self u d = (Ok tt, s') ->
  exists row,
    history (db s') = history d ++ [row] /\
    user_id row = pk u /\
    membership_id row = uuid self /\
    created_at row = now env /\
    current_membership (user s') = Some self /\
    (exists urow, users (db s') !! pk u = Some urow /\
       row_current_membership_id urow = Some (uuid self)) /\
    last (rows_of (pk u) (history (db s'))) = Some row /\
    (membership_id <$> last (rows_of (pk u) (history (db s')))) =
      (uuid <$> current_membership (user s')).
Proof.
  intros Hrun. revert Hrun. run.
  repeat branch; intros Hrun; try discriminate;
    injection Hrun as <-; simpl;
    (eexists; split; [reflexivity |]); simpl;
    rewrite ?rows_of_snoc, ?last_snoc by reflexivity;
    repeat split; auto;
    eexists; (split; [apply lookup_insert_eq |]); reflexivity.
Qed.

Lemma subscribe_success_ledger_witness :
  exists row,
    history (db (run_subscribe (example_env example_gateway) pro_tier
                   (freelancer_on free_tier) (example_db free_tier)).2) =
      history (example_db free_tier) ++ [row] /\
    user_id row = 7 /\
    membership_id row = "t-pro" /\
    created_at row = 1000 /\
    current_membership
      (user (run_subscribe (example_env example_gateway) pro_tier
               (freelancer_on free_tier) (example_db free_tier)).2) = Some pro_tier /\
    (exists urow,
       users (db (run_subscribe (example_env example_gateway) pro_tier
                    (freelancer_on free_tier) (example_db free_tier)).2) !! 7 =
         Some urow /\
       row_current_membership_id urow = Some "t-pro") /\
    last (rows_of 7
            (history (db (run_subscribe (example_env example_gateway) pro_tier
                            (freelancer_on free_tier) (example_db free_tier)).2))) =
      Some row /\
    (membership_id <$>
       last (rows_of 7
               (history (db (run_subscribe (example_env example_gateway) pro_tier
                               (freelancer_on free_tier) (example_db free_tier)).2)))) =
      (uuid <$>
         current_membership
           (user (run_subscribe (example_env example_gateway) pro_tier
                    (freelancer_on free_tier) (example_db free_tier)).2)).
Proof.
  apply (subscribe_success_ledger (example_env example_gateway) pro_tier
           (freelancer_on free_tier) (example_db free_tier)).
  vm_compute. reflexivity.
Defined.

(** The stamps of a user's rows need not increase: [created_at] is what
    the clock reads when the row is inserted.  With a prior row stamped at
    2000 and the clock of the call at 1000, the call succeeds and the new
    row is stamped before the prior one. *)
Lemma subscribe_created_at_not_monotone :
  let '(r, s') := run_subscribe (example_env example_gateway) pro_tier
                    (freelancer_on free_tier) (example_db_stamped_ahead free_tier) in
  r = Ok tt /\
  created_at <$> rows_of 7 (history (example_db_stamped_ahead free_tier)) = [2000] /\
  created_at <$> rows_of 7 (history (db s')) = [2000; 1000].
Proof. vm_compute. repeat split; reflexivity. Qed.

(** The first assignment of the initial tier at signup also leaves one
    row, with no remote ids. *)
Example signup_ledger :
  history (db (run_subscribe (example_env example_gateway) free_tier
                 (member 7 "freelancer" None None) signup_db).2) =
  [ example_history "t-free" 1000 ].
Proof. vm_compute. reflexivity. Qed.

(** ** The order of remote calls and writes *)

(** An upgrade from the free tier to the paid one: the transaction opens,
    the plans are listed, the subscription is created, then the user and
    the ledger are written, then the transaction commits. *)
Example upgrade_trace :
  trace (run_subscribe (example_env example_gateway) pro_tier
           (freelancer_on free_tier) (example_db free_tier)).2 =
  [ TransactionBegin;
    Remote PlanList;
    Remote (SubscriptionCreate
              {| customer := Some "cus_7"; items := ["plan_pro"]; metadata := None |});
    Persist (UpdateUser 7 ["current_membership"]);
    Persist (InsertHistory
             {| membership_id := "t-pro"; user_id := 7; created_at := 1000;
                stripe_subscription_id := Some "sub_1";
                stripe_plan_id := Some "plan_pro" |});
    TransactionCommit ].
Proof. vm_compute. reflexivity. Qed.

(** C7, as stated, fails: on an upgrade two requests go to the gateway,
    and both are sent while the transaction of [subscribe] is open. *)
Lemma subscribe_two_calls_inside_transaction :
  length (remote_requests
            (trace (run_subscribe (example_env example_gateway) pro_tier
                      (freelancer_on free_tier) (example_db free_tier)).2)) = 2%nat /\
  remote_inside_transaction false
    (trace (run_subscribe (example_env example_gateway) pro_tier
              (freelancer_on free_tier) (example_db free_tier)).2) = true /\
  ~ one_call_outside_transaction
      (trace (run_subscribe (example_env example_gateway) pro_tier
                (freelancer_on free_tier) (example_db free_tier)).2).
Proof.
  rewrite upgrade_trace. split; [reflexivity |]. split; [reflexivity |].
  intros [Hone _]. simpl in Hone. lia.
Qed.

(** C7, amended. Every invocation of [subscribe] runs inside one
    transaction, opened before anything else and ended by a commit when
    the call returns and by a rollback when it raises.  Inside it, the
    requests to the gateway come first and the writes to the database
    after them.  There are at most two requests: a plan listing, then at
    most one subscription creation. *)
Theorem subscribe_trace_shape
    (env : Env) (self : Membership) (u : User) (d : Database) :
  let '(r, s') := run_subscribe env self u d in
  trace s' =
    TransactionBegin ::
    map Remote (remote_requests (trace s')) ++
    map Persist (db_writes (trace s')) ++
    [match r with Ok _ => TransactionCommit | Raise _ => TransactionRollback end] /\
  (remote_requests (trace s') = [] \/
   remote_requests (trace s') = [PlanList] \/
   exists params, remote_requests (trace s') = [PlanList; SubscriptionCreate params]).
Proof.
  run. repeat branch; (split; [reflexivity |]); simpl; eauto.
Qed.

(** ** The subscription request *)

(** [stripe_subscribe] takes a [metadata] argument and does not use it. *)
Lemma stripe_subscribe_ignores_metadata
    (u : User) (stripe_plan_id : string) (metadata : option (list (string * string))) :
  stripe_subscribe u stripe_plan_id metadata = stripe_subscribe u stripe_plan_id None.
Proof. reflexivity. Qed.

(** No subscription request of [subscribe] carries metadata. *)
Lemma subscription_request_has_no_metadata
    (env : Env) (self : Membership) (u : User) (d : Database)
    (params : SubscriptionParams) :
  Remote (SubscriptionCreate params) ∈ trace (run_subscribe env self u d).2 ->
  metadata params = None.
Proof.
  run. repeat branch; intros Hin; apply list_elem_of_In in Hin; simpl in Hin;
    repeat (destruct Hin as [Hin | Hin]; try discriminate);
    try contradiction; injection Hin as <-; reflexivity.
Qed.

(** The path that is neither a downgrade nor an initial assignment, when
    the gateway answers: the plan is the one listed under the tier's
    monthly product name, the subscription is created for the user's
    billing token against it, and the ledger entry records both ids. *)
Lemma subscribe_upgrade
    (env : Env) (self : Membership) (u : User) (d : Database) (row : UserRow)
    (plans : list Plan) (plan : Plan) (subscription : Subscription) :
  is_downgrade self u = Ok false ->
  is_initial self = false ->
  users d !! pk u = Some row ->
  plan_list_reply (gateway env) = inr plans ->
  plan_named self plans = Some plan ->
  subscription_create_reply (gateway env)
    {| customer := stripe_customer_token u; items := [plan_id plan];
       metadata := None |} = inr subscription ->
  let '(r, s') := run_subscribe env self u d in
  r = Ok tt /\
  remote_requests (trace s') =
    [ PlanList;
      SubscriptionCreate {| customer := stripe_customer_token u;
                            items := [plan_id plan]; metadata := None |} ] /\
  history (db s') =
    history d ++ [ {| membership_id := uuid self; user_id := pk u;
                      created_at := now env;
                      stripe_subscription_id := Some (subscription_id subscription);
                      stripe_plan_id := Some (plan_id plan) |} ].
Proof.
  intros Hdown Hinit Hrow Hlist Hplan Hcreate. run.
  rewrite Hdown, Hinit. simpl. rewrite Hlist. simpl.
  rewrite plan_named_find, Hplan. simpl. rewrite Hcreate. simpl.
  rewrite Hrow. simpl. auto.
Qed.

(** When no listed plan has the tier's product name, [subscribe] stops on
    a type error after the listing: no plan and no subscription is
    created, and nothing is written. *)
Lemma subscribe_plan_not_found
    (env : Env) (self : Membership) (u : User) (d : Database) (plans : list Plan) :
  is_downgrade self u = Ok false ->
  is_initial self = false ->
  plan_list_reply (gateway env) = inr plans ->
  plan_named self plans = None ->
  let '(r, s') := run_subscribe env self u d in
  r = Raise TypeError /\ remote_requests (trace s') = [PlanList] /\ db s' = d.
Proof.
  intros Hdown Hinit Hlist Hplan. run.
  rewrite Hdown, Hinit. simpl. rewrite Hlist. simpl.
  rewrite plan_named_find, Hplan. simpl. auto.
Qed.

(** C3. On an upgrade to a paid tier, [subscribe] hands the metadata
    [object_type = membership, uuid = tier id] to [stripe_subscribe], but
    the request that reaches the gateway carries no metadata: the remote
    subscription is created for the user's billing token against the plan
    found by name, it is recorded in the ledger, and it is not tagged. *)
Theorem subscribe_request_without_metadata :
  let '(r, s') := run_subscribe (example_env example_gateway) pro_tier
                    (freelancer_on free_tier) (example_db free_tier) in
  r = Ok tt /\
  remote_requests (trace s') =
    [ PlanList;
      SubscriptionCreate
        {| customer := Some "cus_7"; items := ["plan_pro"]; metadata := None |} ] /\
  last (history (db s')) =
    Some {| membership_id := "t-pro"; user_id := 7; created_at := 1000;
            stripe_subscription_id := Some "sub_1";
            stripe_plan_id := Some "plan_pro" |}.
Proof. vm_compute. repeat split; reflexivity. Qed.

(** A downgrade sends nothing to the gateway and stamps the user object
    with today's date, also when the call then fails. *)
Lemma subscribe_downgrade_no_remote_call
    (env : Env) (self : Membership) (u : User) (d : Database) :
  is_downgrade self u = Ok true ->
  let '(r, s') := run_subscribe env self u d in
  remote_requests (trace s') = [] /\
  last_membership_downgrade_date (user s') = Some (today env).
Proof.
  intros Hdown. run. rewrite Hdown. simpl. repeat branch; auto.
Qed.

(** The first assignment of the initial tier: nothing is sent and the
    ledger entry has no remote ids. *)
Lemma subscribe_initial_assignment
    (env : Env) (self : Membership) (u : User) (d : Database) (row : UserRow) :
  is_initial self = true ->
  is_downgrade self u = Ok false ->
  users d !! pk u = Some row ->
  let '(r, s') := run_subscribe env self u d in
  r = Ok tt /\
  remote_requests (trace s') = [] /\
  history (db s') =
    history d ++ [ {| membership_id := uuid self; user_id := pk u;
                      created_at := now env;
                      stripe_subscription_id := None; stripe_plan_id := None |} ].
Proof.
  intros Hinit Hdown Hrow. run. rewrite Hdown, Hinit. simpl.
  rewrite Hrow. simpl. auto.
Qed.

(** The transaction is atomic: a call that raises leaves the database as
    it found it. *)
Lemma subscribe_raise_rolls_back
    (env : Env) (self : Membership) (u : User) (d : Database)
    (e : Exception) (s' : State) :
  run_subscribe env self u d = (Raise e, s') -> db s' = d.
Proof.
  run. repeat branch; intros Hrun; try discriminate;
    injection Hrun as <- <-; reflexivity.
Qed.

(** [subscribe] is not idempotent: a second call with the same tier adds
    a second ledger row and asks for a second remote subscription. *)
Example subscribe_twice :
  let env := example_env example_gateway in
  let s1 := (run_subscribe env pro_tier (freelancer_on free_tier)
               (example_db free_tier)).2 in
  let s2 := (run_subscribe env pro_tier (user s1) (db s1)).2 in
  membership_id <$> history (db s2) = ["t-free"; "t-pro"; "t-pro"] /\
  length (remote_requests (trace s1) ++ remote_requests (trace s2)) = 4%nat.
Proof. vm_compute. split; reflexivity. Qed.

(** * Further properties of the membership code *)

(** ** [get_stripe_plan] *)

Lemma plan_named_first (self : Membership) (plans : list Plan) :
  match plan_named self plans with
  | Some plan =>
      exists before after,
        plans = before ++ plan :: after /\
        plan_name plan = stripe_monthly_product_name self /\
        forall q, q ∈ before -> plan_name q <> stripe_monthly_product_name self
  | None =>
      forall q, q ∈ plans -> plan_name q <> stripe_monthly_product_name self
  end.
Proof.
  unfold plan_named. induction plans as [| p plans IH]; simpl.
  - intros q Hq. apply elem_of_nil in Hq. contradiction.
  - destruct (bool_decide_reflect (plan_name p = stripe_monthly_product_name self))
      as [Hp | Hp].
    + exists [], plans. split; [reflexivity |]. split; [exact Hp |].
      intros q Hq. apply elem_of_nil in Hq. contradiction.
    + destruct (find _ plans) as [plan |].
      * destruct IH as (before & after & -> & Hname & Hbefore).
        exists (p :: before), after. split; [reflexivity |]. split; [exact Hname |].
        intros q Hq. apply elem_of_cons in Hq. destruct Hq as [-> | Hq]; auto.
      * intros q Hq. apply elem_of_cons in Hq. destruct Hq as [-> | Hq]; auto.
Qed.

(** X1. For a tier that is not initial, when the gateway lists its plans,
    [get_stripe_plan] sends the one listing request, writes nothing, and
    returns the first listed plan whose name is the tier's monthly product
    name: the plans listed before it have other names, and it returns
    nothing only when no listed plan has that name. *)
Theorem get_stripe_plan_first_match
    (env : Env) (self : Membership) (s : State) (plans : list Plan) :
  is_initial self = false ->
  plan_list_reply (gateway env) = inr plans ->
  exists found,
    get_stripe_plan self env s = (Ok found, log (Remote PlanList) s) /\
    match found with
    | Some plan =>
        exists before after,
          plans = before ++ plan :: after /\
          plan_name plan = stripe_monthly_product_name self /\
          forall q, q ∈ before -> plan_name q <> stripe_monthly_product_name self
    | None =>
        forall q, q ∈ plans -> plan_name q <> stripe_monthly_product_name self
    end.
Proof.
  intros Hinit Hlist. exists (plan_named self plans). split.
  - run. rewrite Hinit. simpl. rewrite Hlist. simpl.
    rewrite plan_named_find. reflexivity.
  - apply plan_named_first.
Qed.

Lemma get_stripe_plan_first_match_witness :
  exists found,
    get_stripe_plan pro_tier (example_env example_gateway)
      {| user := freelancer_on free_tier; db := example_db free_tier; trace := [] |} =
      (Ok found,
       log (Remote PlanList)
         {| user := freelancer_on free_tier; db := example_db free_tier; trace := [] |}) /\
    match found with
    | Some plan =>
        exists before after,
          example_plans = before ++ plan :: after /\
          plan_name plan = stripe_monthly_product_name pro_tier /\
          forall q, q ∈ before -> plan_name q <> stripe_monthly_product_name pro_tier
    | None =>
        forall q, q ∈ example_plans -> plan_name q <> stripe_monthly_product_name pro_tier
    end.
Proof.
  apply (get_stripe_plan_first_match (example_env example_gateway) pro_tier
           {| user := freelancer_on free_tier; db := example_db free_tier; trace := [] |}
           example_plans); reflexivity.
Defined.

(** A tier without a monthly product name takes the first plan without a
    name. *)
Example nameless_tier_takes_nameless_plan :
  plan_named (tier "t" "T" (Some (cents 900)) None None false)
    [ {| plan_id := "plan_a"; plan_name := Some "a" |};
      {| plan_id := "plan_b"; plan_name := None |} ] =
  Some {| plan_id := "plan_b"; plan_name := None |}.
Proof. reflexivity. Qed.

(** ** What [subscribe] keeps and what it leaves alone *)

(** X2. The transaction does not cover the gateway.  When a paid tier
    is subscribed for a user whose row is gone (deleted since the object
    was loaded), the plans are listed and the subscription is created
    before the save fails: [subscribe] raises the database error and the
    database is as before, but the request for the subscription stays
    sent, and the object in memory already points to the tier. *)
Theorem subscribe_failed_save_keeps_subscription
    (env : Env) (self : Membership) (u : User) (d : Database)
    (plans : list Plan) (plan : Plan) (subscription : Subscription) :
  is_downgrade self u = Ok false ->
  is_initial self = false ->
  users d !! pk u = None ->
  plan_list_reply (gateway env) = inr plans ->
  plan_named self plans = Some plan ->
  subscription_create_reply (gateway env)
    {| customer := stripe_customer_token u; items := [plan_id plan];
       metadata := None |} = inr subscription ->
  let '(r, s') := run_subscribe env self u d in
  r = Raise DatabaseError /\
  db s' = d /\
  trace s' =
    [ TransactionBegin;
      Remote PlanList;
      Remote (SubscriptionCreate
                {| customer := stripe_customer_token u; items := [plan_id plan];
                   metadata := None |});
      TransactionRollback ] /\
  current_membership (user s') = Some self.
Proof.
  intros Hdown Hinit Hrow Hlist Hplan Hcreate. run.
  rewrite Hdown, Hinit. simpl. rewrite Hlist. simpl.
  rewrite plan_named_find, Hplan. simpl. rewrite Hcreate. simpl.
  rewrite Hrow. simpl. auto.
Qed.

(** A client whose row is not in the table subscribes to the paid tier. *)
Lemma subscribe_failed_save_keeps_subscription_witness :
  let '(r, s') := run_subscribe (example_env example_gateway) pro_tier
                    (member 9 "client" (Some free_tier) None) signup_db in
  r = Raise DatabaseError /\
  db s' = signup_db /\
  trace s' =
    [ TransactionBegin;
      Remote PlanList;
      Remote (SubscriptionCreate
                {| customer := Some "cus_7"; items := ["plan_pro"];
                   metadata := None |});
      TransactionRollback ] /\
  current_membership (user s') = Some pro_tier.
Proof.
  apply (subscribe_failed_save_keeps_subscription (example_env example_gateway)
           pro_tier (member 9 "client" (Some free_tier) None) signup_db
           example_plans
           {| plan_id := "plan_pro"; plan_name := Some "pro-monthly" |}
           {| subscription_id := "sub_1" |});
    reflexivity.
Defined.

(** X3. Whatever the outcome, [subscribe] only appends to the ledger, at
    most one row; it leaves the profile tables and the rows of all other
    users as they are; the packages are either untouched or those of the
    user deactivated; and the object keeps its key, its profile type and
    its billing token. *)
Theorem subscribe_frame
    (env : Env) (self : Membership) (u : User) (d : Database) :
  let s' := (run_subscribe env self u d).2 in
  (exists added, history (db s') = history d ++ added /\ (length added <= 1)%nat) /\
  profiles (db s') = profiles d /\
  (forall k, k <> pk u -> users (db s') !! k = users d !! k) /\
  (packages (db s') = packages d \/
   packages (db s') = map (deactivate (pk u)) (packages d)) /\
  pk (user s') = pk u /\
  profile_type (user s') = profile_type u /\
  stripe_customer_token (user s') = stripe_customer_token u.
Proof.
  cbv zeta. run.
  repeat branch;
    (split; [first [ exists []; rewrite app_nil_r; split; [reflexivity | simpl; lia]
                   | eexists [_]; split; [reflexivity | simpl; lia] ] |]);
    (split; [reflexivity |]);
    (split; [intros k Hk; simpl; rewrite ?lookup_insert_ne by congruence; reflexivity |]);
    (split; [| repeat split; reflexivity]);
    auto.
  all: right; simpl;
    match goal with
    | H : find _ _ = Some _ |- _ =>
        apply find_some in H; destruct H as [_ H];
        apply andb_true_iff in H; destruct H as [_ H];
        apply Z.eqb_eq in H; rewrite H; reflexivity
    end.
Qed.

(** ** The paths of [subscribe] through the gateway *)

(** X4. A paid tier without a plan at the gateway cannot be subscribed.
    When the call is not a downgrade, the tier is not initial and no
    listed plan has its monthly product name, [subscribe] raises a type
    error right after the listing: no subscription is requested, nothing
    is written, and the user object is as before. *)
Theorem subscribe_without_plan
    (env : Env) (self : Membership) (u : User) (d : Database) (plans : list Plan) :
  is_downgrade self u = Ok false ->
  is_initial self = false ->
  plan_list_reply (gateway env) = inr plans ->
  (forall plan, plan ∈ plans -> plan_name plan <> stripe_monthly_product_name self) ->
  run_subscribe env self u d =
    (Raise TypeError,
     {| user := u; db := d;
        trace := [TransactionBegin; Remote PlanList; TransactionRollback] |}).
Proof.
  intros Hdown Hinit Hlist Hnone.
  assert (Hplan : plan_named self plans = None).
  { unfold plan_named. destruct (find _ plans) as [plan |] eqn:Hfind; [| reflexivity].
    apply find_some in Hfind. destruct Hfind as [Hin Hname].
    apply bool_decide_eq_true in Hname. apply list_elem_of_In in Hin.
    exfalso. exact (Hnone plan Hin Hname). }
  run. rewrite Hdown, Hinit. simpl. rewrite Hlist. simpl.
  rewrite plan_named_find, Hplan. simpl. destruct d. reflexivity.
Qed.

Lemma subscribe_without_plan_witness :
  run_subscribe (example_env other_plans_gateway) pro_tier
    (freelancer_on free_tier) (example_db free_tier) =
  (Raise TypeError,
   {| user := freelancer_on free_tier; db := example_db free_tier;
      trace := [TransactionBegin; Remote PlanList; TransactionRollback] |}).
Proof.
  apply (subscribe_without_plan (example_env other_plans_gateway) pro_tier
           (freelancer_on free_tier) (example_db free_tier)
           [ {| plan_id := "plan_old"; plan_name := Some "legacy" |} ]).
  - reflexivity.
  - reflexivity.
  - reflexivity.
  - intros plan Hplan. apply list_elem_of_singleton in Hplan. subst plan. discriminate.
Defined.

(** X5. A paid tier with a plan, when the gateway answers and the user
    has a row: [subscribe] returns; it has listed the plans, created one
    subscription for the user's billing token against the plan found,
    saved the user's current membership and nothing else of the row, and
    appended a ledger row holding the ids of the plan and of the
    subscription, in this order, inside one committed transaction. *)
Theorem subscribe_paid_tier
    (env : Env) (self : Membership) (u : User) (d : Database) (row : UserRow)
    (plans : list Plan) (plan : Plan) (subscription : Subscription) :
  is_downgrade self u = Ok false ->
  is_initial self = false ->
  users d !! pk u = Some row ->
  plan_list_reply (gateway env) = inr plans ->
  plan_named self plans = Some plan ->
  subscription_create_reply (gateway env)
    {| customer := stripe_customer_token u; items := [plan_id plan];
       metadata := None |} = inr subscription ->
  let entry :=
    {| membership_id := uuid self; user_id := pk u; created_at := now env;
       stripe_subscription_id := Some (subscription_id subscription);
       stripe_plan_id := Some (plan_id plan) |} in
  let '(r, s') := run_subscribe env self u d in
  r = Ok tt /\
  trace s' =
    [ TransactionBegin;
      Remote PlanList;
      Remote (SubscriptionCreate
                {| customer := stripe_customer_token u; items := [plan_id plan];
                   metadata := None |});
      Persist (UpdateUser (pk u) ["current_membership"]);
      Persist (InsertHistory entry);
      TransactionCommit ] /\
  history (db s') = history d ++ [entry] /\
  users (db s') !! pk u =
    Some {| row_current_membership_id := Some (uuid self);
            row_last_membership_downgrade_date :=
              row_last_membership_downgrade_date row |} /\
  current_membership (user s') = Some self.
Proof.
  intros Hdown Hinit Hrow Hlist Hplan Hcreate. cbv zeta. run.
  rewrite Hdown, Hinit. simpl. rewrite Hlist. simpl.
  rewrite plan_named_find, Hplan. simpl. rewrite Hcreate. simpl.
  rewrite Hrow. simpl. rewrite lookup_insert_eq. auto.
Qed.

Lemma subscribe_paid_tier_witness :
  let entry :=
    {| membership_id := "t-pro"; user_id := 7; created_at := 1000;
       stripe_subscription_id := Some "sub_1"; stripe_plan_id := Some "plan_pro" |} in
  let '(r, s') := run_subscribe (example_env example_gateway) pro_tier
                    (freelancer_on free_tier) (example_db free_tier) in
  r = Ok tt /\
  trace s' =
    [ TransactionBegin;
      Remote PlanList;
      Remote (SubscriptionCreate
                {| customer := Some "cus_7"; items := ["plan_pro"];
                   metadata := None |});
      Persist (UpdateUser 7 ["current_membership"]);
      Persist (InsertHistory entry);
      TransactionCommit ] /\
  history (db s') = history (example_db free_tier) ++ [entry] /\
  users (db s') !! 7 =
    Some {| row_current_membership_id := Some "t-pro";
            row_last_membership_downgrade_date := None |} /\
  current_membership (user s') = Some pro_tier.
Proof.
  apply (subscribe_paid_tier (example_env example_gateway) pro_tier
           (freelancer_on free_tier) (example_db free_tier)
           (example_row (Some "t-free")) example_plans
           {| plan_id := "plan_pro"; plan_name := Some "pro-monthly" |}
           {| subscription_id := "sub_1" |});
    reflexivity.
Defined.

(** ** Calling [subscribe] again *)

(** X6. [subscribe] is not idempotent.  After a successful call, the same
    call again is never a downgrade: either it is classified as not a
    downgrade, so that a paid tier goes through the gateway once more, or
    the tier is a paid one without a monthly price and the classification
    raises a type error. *)
Theorem subscribe_again_is_no_downgrade
    (env : Env) (self : Membership) (u : User) (d : Database) (s' : State) :
  run_subscribe env self u d = (Ok tt, s') ->
  is_downgrade self (user s') = Ok false \/
  (is_initial self = false /\ price_month self = None /\
   is_downgrade self (user s') = Raise TypeError).
Proof.
  intros Hrun.
  assert (Hcur : current_membership (user s') = Some self).
  { revert Hrun. run. repeat branch; intros Hrun; try discriminate;
      injection Hrun as <-; reflexivity. }
  unfold is_downgrade. rewrite Hcur.
  destruct (is_initial self); [left; reflexivity |].
  destruct (price_month self) as [p |]; simpl.
  - left. f_equal. apply DecimalFacts.ltb_irrefl_eq. reflexivity.
  - right. auto.
Qed.

Lemma subscribe_again_is_no_downgrade_witness :
  is_downgrade pro_tier
    (user (run_subscribe (example_env example_gateway) pro_tier
             (freelancer_on free_tier) (example_db free_tier)).2) = Ok false \/
  (is_initial pro_tier = false /\ price_month pro_tier = None /\
   is_downgrade pro_tier
     (user (run_subscribe (example_env example_gateway) pro_tier
              (freelancer_on free_tier) (example_db free_tier)).2) = Raise TypeError).
Proof.
  apply (subscribe_again_is_no_downgrade (example_env example_gateway) pro_tier
           (freelancer_on free_tier) (example_db free_tier)).
  vm_compute. reflexivity.
Defined.

(** ** [subscribe] and the downgrade throttle *)

(** X7. A downgrade engages the throttle: once [subscribe] has classified
    the call as a downgrade, [can_downgrade_membership] is false on the
    user object for every day of the current month, whether the call then
    succeeds or fails. *)
Theorem downgrade_engages_throttle
    (env : Env) (self : Membership) (u : User) (d : Database) (day' : date) :
  is_downgrade self u = Ok true ->
  year day' = year (today env) ->
  month day' = month (today env) ->
  can_downgrade_membership (user (run_subscribe env self u d).2) day' = false.
Proof.
  intros Hdown Hyear Hmonth.
  assert (Hdate : last_membership_downgrade_date (user (run_subscribe env self u d).2)
                  = Some (today env)).
  { run. rewrite Hdown. simpl. repeat branch; reflexivity. }
  unfold can_downgrade_membership. rewrite Hdate, Hyear, Hmonth, !Z.eqb_refl.
  reflexivity.
Qed.

Lemma downgrade_engages_throttle_witness :
  can_downgrade_membership
    (user (run_subscribe (example_env example_gateway) basic_tier
             (freelancer_on pro_tier) (example_db pro_tier)).2)
    (mkdate 2024 3 31) = false.
Proof.
  apply (downgrade_engages_throttle (example_env example_gateway) basic_tier
           (freelancer_on pro_tier) (example_db pro_tier) (mkdate 2024 3 31));
    reflexivity.
Defined.

(** X8. The throttle is advisory: [subscribe] never reads the date of the
    last downgrade.  Whatever that date is on the user object, the call
    ends the same way, with the same database, the same requests and the
    same writes. *)
Theorem subscribe_ignores_throttle
    (env : Env) (self : Membership) (u : User) (d : Database) (last : option date) :
  let '(r1, s1) := run_subscribe env self u d in
  let '(r2, s2) := run_subscribe env self (set_last_membership_downgrade_date last u) d in
  r1 = r2 /\ db s1 = db s2 /\ trace s1 = trace s2.
Proof.
  run.
  change (is_downgrade self (set_last_membership_downgrade_date last u))
    with (is_downgrade self u).
  repeat branch; repeat split; reflexivity.
Qed.

(** A second downgrade in the month of the first goes through. *)
Example second_downgrade_same_month :
  let env := example_env example_gateway in
  let s1 := (run_subscribe env basic_tier (freelancer_on pro_tier)
               (example_db pro_tier)).2 in
  can_downgrade_membership (user s1) (today env) = false /\
  (run_subscribe env free_tier (user s1) (db s1)).1 = Ok tt.
Proof. vm_compute. split; reflexivity. Qed.

(** X9. A call that is not a downgrade touches neither the packages nor
    the date of the last downgrade, in the object and in the user's row,
    whether it succeeds or fails. *)
Theorem upgrade_leaves_downgrade_state
    (env : Env) (self : Membership) (u : User) (d : Database) :
  is_downgrade self u = Ok false ->
  let s' := (run_subscribe env self u d).2 in
  packages (db s') = packages d /\
  last_membership_downgrade_date (user s') = last_membership_downgrade_date u /\
  (row_last_membership_downgrade_date <$> users (db s') !! pk u) =
    (row_last_membership_downgrade_date <$> users d !! pk u).
Proof.
  intros Hdown. cbv zeta. run. rewrite Hdown. simpl.
  repeat branch; repeat split; try reflexivity.
  all: simpl; rewrite ?lookup_insert_eq;
    try match goal with H : users _ !! _ = _ |- _ => rewrite H end;
    reflexivity.
Qed.

Lemma upgrade_leaves_downgrade_state_witness :
  let s' := (run_subscribe (example_env example_gateway) pro_tier
               (freelancer_on basic_tier) (example_db basic_tier)).2 in
  packages (db s') = packages (example_db basic_tier) /\
  last_membership_downgrade_date (user s') =
    last_membership_downgrade_date (freelancer_on basic_tier) /\
  (row_last_membership_downgrade_date <$> users (db s') !! 7) =
    (row_last_membership_downgrade_date <$> users (example_db basic_tier) !! 7).
Proof.
  apply (upgrade_leaves_downgrade_state (example_env example_gateway) pro_tier
           (freelancer_on basic_tier) (example_db basic_tier)).
  reflexivity.
Defined.

(** ** The order of the tiers under [is_downgrade] *)

Lemma ltb_asym (a b : Decimal) : Decimal.ltb a b = true -> Decimal.ltb b a = false.
Proof.
  intros Hab. destruct (Decimal.ltb b a) eqn:Hba; [| reflexivity].
  apply DecimalFacts.ltb_lt in Hab, Hba. exfalso.
  exact (Qlt_irrefl _ (Qlt_trans _ _ _ Hab Hba)).
Qed.

Lemma ltb_trans (a b c : Decimal) :
  Decimal.ltb a b = true -> Decimal.ltb b c = true -> Decimal.ltb a c = true.
Proof.
  rewrite !DecimalFacts.ltb_lt. apply Qlt_trans.
Qed.

(** X10. Downgrades order the tiers strictly.  Staying on one's tier is
    not a downgrade; when moving from tier [a] to tier [b] is a downgrade,
    moving back from [b] to [a] is not; and a downgrade from [a] to [b]
    followed by a downgrade from [b] to [c] is a downgrade from [a] to
    [c]. *)
Theorem is_downgrade_strict_order :
  (forall (a : Membership) (u : User),
     current_membership u = Some a -> is_downgrade a u <> Ok true) /\
  (forall (a b : Membership) (ua ub : User),
     current_membership ua = Some a -> current_membership ub = Some b ->
     is_downgrade b ua = Ok true -> is_downgrade a ub = Ok false) /\
  (forall (a b c : Membership) (ua ub : User),
     current_membership ua = Some a -> current_membership ub = Some b ->
     is_downgrade b ua = Ok true -> is_downgrade c ub = Ok true ->
     is_downgrade c ua = Ok true).
Proof.
  unfold is_downgrade, decimal_lt. split; [| split].
  - intros a u ->. destruct (is_initial a); [discriminate |].
    destruct (price_month a) as [p |]; [| discriminate].
    rewrite (DecimalFacts.ltb_irrefl_eq p p) by reflexivity. discriminate.
  - intros a b ua ub -> ->.
    destruct (is_initial a); [discriminate |].
    destruct (is_initial b); [reflexivity |].
    destruct (price_month b) as [q |], (price_month a) as [p |]; try discriminate.
    intros H. injection H as H. rewrite (ltb_asym _ _ H). reflexivity.
  - intros a b c ua ub -> ->.
    destruct (is_initial a); [discriminate |].
    destruct (is_initial b); [discriminate |].
    destruct (is_initial c); [reflexivity |].
    destruct (price_month b) as [q |], (price_month a) as [p |]; try discriminate.
    destruct (price_month c) as [r |]; [| discriminate].
    intros Hba Hcb. injection Hba as Hba. injection Hcb as Hcb.
    rewrite (ltb_trans _ _ _ Hcb Hba). reflexivity.
Qed.

(** ** The total price of a posting *)

Lemma Qabs_sum4 (a b c e x y z w eps : Q) :
  (Qabs (a - x) <= eps)%Q -> (Qabs (b - y) <= eps)%Q ->
  (Qabs (c - z) <= eps)%Q -> (Qabs (e - w) <= eps)%Q ->
  (Qabs (a + b + c + e - (x + y + z + w)) <= (4 # 1) * eps)%Q.
Proof.
  intros H1 H2 H3 H4.
  apply Qabs_Qle_condition in H1, H2, H3, H4.
  apply Qabs_Qle_condition.
  destruct H1, H2, H3, H4. split; lra.
Qed.

Lemma to_Q_cents_sum (c1 c2 c3 c4 : Z) :
  (Decimal.to_Q (cents (c1 + c2 + c3 + c4)) ==
   Decimal.to_Q (cents c1) + Decimal.to_Q (cents c2) +
   Decimal.to_Q (cents c3) + Decimal.to_Q (cents c4))%Q.
Proof.
  unfold Decimal.to_Q, cents. cbn [Decimal.coefficient Decimal.exponent].
  rewrite !inject_Z_plus. ring.
Qed.

(** X11. For amounts within range, [get_project_posting_price] returns
    the sum of the four rounded components, written with two decimal
    places, and it is within two cents of the unrounded total. *)
Theorem get_project_posting_price_total
    (fee : PaymentFee) (self : Membership) (has_concierge add_fee : bool) :
  amounts_in_range fee self ->
  exists r total,
    get_project_price_detailed fee self has_concierge add_fee = Decimal.Value r /\
    get_project_posting_price fee self has_concierge add_fee = Decimal.Value total /\
    Decimal.exponent total = -2 /\
    total = cents (Decimal.coefficient (detail_project_price r)
                   + Decimal.coefficient (detail_concierge_price r)
                   + Decimal.coefficient (detail_vat_price r)
                   + Decimal.coefficient (detail_stripe_fee r)) /\
    (Qabs (Decimal.to_Q total - exact_total fee self has_concierge add_fee) <= 1 # 50)%Q.
Proof.
  intros Hrange.
  destruct (price_detail_rounded fee self has_concierge add_fee Hrange)
    as (r & Hr & ([E1 B1] & [E2 B2] & [E3 B3] & [E4 B4]) & Hcents).
  destruct r as [[c1 e1] [c2 e2] [c3 e3] [c4 e4]].
  cbn [detail_project_price detail_concierge_price detail_vat_price
       detail_stripe_fee Decimal.exponent Decimal.coefficient] in *.
  subst e1 e2 e3 e4.
  unfold price_values in Hcents.
  cbn [detail_project_price detail_concierge_price detail_vat_price
       detail_stripe_fee] in Hcents.
  apply Forall_cons in Hcents as [[_ H1] Hcents].
  apply Forall_cons in Hcents as [[_ H2] Hcents].
  apply Forall_cons in Hcents as [[_ H3] Hcents].
  apply Forall_cons in Hcents as [[_ H4] _].
  cbn [Decimal.coefficient] in H1, H2, H3, H4.
  eexists _, (cents (c1 + c2 + c3 + c4)).
  split; [exact Hr |]. split; [| split; [reflexivity | split; [reflexivity |]]].
  - unfold get_project_posting_price. rewrite Hr.
    cbn [mbind Decimal.result_bind]. unfold price_values.
    cbn [detail_project_price detail_concierge_price detail_vat_price
         detail_stripe_fee].
    apply RangeFacts.sum_cents; assumption.
  - pose proof (Qabs_sum4 _ _ _ _ _ _ _ _ _ B1 B2 B3 B4) as Hsum.
    rewrite to_Q_cents_sum. unfold exact_total.
    eapply Qle_trans; [| eapply Qle_trans; [exact Hsum | discriminate]].
    apply Qle_lteq. right. apply Qabs_wd.
    unfold cents. destruct has_concierge, add_fee; ring.
Qed.

Lemma get_project_posting_price_total_witness :
  exists r total,
    get_project_price_detailed example_fee pro_tier true true = Decimal.Value r /\
    get_project_posting_price example_fee pro_tier true true = Decimal.Value total /\
    Decimal.exponent total = -2 /\
    total = cents (Decimal.coefficient (detail_project_price r)
                   + Decimal.coefficient (detail_concierge_price r)
                   + Decimal.coefficient (detail_vat_price r)
                   + Decimal.coefficient (detail_stripe_fee r)) /\
    (Qabs (Decimal.to_Q total - exact_total example_fee pro_tier true true) <= 1 # 50)%Q.
Proof.
  apply (get_project_posting_price_total example_fee pro_tier true true).
  exact example_amounts_in_range.
Defined.

(** Beyond the range the sum itself is rounded: the total of four
    components of 27 and 28 digits is no longer written in cents. *)
Example total_beyond_precision :
  get_project_posting_price (fee_posting_at (9 * 10 ^ 27 + 626)) pro_tier false true =
  Decimal.Value (dec 1116000000000000000000000078 (-1)).
Proof. vm_compute. reflexivity. Qed.

(** ** Prices are not negative *)

Section NotNegative.
Import Decimal.

Lemma rescale_nonneg (d : t) (e : Z) : 0 <= coefficient d -> 0 <= rescale d e.
Proof.
  intros Hd. unfold rescale. apply Z.mul_nonneg_nonneg; [exact Hd |].
  apply Z.pow_nonneg. lia.
Qed.

Lemma round_half_even_nonneg (n d : Z) : 0 <= n -> 0 < d -> 0 <= round_half_even n d.
Proof.
  intros Hn Hd. unfold round_half_even.
  pose proof (Z.div_pos n d Hn Hd) as Hq.
  destruct (2 * (n mod d) ?= d); [destruct (Z.even (n / d)) | |]; lia.
Qed.

Lemma pow10_positive (k : Z) : 0 < 10 ^ k \/ 10 ^ k = 0.
Proof.
  destruct (Z.neg_nonneg_cases k) as [Hneg | Hnn].
  - right. apply Z.pow_neg_r. exact Hneg.
  - left. apply Z.pow_pos_nonneg; lia.
Qed.

(** The context keeps the sign: what [_fix] returns for a coefficient
    that is not negative has a coefficient that is not negative. *)
Lemma _fix_nonneg (d d' : t) :
  0 <= coefficient d -> _fix d = Value d' -> 0 <= coefficient d'.
Proof.
  intros Hd. unfold _fix.
  destruct (coefficient d =? 0); [intros H; injection H as <-; simpl; lia |].
  destruct (Etop <? digits (coefficient d) + exponent d - prec); [discriminate |].
  set (exp_min := Z.max (digits (coefficient d) + exponent d - prec) Etiny).
  destruct (Z.ltb_spec (exponent d) exp_min) as [Hlt | _];
    [| intros H; injection H as <-; exact Hd].
  assert (Hr : 0 <= round_half_even (coefficient d) (10 ^ (exp_min - exponent d))).
  { apply round_half_even_nonneg; [exact Hd |]. apply Z.pow_pos_nonneg; lia. }
  destruct (10 ^ prec <=? Z.abs (round_half_even (coefficient d) (10 ^ (exp_min - exponent d)))).
  - destruct (Etop <? exp_min + 1); [discriminate |].
    intros H; injection H as <-. cbn [coefficient]. apply Z.div_pos; lia.
  - intros H; injection H as <-. exact Hr.
Qed.

Lemma add_nonneg (a b s : t) :
  0 <= coefficient a -> 0 <= coefficient b -> add a b = Value s ->
  0 <= coefficient s.
Proof.
  intros Ha Hb. unfold add. apply _fix_nonneg. cbn [coefficient].
  pose proof (rescale_nonneg a (Z.min (exponent a) (exponent b)) Ha).
  pose proof (rescale_nonneg b (Z.min (exponent a) (exponent b)) Hb). lia.
Qed.

Lemma mul_nonneg (a b p : t) :
  0 <= coefficient a -> 0 <= coefficient b -> mul a b = Value p ->
  0 <= coefficient p.
Proof.
  intros Ha Hb. unfold mul. apply _fix_nonneg. cbn [coefficient]. nia.
Qed.

Lemma strip_zeros_nonneg (fuel : nat) (coeff exp ideal_exp : Z) :
  0 <= coeff -> 0 <= (strip_zeros fuel coeff exp ideal_exp).1.
Proof.
  revert coeff exp. induction fuel as [| fuel IH]; intros coeff exp Hc; [exact Hc |].
  cbn [strip_zeros].
  destruct ((exp <? ideal_exp) && (coeff mod 10 =? 0)); [| exact Hc].
  apply IH. apply Z.div_pos; lia.
Qed.

Lemma div_eucl_nonneg (n d : Z) : 0 <= n -> 0 < d -> 0 <= (Z.div_eucl n d).1.
Proof.
  intros Hn Hd. pose proof (Z.div_pos n d Hn Hd) as Hq.
  unfold Z.div in Hq. destruct (Z.div_eucl n d). exact Hq.
Qed.

Lemma div100_nonneg (a q : t) :
  0 <= coefficient a -> div100 a = Value q -> 0 <= coefficient q.
Proof.
  intros Ha. unfold div100.
  destruct (Z.eqb_spec (coefficient a) 0) as [H0 | H0];
    [apply _fix_nonneg; simpl; lia |].
  set (shift := 3 - digits (coefficient a) + prec + 1).
  assert (Hquot : 0 <= (if 0 <=? shift
                        then Z.div_eucl (Z.abs (coefficient a) * 10 ^ shift) 100
                        else Z.div_eucl (Z.abs (coefficient a)) (100 * 10 ^ (- shift))).1).
  { destruct (Z.leb_spec 0 shift) as [Hs | Hs].
    - apply div_eucl_nonneg; [| lia].
      apply Z.mul_nonneg_nonneg; [lia | apply Z.pow_nonneg; lia].
    - apply div_eucl_nonneg; [lia |].
      assert (0 < 10 ^ (- shift)) by (apply Z.pow_pos_nonneg; lia). lia. }
  destruct (if 0 <=? shift
            then Z.div_eucl (Z.abs (coefficient a) * 10 ^ shift) 100
            else Z.div_eucl (Z.abs (coefficient a)) (100 * 10 ^ (- shift)))
    as [coeff remainder].
  cbn [fst] in Hquot.
  assert (Hsgn : Z.sgn (coefficient a) = 1) by lia. rewrite Hsgn.
  destruct (negb (remainder =? 0)).
  - apply _fix_nonneg. cbn [coefficient].
    destruct (coeff mod 5 =? 0); lia.
  - pose proof (strip_zeros_nonneg (Z.to_nat (exponent a - (exponent a - shift)))
                  coeff (exponent a - shift) (exponent a) Hquot) as Hstrip.
    destruct (strip_zeros _ coeff _ _) as [coeff' exp'].
    cbn [fst] in Hstrip. apply _fix_nonneg. cbn [coefficient]. lia.
Qed.

Lemma _rescale_nonneg (d : t) (e : Z) :
  0 <= coefficient d -> 0 <= coefficient (_rescale d e).
Proof.
  intros Hd. unfold _rescale.
  destruct (coefficient d =? 0); [simpl; lia |].
  destruct (Z.leb_spec e (exponent d)); cbn [coefficient].
  - apply rescale_nonneg, Hd.
  - apply round_half_even_nonneg; [exact Hd |]. apply Z.pow_pos_nonneg; lia.
Qed.

Lemma round_nonneg (d r : t) (ndigits : Z) :
  0 <= coefficient d -> round d ndigits = Value r -> 0 <= coefficient r.
Proof.
  intros Hd. unfold round, quantize.
  destruct (negb _); [discriminate |].
  destruct (coefficient d =? 0); [apply _fix_nonneg; simpl; lia |].
  destruct (Emax <? adjusted d); [discriminate |].
  destruct (prec <? adjusted d - - ndigits + 1); [discriminate |].
  destruct (Emax <? adjusted (_rescale d (- ndigits))); [discriminate |].
  destruct (prec <? digits (coefficient (_rescale d (- ndigits)))); [discriminate |].
  apply _fix_nonneg, _rescale_nonneg, Hd.
Qed.

Lemma or_zero_nonneg (x : option t) :
  (forall d, x = Some d -> 0 <= coefficient d) -> 0 <= coefficient (or_zero x).
Proof.
  intros Hx. destruct x as [d |]; simpl; [| lia].
  destruct (truthy d); [apply Hx; reflexivity | simpl; lia].
Qed.

Lemma sum_nonneg (values : list t) (total : t) :
  Forall (fun d => 0 <= coefficient d) values ->
  sum values = Value total -> 0 <= coefficient total.
Proof.
  unfold sum.
  assert (Hgen : forall start : result t,
            (forall d, start = Value d -> 0 <= coefficient d) ->
            Forall (fun d => 0 <= coefficient d) values ->
            foldl (fun total value => total ← total; add total value) start values
              = Value total ->
            0 <= coefficient total).
  { induction values as [| v values IH]; intros start Hstart Hvalues.
    - simpl. apply Hstart.
    - apply Forall_cons in Hvalues as [Hv Hvalues]. cbn [foldl].
      apply IH; [| exact Hvalues].
      intros d. destruct start as [acc |]; cbn [mbind result_bind]; [| discriminate].
      apply add_nonneg; [apply Hstart; reflexivity | exact Hv]. }
  apply Hgen. intros d H. injection H as <-. simpl. lia.
Qed.

Lemma bind_value {A B : Type} (m : result A) (k : A -> result B) (b : B) :
  m ≫= k = Value b -> exists a, m = Value a /\ k a = Value b.
Proof.
  destruct m as [a |]; cbn [mbind result_bind]; [| discriminate].
  intros H. exists a. split; [reflexivity | exact H].
Qed.

End NotNegative.

(** X12. With a fee schedule and a concierge price that are not
    negative, whatever their size, no component of a price that
    [get_project_price_detailed] returns is negative, and neither is a
    total that [get_project_posting_price] returns. *)
Theorem prices_not_negative
    (fee : PaymentFee) (self : Membership) (has_concierge add_fee : bool) :
  not_negative (project_posting_price fee) ->
  0 <= Decimal.coefficient (tax_percentage fee) ->
  0 <= Decimal.coefficient (stripe_percentage fee) ->
  not_negative (concierge_price self) ->
  (forall r,
     get_project_price_detailed fee self has_concierge add_fee = Decimal.Value r ->
     0 <= Decimal.coefficient (detail_project_price r) /\
     0 <= Decimal.coefficient (detail_concierge_price r) /\
     0 <= Decimal.coefficient (detail_vat_price r) /\
     0 <= Decimal.coefficient (detail_stripe_fee r)) /\
  (forall total,
     get_project_posting_price fee self has_concierge add_fee = Decimal.Value total ->
     0 <= Decimal.coefficient total).
Proof.
  intros Hp Ht Hs Hc.
  pose proof (or_zero_nonneg _ Hp) as Hp'. pose proof (or_zero_nonneg _ Hc) as Hc'.
  assert (Hdetail : forall r,
    get_project_price_detailed fee self has_concierge add_fee = Decimal.Value r ->
    0 <= Decimal.coefficient (detail_project_price r) /\
    0 <= Decimal.coefficient (detail_concierge_price r) /\
    0 <= Decimal.coefficient (detail_vat_price r) /\
    0 <= Decimal.coefficient (detail_stripe_fee r)).
  { intros r. unfold get_project_price_detailed. cbv zeta. intros Hr.
    apply bind_value in Hr as ([c s] & Hsub & Hr).
    assert (Hcs : 0 <= Decimal.coefficient c /\ 0 <= Decimal.coefficient s).
    { destruct has_concierge.
      - apply bind_value in Hsub as (s' & Hadd & Hsub). injection Hsub as <- <-.
        split; [exact Hc' |]. exact (add_nonneg _ _ _ Hp' Hc' Hadd).
      - injection Hsub as <- <-. split; [simpl; lia | exact Hp']. }
    destruct Hcs as [Hc0 Hs0].
    apply bind_value in Hr as (vat & Hvat & Hr).
    apply bind_value in Hvat as (product & Hmul & Hdiv).
    pose proof (div100_nonneg _ _ (mul_nonneg _ _ _ Hs0 Ht Hmul) Hdiv) as Hvat0.
    apply bind_value in Hr as (stripe_fee & Hfee & Hr).
    assert (Hfee0 : 0 <= Decimal.coefficient stripe_fee).
    { destruct add_fee.
      - apply bind_value in Hfee as (product' & Hmul' & Hdiv').
        exact (div100_nonneg _ _ (mul_nonneg _ _ _ Hs0 Hs Hmul') Hdiv').
      - injection Hfee as <-. simpl. lia. }
    apply bind_value in Hr as (r1 & Hr1 & Hr).
    apply bind_value in Hr as (r2 & Hr2 & Hr).
    apply bind_value in Hr as (r3 & Hr3 & Hr).
    apply bind_value in Hr as (r4 & Hr4 & Hr).
    injection Hr as <-.
    cbn [detail_project_price detail_concierge_price detail_vat_price
         detail_stripe_fee].
    split; [exact (round_nonneg _ _ _ Hp' Hr1) |].
    split; [exact (round_nonneg _ _ _ Hc0 Hr2) |].
    split; [exact (round_nonneg _ _ _ Hvat0 Hr3) |].
    exact (round_nonneg _ _ _ Hfee0 Hr4). }
  split; [exact Hdetail |].
  intros total. unfold get_project_posting_price. intros Htotal.
  apply bind_value in Htotal as (r & Hr & Hsum).
  destruct (Hdetail r Hr) as (H1 & H2 & H3 & H4).
  apply (sum_nonneg (price_values r)); [| exact Hsum].
  unfold price_values.
  repeat (apply Forall_cons_2; [assumption |]). apply Forall_nil_2.
Qed.

Lemma prices_not_negative_witness :
  (exists r,
     get_project_price_detailed example_fee pro_tier true true = Decimal.Value r /\
     0 <= Decimal.coefficient (detail_project_price r) /\
     0 <= Decimal.coefficient (detail_concierge_price r) /\
     0 <= Decimal.coefficient (detail_vat_price r) /\
     0 <= Decimal.coefficient (detail_stripe_fee r)) /\
  (exists total,
     get_project_posting_price example_fee pro_tier true true = Decimal.Value total /\
     0 <= Decimal.coefficient total).
Proof.
  destruct (prices_not_negative example_fee pro_tier true true) as [Hdetail Htotal].
  - intros d Hd. injection Hd as <-. simpl. lia.
  - simpl. lia.
  - simpl. lia.
  - intros d Hd. injection Hd as <-. simpl. lia.
  - split.
    + eexists. split; [vm_compute; reflexivity |].
      apply Hdetail. vm_compute. reflexivity.
    + eexists. split; [vm_compute; reflexivity |].
      apply Htotal. vm_compute. reflexivity.
Defined.

(** * The refresh token guard *)

Module RefreshTokenFacts.
Import RefreshTokens.

(** X13. [issue_refresh_token] is a compare-and-swap on the user's row.
    When the row exists, the call returns whether the stored token is the
    one the object holds; if so the row takes the new text, and otherwise
    it keeps what it had; the rows of other users are never touched; and
    the object ends up holding what the row holds. *)
Theorem issue_refresh_token_cas
    (verifies : string -> bool) (text : string) (s : State) (stored : string) :
  tokens (db s) !! pk (self s) = Some stored ->
  let '(r, s') := issue_refresh_token verifies text s in
  let matched := String.eqb stored (last_refresh_token (self s)) in
  r = Returned matched /\
  tokens (db s') !! pk (self s) = Some (if matched then text else stored) /\
  (forall k, k <> pk (self s) -> tokens (db s') !! k = tokens (db s) !! k) /\
  pk (self s') = pk (self s) /\
  tokens (db s') !! pk (self s') = Some (last_refresh_token (self s')).
Proof.
  intros Hrow. unfold issue_refresh_token, update_by_refresh_token.
  rewrite Hrow.
  destruct (String.eqb stored (last_refresh_token (self s))); simpl.
  - rewrite lookup_insert_eq. simpl. rewrite lookup_insert_eq.
    repeat split; auto. intros k Hk. apply lookup_insert_ne. congruence.
  - rewrite Hrow. simpl. rewrite Hrow. repeat split; auto.
Qed.

Lemma issue_refresh_token_cas_witness :
  let '(r, s') := issue_refresh_token example_verifies "new"
                    {| self := {| pk := 7; last_refresh_token := "old" |};
                       db := example_tokens |} in
  let matched := String.eqb "old" "old" in
  r = Returned matched /\
  tokens (db s') !! 7 = Some (if matched then "new" else "old") /\
  (forall k, k <> 7 -> tokens (db s') !! k = tokens example_tokens !! k) /\
  pk (self s') = 7 /\
  tokens (db s') !! pk (self s') = Some (last_refresh_token (self s')).
Proof.
  apply (issue_refresh_token_cas example_verifies "new"
           {| self := {| pk := 7; last_refresh_token := "old" |};
              db := example_tokens |} "old").
  vm_compute. reflexivity.
Defined.

(** X14. Two handlers load the same user and issue one token each, one
    after the other.  The first call succeeds.  The second, whose object
    still holds the token it loaded, succeeds only if the first wrote back
    that very token; otherwise it returns false and the row keeps the
    token of the first. *)
Theorem issue_refresh_token_race
    (verifies : string -> bool) (id : Z) (d : Database)
    (first second : State) (text1 text2 : string) :
  load id d = Some first ->
  load id d = Some second ->
  let '(r1, s1) := issue_refresh_token verifies text1 first in
  let '(r2, s2) :=
    issue_refresh_token verifies text2 {| self := self second; db := db s1 |} in
  r1 = Returned true /\
  r2 = Returned (String.eqb text1 (last_refresh_token (self second))) /\
  (text1 <> last_refresh_token (self second) ->
   r2 = Returned false /\ tokens (db s2) !! id = Some text1 /\
   last_refresh_token (self s2) = text1).
Proof.
  unfold load. destruct (tokens d !! id) as [stored |] eqn:Hrow; [| discriminate].
  intros H1 H2. injection H1 as <-. injection H2 as <-.
  unfold issue_refresh_token, update_by_refresh_token. simpl.
  rewrite Hrow, String.eqb_refl. simpl. rewrite !lookup_insert_eq. simpl.
  rewrite !lookup_insert_eq.
  destruct (String.eqb_spec text1 stored) as [-> | Hne]; simpl.
  - rewrite !lookup_insert_eq. split; [reflexivity |]. split; [reflexivity |].
    intros Hc. contradiction.
  - rewrite !lookup_insert_eq. repeat split; auto.
    simpl. apply lookup_insert_eq.
Qed.

Lemma issue_refresh_token_race_witness :
  let first := {| self := {| pk := 7; last_refresh_token := "old" |};
                  db := example_tokens |} in
  let '(r1, s1) := issue_refresh_token example_verifies "new-a" first in
  let '(r2, s2) :=
    issue_refresh_token example_verifies "new-b" {| self := self first; db := db s1 |} in
  r1 = Returned true /\
  r2 = Returned (String.eqb "new-a" (last_refresh_token (self first))) /\
  ("new-a" <> last_refresh_token (self first) ->
   r2 = Returned false /\ tokens (db s2) !! 7 = Some "new-a" /\
   last_refresh_token (self s2) = "new-a").
Proof.
  apply (issue_refresh_token_race example_verifies 7 example_tokens
           {| self := {| pk := 7; last_refresh_token := "old" |}; db := example_tokens |}
           {| self := {| pk := 7; last_refresh_token := "old" |}; db := example_tokens |}
           "new-a" "new-b");
    vm_compute; reflexivity.
Defined.

(** X15. After a call that returns, the object is in step with its row,
    so the next call by the same object succeeds and writes its text. *)
Theorem issue_refresh_token_again
    (verifies : string -> bool) (text1 text2 : string) (s s1 : State) (b : bool) :
  issue_refresh_token verifies text1 s = (Returned b, s1) ->
  exists s2,
    issue_refresh_token verifies text2 s1 = (Returned true, s2) /\
    tokens (db s2) !! pk (self s) = Some text2 /\
    last_refresh_token (self s2) = text2.
Proof.
  unfold issue_refresh_token at 1. unfold update_by_refresh_token.
  destruct (tokens (db s) !! pk (self s)) as [stored |] eqn:Hrow.
  - destruct (String.eqb stored (last_refresh_token (self s))); simpl.
    + rewrite lookup_insert_eq. intros H. injection H as <- <-.
      unfold issue_refresh_token, update_by_refresh_token. simpl.
      rewrite lookup_insert_eq, String.eqb_refl. simpl. rewrite lookup_insert_eq.
      eexists. split; [reflexivity |]. simpl. rewrite lookup_insert_eq. auto.
    + rewrite Hrow. intros H. injection H as <- <-.
      unfold issue_refresh_token, update_by_refresh_token. simpl.
      rewrite Hrow, String.eqb_refl. simpl. rewrite lookup_insert_eq.
      eexists. split; [reflexivity |]. simpl. rewrite lookup_insert_eq. auto.
  - simpl. rewrite Hrow. discriminate.
Qed.

Lemma issue_refresh_token_again_witness :
  exists s2,
    issue_refresh_token example_verifies "second"
      (issue_refresh_token example_verifies "first"
         {| self := {| pk := 7; last_refresh_token := "stale" |};
            db := example_tokens |}).2 = (Returned true, s2) /\
    tokens (db s2) !! 7 = Some "second" /\
    last_refresh_token (self s2) = "second".
Proof.
  apply (issue_refresh_token_again example_verifies "first" "second"
           {| self := {| pk := 7; last_refresh_token := "stale" |};
              db := example_tokens |} _ false).
  vm_compute. reflexivity.
Defined.

(** X16. The blacklist only grows, and only by the token the object held
    when the call began.  That token is blacklisted whenever it is not
    empty and verifies, also when the update then fails or the row is
    gone; an empty token or one that raises [TokenError] leaves the
    blacklist as it is, and the call goes on. *)
Theorem issue_refresh_token_blacklist
    (verifies : string -> bool) (text : string) (s : State) :
  let old := last_refresh_token (self s) in
  let listed' := blacklist (db (issue_refresh_token verifies text s).2) in
  blacklist (db s) ⊆ listed' /\
  listed' ⊆ {[old]} ∪ blacklist (db s) /\
  (old <> "" -> verifies old = true -> old ∈ listed') /\
  (old = "" \/ verifies old = false -> listed' = blacklist (db s)).
Proof.
  cbv zeta. unfold issue_refresh_token, refresh_token_blacklist, update_by_refresh_token.
  destruct (tokens (db s) !! pk (self s)) as [stored |] eqn:Hrow;
    [destruct (String.eqb stored (last_refresh_token (self s))) |];
    simpl; rewrite ?lookup_insert_eq, ?Hrow; simpl;
    destruct (String.eqb_spec (last_refresh_token (self s)) "") as [He | He]; simpl;
    destruct (verifies (last_refresh_token (self s))) eqn:Hv; simpl;
    try case_bool_decide; simpl;
    (split; [set_solver |]); (split; [set_solver |]);
    (split; [intros; try congruence; set_solver |]);
    intros [? | ?]; congruence.
Qed.

End RefreshTokenFacts.

(** * Logging in as a user *)

Module LoginAsFacts.
Import LoginAs.

(** The lookup by token finds a row when it is the only one holding the
    token, and nothing when no row holds it. *)
Lemma get_by_login_as_token_unique (text : string) (table : gmap Z User)
    (k : Z) (row : User) :
  table !! k = Some row ->
  login_as_token row = Some text ->
  (forall k' row', table !! k' = Some row' -> login_as_token row' = Some text -> k' = k) ->
  get_by_login_as_token text table = Ok (Some row).
Proof.
  intros Hrow Htoken Hunique. unfold get_by_login_as_token.
  assert (Hfilter : filter (fun kv : Z * User => login_as_token kv.2 = Some text) table
                    = {[ k := row ]}).
  { apply map_eq. intros i. destruct (decide (i = k)) as [-> | Hne].
    - rewrite lookup_singleton_eq. apply map_lookup_filter_Some. auto.
    - rewrite lookup_singleton_ne by congruence.
      apply map_lookup_filter_None. right. intros row' Hrow' Htoken'.
      apply Hne. exact (Hunique i row' Hrow' Htoken'). }
  rewrite Hfilter, map_to_list_singleton. reflexivity.
Qed.

Lemma get_by_login_as_token_none (text : string) (table : gmap Z User) :
  (forall k row, table !! k = Some row -> login_as_token row <> Some text) ->
  get_by_login_as_token text table = Ok None.
Proof.
  intros Hnone. unfold get_by_login_as_token.
  assert (Hfilter : filter (fun kv : Z * User => login_as_token kv.2 = Some text) table = ∅).
  { apply map_eq. intros i. rewrite lookup_empty.
    apply map_lookup_filter_None. right. intros row Hrow. exact (Hnone i row Hrow). }
  rewrite Hfilter, map_to_list_empty. reflexivity.
Qed.

(** X17. [generate_login_as_token] refuses a user who is not reviewed, or
    not active, or neither a client nor a freelancer, in that order of
    precedence, and a refusal changes neither the object nor the table;
    for any other user it raises no [ValueError]. *)
Theorem generate_login_as_token_refusals
    (fresh : string) (self : User) (table : gmap Z User) :
  let '(r, self', table') := generate_login_as_token fresh self table in
  (is_reviewed self = false ->
     r = Raise (ValueError "User is not Reviewed") /\ self' = self /\ table' = table) /\
  (is_reviewed self = true -> is_active self = false ->
     r = Raise (ValueError "User is not Active") /\ self' = self /\ table' = table) /\
  (is_reviewed self = true -> is_active self = true ->
   profile_type self <> "client" -> profile_type self <> "freelancer" ->
     r = Raise (ValueError "User is not Client or Freelancer") /\
     self' = self /\ table' = table) /\
  (is_reviewed self = true -> is_active self = true ->
   profile_type self = "client" \/ profile_type self = "freelancer" ->
     forall message, r <> Raise (ValueError message)).
Proof.
  unfold generate_login_as_token.
  destruct (is_reviewed self); simpl.
  2:{ repeat split; intros; congruence. }
  destruct (is_active self); simpl.
  2:{ repeat split; intros; congruence. }
  case_bool_decide as Hkind; simpl.
  - assert (Hin : profile_type self = "client" \/ profile_type self = "freelancer").
    { apply elem_of_cons in Hkind. destruct Hkind as [? | Hkind]; [auto |].
      apply elem_of_cons in Hkind. destruct Hkind as [? | Hkind]; [auto |].
      apply elem_of_nil in Hkind. contradiction. }
    destruct (save_login_as_token _ table);
      (split; [intros; congruence |]); (split; [intros; congruence |]);
      (split; [intros _ _ Hc Hf; destruct Hin; contradiction |]);
      intros _ _ _ message; discriminate.
  - split; [intros; congruence |]. split; [intros; congruence |].
    split; [intros; auto |].
    intros _ _ [Hc | Hf]; exfalso; apply Hkind.
    + rewrite Hc. apply list_elem_of_here.
    + rewrite Hf. apply list_elem_of_further, list_elem_of_here.
Qed.



(** X19. Clearing ends the login-as session.  After
    [clear_login_as_token] on a user with a row, the object and the row
    hold no token, the payload is no longer marked as concierge, and
    [validate] refuses every token that no other row holds. *)
Theorem clear_then_validate
    (self : User) (table : gmap Z User) (row : User) (text : string) :
  table !! pk self = Some row ->
  (forall k row', k <> pk self -> table !! k = Some row' ->
     login_as_token row' <> Some text) ->
  let '(r, self', table') := clear_login_as_token self table in
  r = Ok tt /\
  login_as_token self' = None /\
  (login_as_token <$> table' !! pk self) = Some None /\
  (forall k, k <> pk self -> table' !! k = table !! k) /\
  payload_is_concierge (get_jwt_payload self') = false /\
  validate text table' =
    Raise (ValidationError "No account found with the given token").
Proof.
  intros Hrow Hothers. unfold clear_login_as_token, save_login_as_token. simpl.
  rewrite Hrow.
  split; [reflexivity |]. split; [reflexivity |].
  split; [rewrite lookup_insert_eq; reflexivity |].
  split; [intros k Hk; apply lookup_insert_ne; congruence |].
  split; [reflexivity |].
  unfold validate. rewrite get_by_login_as_token_none; [reflexivity |].
  intros k row' Hrow'. destruct (decide (k = pk self)) as [-> | Hne].
  - rewrite lookup_insert_eq in Hrow'. injection Hrow' as <-. discriminate.
  - rewrite lookup_insert_ne in Hrow' by congruence. exact (Hothers k row' Hne Hrow').
Qed.

Lemma clear_then_validate_witness :
  let '(r, self', table') :=
    clear_login_as_token (example_user 8 "freelancer" true true (Some "taken"))
      example_table in
  r = Ok tt /\
  login_as_token self' = None /\
  (login_as_token <$> table' !! 8) = Some None /\
  (forall k, k <> 8 -> table' !! k = example_table !! k) /\
  payload_is_concierge (get_jwt_payload self') = false /\
  validate "taken" table' =
    Raise (ValidationError "No account found with the given token").
Proof.
  apply (clear_then_validate (example_user 8 "freelancer" true true (Some "taken"))
           example_table (example_user 8 "freelancer" true true (Some "taken"))).
  - vm_compute. reflexivity.
  - intros k row' Hk Hrow'. simpl in Hk.
    destruct (decide (k = 7)) as [-> | H7].
    + vm_compute in Hrow'. injection Hrow' as <-. discriminate.
    + unfold example_table in Hrow'.
      rewrite lookup_insert_ne, lookup_singleton_ne in Hrow' by congruence.
      discriminate.
Defined.

End LoginAsFacts.

(** * The export of users *)

Module ExportUsersFacts.
Import ExportUsers.

Lemma foldl_each_profile (acc : gset string * list Line) (ps : list Profile) :
  foldl each_profile acc ps =
  (list_to_set (email <$> ps) ∪ acc.1, acc.2 ++ (profile_line <$> ps)).
Proof.
  revert acc. induction ps as [| p ps IH]; intros [known out]; simpl.
  - f_equal; [set_solver | rewrite app_nil_r; reflexivity].
  - rewrite IH. simpl. f_equal; [set_solver |].
    rewrite <- app_assoc. reflexivity.
Qed.

Lemma foldl_each_user (known : gset string) (out : list Line) (us : list User) :
  foldl (each_user known) out us =
  out ++ (user_line <$> filter (fun u => user_email u ∉ known) us).
Proof.
  revert out. induction us as [| u us IH]; intros out; simpl.
  - rewrite app_nil_r. reflexivity.
  - rewrite IH. unfold each_user. case_bool_decide as Hu.
    + rewrite filter_cons_False by (intros Hn; exact (Hn Hu)). reflexivity.
    + rewrite filter_cons_True by exact Hu. simpl.
      rewrite <- app_assoc. reflexivity.
Qed.

(** The lines of the export: the profiles of the three classes, then the
    users whose email no profile has. *)
Lemma gen_user_data_lines (clients freelancers advisers : list Profile)
    (users : list User) :
  let profiles := clients ++ freelancers ++ advisers in
  gen_user_data clients freelancers advisers users =
  (profile_line <$> profiles) ++
  (user_line <$> filter (fun u => user_email u ∉ email <$> profiles) users).
Proof.
  cbv zeta. unfold gen_user_data.
  rewrite !foldl_each_profile, foldl_each_user. simpl.
  rewrite !fmap_app, <- !app_assoc. f_equal. f_equal. f_equal. f_equal.
  apply list_filter_iff. intros u. set_solver.
Qed.

(** X20. The export leaves no user out and invents no line: the email of
    every user is on some line; and every line is either the line of a
    profile, or the line of a user whose email no profile has, with empty
    names and phone. *)
Theorem gen_user_data_complete (clients freelancers advisers : list Profile)
    (users : list User) :
  let profiles := clients ++ freelancers ++ advisers in
  let out := gen_user_data clients freelancers advisers users in
  (forall u, u ∈ users -> user_email u ∈ line_email <$> out) /\
  (forall l, l ∈ out ->
     (exists p, p ∈ profiles /\ l = profile_line p) \/
     (exists u, u ∈ users /\ l = user_line u /\
        forall p, p ∈ profiles -> email p <> user_email u)).
Proof.
  cbv zeta. rewrite gen_user_data_lines. cbv zeta. split.
  - intros u Hu. rewrite fmap_app, elem_of_app.
    destruct (decide (user_email u ∈ email <$> (clients ++ freelancers ++ advisers)))
      as [Hin | Hout].
    + left. apply list_elem_of_fmap in Hin. destruct Hin as (p & Hp & Hin).
      apply list_elem_of_fmap. exists (profile_line p). split; [exact Hp |].
      apply list_elem_of_fmap. exists p. auto.
    + right. apply list_elem_of_fmap. exists (user_line u). split; [reflexivity |].
      apply list_elem_of_fmap. exists u. split; [reflexivity |].
      apply list_elem_of_filter. auto.
  - intros l Hl. apply elem_of_app in Hl. destruct Hl as [Hl | Hl].
    + left. apply list_elem_of_fmap in Hl. destruct Hl as (p & -> & Hp). eauto.
    + right. apply list_elem_of_fmap in Hl. destruct Hl as (u & -> & Hu).
      apply list_elem_of_filter in Hu. destruct Hu as [Hout Hu].
      exists u. split; [exact Hu |]. split; [reflexivity |].
      intros p Hp Heq. apply Hout. apply list_elem_of_fmap. exists p. auto.
Qed.

(** X21. When every profile is the profile of a user, and emails are
    unique among the users and among the profiles, the export has exactly
    one line per user: the emails on its lines are those of the users,
    each once. *)
Theorem gen_user_data_once (clients freelancers advisers : list Profile)
    (users : list User) :
  let profiles := clients ++ freelancers ++ advisers in
  NoDup (user_email <$> users) ->
  NoDup (email <$> profiles) ->
  (forall p, p ∈ profiles -> email p ∈ user_email <$> users) ->
  line_email <$> gen_user_data clients freelancers advisers users
    ≡ₚ user_email <$> users.
Proof.
  cbv zeta. intros Husers Hprofiles Hsub.
  rewrite gen_user_data_lines. cbv zeta.
  set (profiles := clients ++ freelancers ++ advisers) in *.
  rewrite fmap_app, <- !list_fmap_compose.
  change (line_email ∘ profile_line) with email.
  change (line_email ∘ user_line) with user_email.
  apply NoDup_Permutation.
  - apply NoDup_app. split; [exact Hprofiles |]. split.
    + intros e He Hin. apply list_elem_of_fmap in Hin.
      destruct Hin as (u & -> & Hu). apply list_elem_of_filter in Hu.
      destruct Hu as [Hout _]. exact (Hout He).
    + clear Hsub. induction users as [| u users IH]; [constructor |].
      simpl in Husers. apply NoDup_cons in Husers. destruct Husers as [Hu Husers].
      destruct (decide (user_email u ∉ email <$> profiles)) as [Hout | Hin].
      * rewrite filter_cons_True by exact Hout. simpl. apply NoDup_cons. split.
        -- intros Hin. apply Hu. apply list_elem_of_fmap in Hin.
           destruct Hin as (v & -> & Hv). apply list_elem_of_filter in Hv.
           apply list_elem_of_fmap. exists v. split; [reflexivity | apply Hv].
        -- apply IH, Husers.
      * rewrite filter_cons_False by exact Hin. apply IH, Husers.
  - exact Husers.
  - intros e. rewrite elem_of_app. split.
    + intros [He | He].
      * apply list_elem_of_fmap in He. destruct He as (p & -> & Hp). apply Hsub, Hp.
      * apply list_elem_of_fmap in He. destruct He as (u & -> & Hu).
        apply list_elem_of_filter in Hu. apply list_elem_of_fmap.
        exists u. split; [reflexivity | apply Hu].
    + intros He.
      destruct (decide (e ∈ email <$> profiles)) as [Hin | Hout]; [left; exact Hin |].
      right. apply list_elem_of_fmap in He. destruct He as (u & -> & Hu).
      apply list_elem_of_fmap. exists u. split; [reflexivity |].
      apply list_elem_of_filter. auto.
Qed.

Lemma gen_user_data_once_witness :
  line_email <$> gen_user_data example_profiles [] [] example_users
    ≡ₚ user_email <$> example_users.
Proof.
  apply (gen_user_data_once example_profiles [] [] example_users).
  - simpl. apply NoDup_cons. split; [| apply NoDup_singleton].
    intros Hin. apply list_elem_of_singleton in Hin. discriminate.
  - simpl. apply NoDup_singleton.
  - intros p Hp. simpl in Hp. apply list_elem_of_singleton in Hp. subst p.
    simpl. apply list_elem_of_here.
Defined.

Example export_example :
  gen_user_data example_profiles [] [] example_users =
  [ ("c@example.org", "client", "C", "Client", None);
    ("admin@example.org", "", "", "", Some "") ].
Proof. vm_compute. reflexivity. Qed.

End ExportUsersFacts.

(** * Notifications *)

Module SlackWebhookFacts.
Import SlackWebhook.

(** X22. The signup notification only ever goes out for clients.  If the
    job posts, the webhook is configured and the user is a client; for a
    configured webhook and a user of any other profile type the job
    raises an attribute error, on the link that was left unset, and posts
    nothing. *)
Theorem slack_webhook_clients_only
    (s : Settings) (str_format : string -> Z -> option string)
    (users : gmap string User) (user_uuid : string) :
  (forall url text,
     slack_webhook_customer_success s str_format users user_uuid = Posted url text ->
     SLACK_WEBHOOK_CUSTOMER_SUCCESS s = Some url /\ url <> "" /\
     exists user, users !! user_uuid = Some user /\ profile_type user = "client") /\
  (forall user,
     falsy (SLACK_WEBHOOK_CUSTOMER_SUCCESS s) = false ->
     users !! user_uuid = Some user ->
     profile_type user <> "client" ->
     slack_webhook_customer_success s str_format users user_uuid = AttributeError).
Proof.
  unfold slack_webhook_customer_success. split.
  - intros url text.
    destruct (SLACK_WEBHOOK_CUSTOMER_SUCCESS s) as [hook |]; simpl; [| discriminate].
    destruct (String.eqb_spec hook "") as [-> | Hhook]; [discriminate |].
    destruct (users !! user_uuid) as [user |]; [| discriminate].
    destruct (String.eqb_spec (profile_type user) "client") as [Hc | Hc];
      [| discriminate].
    destruct (str_format _ _); [| discriminate].
    intros H. injection H as <- _. split; [reflexivity |]. split; [exact Hhook |].
    exists user. auto.
  - intros user Hhook Huser Hkind. rewrite Hhook, Huser.
    apply String.eqb_neq in Hkind. rewrite Hkind. reflexivity.
Qed.

Example freelancer_signup_is_not_posted :
  slack_webhook_customer_success example_settings example_format example_users "u-7"
  = AttributeError.
Proof. vm_compute. reflexivity. Qed.

End SlackWebhookFacts.

Module EmailTemplateFacts.
Import EmailTemplate.

Lemma lookup_var_app_l (key : string) (vars extra : Vars) (value : string) :
  lookup_var key vars = Some value -> lookup_var key (vars ++ extra) = Some value.
Proof.
  unfold lookup_var. induction vars as [| [k v] vars IH]; simpl; [discriminate |].
  destruct (String.eqb k key); [auto | exact IH].
Qed.

Lemma lookup_var_app_r (key : string) (vars extra : Vars) :
  lookup_var key vars = None -> lookup_var key (vars ++ extra) = lookup_var key extra.
Proof.
  unfold lookup_var. induction vars as [| [k v] vars IH]; simpl; [reflexivity |].
  destruct (String.eqb k key); [discriminate | exact IH].
Qed.

Lemma lookup_var_None (key : string) (vars : Vars) :
  lookup_var key vars = None -> key ∉ vars.*1.
Proof.
  unfold lookup_var. induction vars as [| [k v] vars IH]; simpl.
  - intros _ Hin. apply elem_of_nil in Hin. contradiction.
  - destruct (String.eqb_spec k key) as [-> | Hne]; [discriminate |].
    intros Hnone Hin. apply elem_of_cons in Hin.
    destruct Hin as [-> | Hin]; [contradiction | exact (IH Hnone Hin)].
Qed.

(** X23. Every message carries the variable [APP_URL], with the value of
    the caller when the caller gave one and that of the settings
    otherwise.  The variables of the caller all go out, unchanged and in
    their order, none is added but [APP_URL], and no name is repeated.
    The dictionary of the caller is left holding the same variables as
    the message. *)
Theorem email_send_template_vars
    (settings : Settings) (send_template : string -> Message -> string + string)
    (template_name : string) (vars : Vars) (subject : string) (recipient : Recipient)
    (sender_name user_event_uuid from_email : option string) :
  NoDup vars.*1 ->
  let '(vars', message, _) :=
    email_send_template settings send_template template_name vars subject recipient
      sender_name user_event_uuid from_email in
  lookup_var "APP_URL" (merge_vars message) =
    Some (default (APP_URL settings) (lookup_var "APP_URL" vars)) /\
  (merge_vars message = vars \/
   merge_vars message = vars ++ [("APP_URL", APP_URL settings)]) /\
  NoDup (merge_vars message).*1 /\
  vars' = merge_vars message.
Proof.
  intros Hnodup. unfold email_send_template.
  assert (Hset :
    lookup_var "APP_URL" (setdefault "APP_URL" (APP_URL settings) vars) =
      Some (default (APP_URL settings) (lookup_var "APP_URL" vars)) /\
    (setdefault "APP_URL" (APP_URL settings) vars = vars \/
     setdefault "APP_URL" (APP_URL settings) vars =
       vars ++ [("APP_URL", APP_URL settings)]) /\
    NoDup (setdefault "APP_URL" (APP_URL settings) vars).*1).
  { unfold setdefault. destruct (lookup_var "APP_URL" vars) as [v |] eqn:Hv; simpl.
    - auto.
    - split; [rewrite lookup_var_app_r by exact Hv; reflexivity |].
      split; [auto |].
      rewrite fmap_app. apply NoDup_app. split; [exact Hnodup |]. split.
      + intros k Hk Hin. simpl in Hin. apply list_elem_of_singleton in Hin. subst k.
        exact (lookup_var_None _ _ Hv Hk).
      + simpl. apply NoDup_singleton. }
  destruct Hset as (H1 & H2 & H3).
  destruct (send_template template_name _); [destruct (falsy user_event_uuid) |];
    simpl; auto.
Qed.

Lemma email_send_template_vars_witness :
  let '(vars', message, _) :=
    email_send_template example_settings (fun _ _ => inr "queued") "Welcome"
      [("NAME", "Ada")] "Hello" (WithEmail "ada@example.org") None None None in
  lookup_var "APP_URL" (merge_vars message) =
    Some (default (APP_URL example_settings) (lookup_var "APP_URL" [("NAME", "Ada")])) /\
  (merge_vars message = [("NAME", "Ada")] \/
   merge_vars message = [("NAME", "Ada")] ++ [("APP_URL", APP_URL example_settings)]) /\
  NoDup (merge_vars message).*1 /\
  vars' = merge_vars message.
Proof.
  apply (email_send_template_vars example_settings (fun _ _ => inr "queued") "Welcome"
           [("NAME", "Ada")] "Hello" (WithEmail "ada@example.org") None None None).
  simpl. apply NoDup_singleton.
Defined.

(** X24. A failure of the mail client is silent unless the job was given
    an event.  Without [user_event_uuid] the job never raises: it returns
    the response of the client, or [None] when the client failed.  An
    error leaves the job only when an event was given, and it is the
    error of the client.  The client is asked with exactly the message
    the job built. *)
Theorem email_send_template_failure
    (settings : Settings) (send_template : string -> Message -> string + string)
    (template_name : string) (vars : Vars) (subject : string) (recipient : Recipient)
    (sender_name user_event_uuid from_email : option string) :
  let '(_, message, outcome) :=
    email_send_template settings send_template template_name vars subject recipient
      sender_name user_event_uuid from_email in
  (falsy user_event_uuid = true -> exists response, outcome = Returned response) /\
  (forall error, outcome = Raised error ->
     falsy user_event_uuid = false /\
     send_template template_name message = inl error) /\
  (forall response, send_template template_name message = inr response ->
     outcome = Returned (Some response)) /\
  (forall error, send_template template_name message = inl error ->
     outcome = if falsy user_event_uuid then Returned None else Raised error).
Proof.
  unfold email_send_template.
  destruct (send_template template_name _) as [error | response] eqn:Hsend;
    [destruct (falsy user_event_uuid) eqn:Hevent |]; simpl; rewrite Hsend;
    repeat split; intros; try congruence; eauto.
Qed.

End EmailTemplateFacts.

(** * Permissions *)

Module PermissionFacts.
Import Permissions.

(** X25. The profile types keep the roles apart: no request is granted
    two of the client, freelancer and adviser permissions; the
    adviser-or-freelancer permission is granted exactly when one of these
    two is; and a reviewed permission is granted exactly when its base
    permission is and the user behind the token exists and is
    reviewed. *)
Theorem permissions_keep_roles_apart (users : Users) (user : RequestUser) :
  (ClientPermission user && FreelancerPermission user = false) /\
  (ClientPermission user && AdviserPermission user = false) /\
  (FreelancerPermission user && AdviserPermission user = false) /\
  (AdviserOrFreelancerPermission user =
     AdviserPermission user || FreelancerPermission user) /\
  (ClientPermissionReviewed users user = true <->
     ClientPermission user = true /\ fetch users user = Some true) /\
  (FreelancerPermissionReviewed users user = true <->
     FreelancerPermission user = true /\ fetch users user = Some true).
Proof.
  unfold ClientPermissionReviewed, FreelancerPermissionReviewed, reviewed,
    ClientPermission, FreelancerPermission, AdviserPermission,
    AdviserOrFreelancerPermission, profile_type_permission.
  destruct user as [| | kind uuid].
  - simpl. repeat (split; [reflexivity |]).
    split; (split; [discriminate | intros [Hc _]; discriminate]).
  - simpl. repeat (split; [reflexivity |]).
    split; (split; [discriminate | intros [Hc _]; discriminate]).
  - assert (Hor : bool_decide (kind ∈ [Some "adviser"; Some "freelancer"]) =
                  bool_decide (kind = Some "adviser")
                  || bool_decide (kind = Some "freelancer")).
    { apply eq_true_iff_eq.
      rewrite orb_true_iff, !bool_decide_eq_true, !elem_of_cons, elem_of_nil.
      tauto. }
    split; [repeat case_bool_decide; simpl; congruence |].
    split; [repeat case_bool_decide; simpl; congruence |].
    split; [repeat case_bool_decide; simpl; congruence |].
    split; [exact Hor |].
    split; destruct (fetch users (TokenUser kind uuid)) as [[|] |];
      rewrite ?andb_true_r, ?andb_false_r;
      (split; [intros Hp; try discriminate; auto | intros [Hp Hf]; congruence]).
Qed.

End PermissionFacts.

Module ApprovalFacts.
Import Approval.

Lemma field_passes (field : string) (v : Value) :
  (String.eqb field "language_levels" && negb (truthy v) || is_brackets v
   || empty_relation v || negb (truthy v)) = negb (filled v).
Proof.
  destruct v as [| text | rows | b]; simpl.
  - destruct (String.eqb field "language_levels"); reflexivity.
  - destruct (String.eqb field "language_levels"),
             (String.eqb_spec text ""), (String.eqb_spec text "[]");
      subst; simpl; try reflexivity; discriminate.
  - destruct rows; simpl; rewrite ?andb_false_r; reflexivity.
  - destruct (String.eqb field "language_levels"), b; reflexivity.
Qed.

(** X26. A profile is ready for approval exactly when every approval
    field is filled in: a string that is neither empty nor ["[]"], a
    relation with at least one row, any other object that is truthy.
    The special case for [language_levels] changes nothing, so the answer
    depends neither on the names of the fields nor on their order. *)
Theorem is_ready_for_approval_filled :
  (forall fields : list (string * Value),
     is_ready_for_approval fields = forallb (fun fv => filled fv.2) fields) /\
  (forall fields fields' : list (string * Value),
     fields.*2 ≡ₚ fields'.*2 ->
     is_ready_for_approval fields = is_ready_for_approval fields').
Proof.
  assert (Hall : forall fields : list (string * Value),
            is_ready_for_approval fields = forallb (fun fv => filled fv.2) fields).
  { induction fields as [| [field v] rest IH]; [reflexivity |].
    cbn [is_ready_for_approval forallb snd]. rewrite <- IH.
    pose proof (field_passes field v) as Hv.
    destruct (String.eqb field "language_levels" && negb (truthy v) || is_brackets v);
      simpl in Hv.
    - apply negb_sym in Hv. simpl in Hv. rewrite Hv. reflexivity.
    - destruct (empty_relation v); simpl in Hv.
      + apply negb_sym in Hv. simpl in Hv. rewrite Hv. reflexivity.
      + destruct (negb (truthy v)); apply negb_sym in Hv; simpl in Hv;
          rewrite Hv; reflexivity. }
  assert (Hvalues : forall fields : list (string * Value),
            forallb (fun fv => filled fv.2) fields = forallb filled fields.*2).
  { induction fields as [| [field v] rest IH]; [reflexivity |].
    cbn [forallb snd]. rewrite IH. reflexivity. }
  split; [exact Hall |].
  intros fields fields' Hperm. rewrite !Hall, !Hvalues.
  induction Hperm as [| v l l' _ IH | v w l | l l' l'' _ IH1 _ IH2]; simpl.
  - reflexivity.
  - rewrite IH. reflexivity.
  - destruct (filled v), (filled w); reflexivity.
  - congruence.
Qed.

Example empty_brackets_are_not_ready :
  is_ready_for_approval [("first_name", VStr "Ada"); ("city", VStr "[]")] = false.
Proof. reflexivity. Qed.

End ApprovalFacts.

(** * The billing token *)

Module StripeCustomerFacts.
Import StripeCustomer.



(** Two objects of user 7, both loaded while the user had no customer:
    each creates one. *)
Example stale_object_creates_again :
  let s1 := (get_or_create_stripe_customer example_gateway example_state).2 in
  let s2 := (get_or_create_stripe_customer example_gateway
               {| self := self example_state; rows := rows s1; sent := sent s1 |}).2 in
  creations (sent s2) = ["c@example.org"; "c@example.org"].
Proof. vm_compute. reflexivity. Qed.

(** X28. With a billing token on the object, nothing is ever created:
    [create_stripe_customer] returns nothing and sends nothing, and
    [get_or_create_stripe_customer] sends one retrieval; neither changes
    the object or the table.  [delete_on_stripe] clears the token of the
    object only: the row keeps the token of the deleted customer. *)
Theorem token_is_kept (g : Gateway) (s : State) (token : string) :
  stripe_customer_token (self s) = Some token ->
  token <> "" ->
  create_stripe_customer g s = (Ok None, s) /\
  (let '(_, s') := get_or_create_stripe_customer g s in
   sent s' = sent s ++ [CustomerRetrieve token ["sources"]] /\
   self s' = self s /\ rows s' = rows s) /\
  (let '(r, s') := delete_on_stripe g s in
   rows s' = rows s /\ creations (sent s') = creations (sent s) /\
   forall b, r = Ok b -> stripe_customer_token (self s') = None).
Proof.
  intros Htoken Hne.
  assert (Hfalsy : falsy (stripe_customer_token (self s)) = false)
    by (rewrite Htoken; simpl; apply String.eqb_neq, Hne).
  unfold create_stripe_customer, get_or_create_stripe_customer, delete_on_stripe,
    get_stripe_customer.
  rewrite Hfalsy, Htoken. simpl. split; [reflexivity |]. split.
  - destruct (retrieve_reply g token); simpl; auto.
  - destruct (retrieve_reply g token) as [m | c]; simpl.
    + unfold creations. rewrite omap_app. simpl. rewrite app_nil_r.
      repeat split; auto. intros b Hb. discriminate.
    + destruct (delete_reply g (customer_id c)); simpl;
        unfold creations; rewrite !omap_app; simpl; rewrite !app_nil_r;
        repeat split; auto; intros b Hb; discriminate.
Qed.

Lemma token_is_kept_witness :
  let s := (get_or_create_stripe_customer example_gateway example_state).2 in
  create_stripe_customer example_gateway s = (Ok None, s) /\
  (let '(_, s') := get_or_create_stripe_customer example_gateway s in
   sent s' = sent s ++ [CustomerRetrieve "cus_1" ["sources"]] /\
   self s' = self s /\ rows s' = rows s) /\
  (let '(r, s') := delete_on_stripe example_gateway s in
   rows s' = rows s /\ creations (sent s') = creations (sent s) /\
   forall b, r = Ok b -> stripe_customer_token (self s') = None).
Proof.
  apply (token_is_kept example_gateway
           (get_or_create_stripe_customer example_gateway example_state).2 "cus_1").
  - vm_compute. reflexivity.
  - discriminate.
Defined.

End StripeCustomerFacts.
